(** * Self-similarity RNN graph: a shallow embedding

    Source: [magenta/models/shared/self_similarity_rnn_graph.py].

    Tensors are dense arrays with an explicit shape; float32 entries are
    idealised as real numbers (so [tf.nn.softmax] is [exp x / sum exp]
    exactly), integer tensors hold [Z].  Errors that TensorFlow or Python
    raise on ill-shaped arguments are values of [result]: a [ValueError]
    where the sizes that disagree are static in this module (batch and
    feature sizes, rejected when the graph is built), an
    [InvalidArgumentError] where they are only known when the graph runs
    (numbers of steps).

    Two things the reals do not have: a quotient by zero (the program
    yields [inf] or [NaN], here [x / 0] is a real number), so what is
    stated of a quotient is stated for a divisor other than zero; and
    rounding (a weight that is positive here can underflow to an exact
    zero in float32), so weights are bounded with [<=]. *)

From Stdlib Require Import Reals Lra Lia ZArith List String Bool Arith.
Import ListNotations.

Set Implicit Arguments.

(** ** Exceptions and fallible computations *)

Inductive exception : Type :=
| ValueError (msg : string)
| InvalidArgumentError (msg : string)
| UnimplementedError (msg : string)
| IndexError (msg : string)
| NameError (msg : string)
| TypeError (msg : string).

Inductive result (A : Type) : Type :=
| Ok (a : A)
| Raise (e : exception).

Arguments Ok {A} a.
Arguments Raise {A} e.

Definition bind {A B : Type} (m : result A) (k : A -> result B) : result B :=
  match m with
  | Ok a => k a
  | Raise e => Raise e
  end.

Notation "x <- m ;; k" := (bind m (fun x => k))
  (at level 61, m at next level, right associativity).
Notation "' ( x , y ) <- m ;; k" := (bind m (fun p => let '(x, y) := p in k))
  (at level 61, x name, y name, m at next level, right associativity).

(** ** Tensors *)

(** A rank-1 integer tensor (what [tf.range] produces). *)
Record IntVector : Type := mkIntVector {
  len1 : nat;
  at1 : nat -> Z
}.

(** A rank-2 float tensor, shape [(rows, cols)]. *)
Record Tensor2 : Type := mkTensor2 {
  rows : nat;
  cols : nat;
  at2 : nat -> nat -> R
}.

(** A rank-3 float tensor, shape [(dim0, dim1, dim2)]. *)
Record Tensor3 : Type := mkTensor3 {
  dim0 : nat;
  dim1 : nat;
  dim2 : nat;
  at3 : nat -> nat -> nat -> R
}.

Definition shape3 (t : Tensor3) : nat * nat * nat := (dim0 t, dim1 t, dim2 t).
Definition shape2 (t : Tensor2) : nat * nat := (rows t, cols t).

(** [rsum n f] is [f 0 + ... + f (n-1)], the reduction every contraction
    below is written with. *)
Fixpoint rsum (n : nat) (f : nat -> R) : R :=
  match n with
  | O => 0%R
  | S k => (rsum k f + f k)%R
  end.

(** ** TensorFlow primitives used by the module *)

(** [tf.range(start, limit)]: the integers [start, start+1, ..., limit-1].
    The module only calls it with [limit - start = num_input_steps >= 0]. *)
Definition tf_range (start limit : Z) : IntVector :=
  {| len1 := Z.to_nat (limit - start);
     at1 := fun i => (start + Z.of_nat i)%Z |}.

(** [tf.transpose(t, [1, 0, 2])]. *)
Definition tf_transpose_102 (t : Tensor3) : Tensor3 :=
  {| dim0 := dim1 t;
     dim1 := dim0 t;
     dim2 := dim2 t;
     at3 := fun i b j => at3 t b i j |}.

(** Python/strided-slice normalisation of a slice bound [k] on an axis of
    length [n]: a negative bound counts from the end, and the result is
    clamped to [0..n]. *)
Definition norm_index (k : Z) (n : nat) : nat :=
  if (k <? 0)%Z
  then Z.to_nat (Z.max 0 (Z.of_nat n + k))
  else Nat.min (Z.to_nat k) n.

(** [sim[:, :stop]]. *)
Definition slice_cols_to (sim : Tensor2) (stop : Z) : Tensor2 :=
  {| rows := rows sim;
     cols := norm_index stop (cols sim);
     at2 := at2 sim |}.

(** [sim[:, start:]]. *)
Definition slice_cols_from (sim : Tensor2) (start : Z) : Tensor2 :=
  let s := norm_index start (cols sim) in
  {| rows := rows sim;
     cols := cols sim - s;
     at2 := fun b j => at2 sim b (s + j) |}.

(** [tf.nn.softmax] over the last axis of a rank-2 tensor. *)
Definition tf_softmax (x : Tensor2) : Tensor2 :=
  {| rows := rows x;
     cols := cols x;
     at2 := fun b j =>
       (exp (at2 x b j) / rsum (cols x) (fun k => exp (at2 x b k)))%R |}.

(** [tf.zeros_like]. *)
Definition tf_zeros_like (x : Tensor2) : Tensor2 :=
  {| rows := rows x; cols := cols x; at2 := fun _ _ => 0%R |}.

(** [tf.concat([a, b], axis=-1)] on rank-2 tensors.  Both operands are
    column slices of one matrix wherever the module calls it, so their row
    counts agree (lemma [slices_same_rows]). *)
Definition tf_concat_cols (a b : Tensor2) : Tensor2 :=
  {| rows := rows a;
     cols := cols a + cols b;
     at2 := fun r j =>
       if j <? cols a then at2 a r j else at2 b r (j - cols a) |}.

(** Element [i] along axis 0 of a rank-3 tensor. *)
Definition unstack (t : Tensor3) (i : nat) : Tensor2 :=
  {| rows := dim1 t; cols := dim2 t; at2 := at3 t i |}.

(** The results of [fn] on the pairs [(steps[i], elems[i])], stacked along
    a new axis 0.  The shape of one result is the one the body has on the
    leading element. *)
Definition stack_results (fn : Z * Tensor2 -> Tensor2)
           (steps : IntVector) (elems : Tensor3) : Tensor3 :=
  let lead := fn (at1 steps 0, unstack elems 0) in
  {| dim0 := dim0 elems;
     dim1 := rows lead;
     dim2 := cols lead;
     at3 := fun i b j => at2 (fn (at1 steps i, unstack elems i)) b j |}.

(** [tf.map_fn(fn, (steps, elems), dtype=tf.float32)]: [fn] is applied to
    the pairs [(steps[i], elems[i])]; the results are written to a
    TensorArray, which is stacked when the loop ends.  The width of what
    the module's body returns is sliced by the value of [step], so the
    element shape is not static, and stacking an array of no element
    needs a static element shape: over no element the call fails.  The
    module calls it with [len(steps) = elems.shape[0]] (lemma
    [attention_steps_length]). *)
Definition tf_map_fn (fn : Z * Tensor2 -> Tensor2)
           (steps : IntVector) (elems : Tensor3) : result Tensor3 :=
  if dim0 elems =? 0 then
    Raise (UnimplementedError
             "TensorArray has size zero, but element shape is not fully defined")
  else Ok (stack_results fn steps elems).

(** [tf.matmul(a, b)] on rank-3 tensors (batched): the batch sizes and the
    contracted dimension must agree.  The module contracts over a number
    of steps, known when the graph runs. *)
Definition tf_matmul (a b : Tensor3) : result Tensor3 :=
  if negb (dim0 a =? dim0 b) then
    Raise (ValueError "matmul: batch dimensions differ")
  else if negb (dim2 a =? dim1 b) then
    Raise (InvalidArgumentError "matmul: inner dimensions differ")
  else
    Ok {| dim0 := dim0 a;
          dim1 := dim1 a;
          dim2 := dim2 b;
          at3 := fun n i d =>
            rsum (dim2 a) (fun j => (at3 a n i j * at3 b n j d)%R) |}.

(** [tf.matmul(a, b, transpose_b=True)].  The module contracts over the
    embedding size. *)
Definition tf_matmul_transpose_b (a b : Tensor3) : result Tensor3 :=
  if negb (dim0 a =? dim0 b) then
    Raise (ValueError "matmul: batch dimensions differ")
  else if negb (dim2 a =? dim2 b) then
    Raise (ValueError "matmul: inner dimensions differ")
  else
    Ok {| dim0 := dim0 a;
          dim1 := dim1 a;
          dim2 := dim1 b;
          at3 := fun n i j =>
            rsum (dim2 a) (fun e => (at3 a n i e * at3 b n j e)%R) |}.

(** [tf.concat([a, b], axis=1)] on rank-3 tensors. *)
Definition tf_concat_axis1 (a b : Tensor3) : result Tensor3 :=
  if negb ((dim0 a =? dim0 b) && (dim2 a =? dim2 b)) then
    Raise (ValueError "concat: shapes differ off the concat axis")
  else
    Ok {| dim0 := dim0 a;
          dim1 := dim1 a + dim1 b;
          dim2 := dim2 a;
          at3 := fun n t d =>
            if t <? dim1 a then at3 a n t d else at3 b n (t - dim1 a) d |}.

(** [tf.concat([a, b], axis=2)] on rank-3 tensors. *)
Definition tf_concat_axis2 (a b : Tensor3) : result Tensor3 :=
  if negb (dim0 a =? dim0 b) then
    Raise (ValueError "concat: shapes differ off the concat axis")
  else if negb (dim1 a =? dim1 b) then
    Raise (InvalidArgumentError "concat: shapes differ off the concat axis")
  else
    Ok {| dim0 := dim0 a;
          dim1 := dim1 a;
          dim2 := dim2 a + dim2 b;
          at3 := fun n t d =>
            if d <? dim2 a then at3 a n t d else at3 b n t (d - dim2 a) |}.

(** [t[:, :stop, :]]. *)
Definition slice_axis1_to (t : Tensor3) (stop : Z) : Tensor3 :=
  {| dim0 := dim0 t;
     dim1 := norm_index stop (dim1 t);
     dim2 := dim2 t;
     at3 := at3 t |}.

(** [t[:, start:, :]]. *)
Definition slice_axis1_from (t : Tensor3) (start : Z) : Tensor3 :=
  let s := norm_index start (dim1 t) in
  {| dim0 := dim0 t;
     dim1 := dim1 t - s;
     dim2 := dim2 t;
     at3 := fun n i d => at3 t n (s + i) d |}.

(** ** [input_embeddings] *)

(** The variables [tf.contrib.layers.conv2d] creates: a kernel of shape
    [[1, input_size, 1, embedding_size]] and a bias per output channel. *)
Record ConvVariables : Type := mkConvVariables {
  conv_weights : nat -> nat -> R;
  conv_biases : nat -> R
}.

Definition relu (x : R) : R := Rmax 0 x.

(** [inputs] is expanded to [(B, T, D, 1)] and convolved with a
    [[1, input_size]] kernel under VALID padding.  The convolution's shape
    inference refuses an input without a step; on the others it leaves
    [D - input_size + 1] positions on axis 2, and [tf.squeeze(axis=2)]
    requires that to be 1, so anything but [D = input_size] is an error. *)
Definition input_embeddings (vars : ConvVariables) (inputs : Tensor3)
           (input_size embedding_size : nat) : result Tensor3 :=
  if dim1 inputs =? 0 then
    Raise (ValueError "conv2d: the input has no step")
  else if negb (dim2 inputs =? input_size) then
    Raise (ValueError "conv2d/squeeze: last dimension is not input_size")
  else
    Ok {| dim0 := dim0 inputs;
          dim1 := dim1 inputs;
          dim2 := embedding_size;
          at3 := fun b t e =>
            relu (rsum input_size
                       (fun k => (at3 inputs b t k * conv_weights vars k e)%R)
                  + conv_biases vars e) |}.

(** ** [similarity_weighted_attention] *)

(** The body mapped over the rows: a masked softmax that keeps the first
    [step] columns. *)
Definition similarity_to_attention (enumerated_similarity : Z * Tensor2)
  : Tensor2 :=
  let '(step, sim) := enumerated_similarity in
  tf_concat_cols (tf_softmax (slice_cols_to sim step))
                 (tf_zeros_like (slice_cols_from sim step)).

(** The local [steps]. *)
Definition attention_steps (self_similarity : Tensor3) : IntVector :=
  let num_input_steps := Z.of_nat (dim1 self_similarity) in
  let num_target_steps := Z.of_nat (dim2 self_similarity) in
  tf_range (num_target_steps - num_input_steps + 1) (num_target_steps + 1).

Definition similarity_weighted_attention (targets self_similarity : Tensor3)
  : result Tensor3 :=
  let steps := attention_steps self_similarity in
  let transposed_self_similarity := tf_transpose_102 self_similarity in
  transposed_attention <-
    tf_map_fn similarity_to_attention steps transposed_self_similarity ;;
  let attention := tf_transpose_102 transposed_attention in
  tf_matmul attention targets.

(** The value of the local [attention] in a call that gets past
    [tf.map_fn] (lemma [similarity_weighted_attention_unfold]): the masked
    softmax of every row. *)
Definition masked_attention (self_similarity : Tensor3) : Tensor3 :=
  let steps := attention_steps self_similarity in
  let transposed_self_similarity := tf_transpose_102 self_similarity in
  tf_transpose_102
    (stack_results similarity_to_attention steps transposed_self_similarity).

(** ** [self_similarity_attention] *)

(** The two calls of [input_embeddings] each create their own convolution
    variables ([Conv] and [Conv_1] in the enclosing variable scope); they
    are the first two arguments. *)
Definition self_similarity_attention
           (conv conv_1 : ConvVariables)
           (inputs past_inputs : Tensor3)
           (batch_size input_size embedding_size : nat)
  : result (Tensor3 * Tensor3) :=
  embeddings <- input_embeddings conv inputs input_size embedding_size ;;
  targets <- tf_concat_axis1 past_inputs inputs ;;
  target_embeddings <-
    input_embeddings conv_1 (slice_axis1_to targets (-1)) input_size
                     embedding_size ;;
  self_similarity <- tf_matmul_transpose_b embeddings target_embeddings ;;
  attention_outputs <-
    similarity_weighted_attention (slice_axis1_from targets 1)
                                  self_similarity ;;
  Ok (attention_outputs, self_similarity).

(** ** Configuration objects read by [build_graph] *)

Record HParams : Type := mkHParams {
  batch_size : nat;
  rnn_layer_sizes : list (list nat);
  embedding_sizes : list nat;
  learning_rate : R;
  clip_norm : R
}.

Record EncoderDecoder : Type := mkEncoderDecoder {
  input_size : nat;
  num_classes : nat;
  default_event_label : Z;
  labels_to_num_steps : list Z -> Z
}.

Record Config : Type := mkConfig {
  hparams : HParams;
  encoder_decoder : EncoderDecoder
}.

(** ** Python list access *)

(** [l[i]] for [i >= 0]. *)
Definition py_index {A : Type} (l : list A) (i : nat) : result A :=
  match nth_error l i with
  | Some x => Ok x
  | None => Raise (IndexError "list index out of range")
  end.

(** [l[-1]]. *)
Definition py_last {A : Type} (l : list A) : result A :=
  match rev l with
  | x :: _ => Ok x
  | [] => Raise (IndexError "list index out of range")
  end.

(** A list comprehension whose body can raise; the first failure wins. *)
Fixpoint map_result {A B : Type} (f : A -> result B) (l : list A)
  : result (list B) :=
  match l with
  | [] => Ok []
  | x :: rest =>
      y <- f x ;;
      ys <- map_result f rest ;;
      Ok (y :: ys)
  end.

(** ** Further TensorFlow primitives (loss, metrics and sampling tail) *)

(** A rank-1 float tensor. *)
Record Vector : Type := mkVector {
  vlen : nat;
  vat : nat -> R
}.

Definition tf_reduce_sum (v : Vector) : R := rsum (vlen v) (vat v).

Definition tf_reduce_mean (v : Vector) : R :=
  (rsum (vlen v) (vat v) / INR (vlen v))%R.

(** Elementwise product of two vectors of one length. *)
Definition tf_multiply (a b : Vector) : Vector :=
  {| vlen := vlen a; vat := fun n => (vat a n * vat b n)%R |}.

(** [tf.zeros([d0, d1, d2])]. *)
Definition tf_zeros (d0 d1 d2 : nat) : Tensor3 :=
  {| dim0 := d0; dim1 := d1; dim2 := d2; at3 := fun _ _ _ => 0%R |}.

(** [tf.fill([n], value)]. *)
Definition tf_fill (n : nat) (value : R) : Vector :=
  {| vlen := n; vat := fun _ => value |}.

(** [tf.div(x, v)] with the vector broadcast along the rows of [x]; the
    module calls it with [len(v) = num_classes], the column count that
    [tf_linear] gives [x].  The quotient is the program's for a divisor
    other than zero. *)
Definition tf_div (x : Tensor2) (v : Vector) : Tensor2 :=
  {| rows := rows x;
     cols := cols x;
     at2 := fun n c => (at2 x n c / vat v c)%R |}.

(** [tf.reshape(x, [d0, -1, d2])] of a rank-2 tensor, row-major.  The
    inferred dimension must exist. *)
Definition tf_reshape_3d (x : Tensor2) (d0 d2 : nat) : result Tensor3 :=
  let total := rows x * cols x in
  if (d0 * d2 =? 0) || negb (total mod (d0 * d2) =? 0) then
    Raise (InvalidArgumentError "reshape: cannot infer the missing dimension")
  else
    let steps := total / (d0 * d2) in
    Ok {| dim0 := d0;
          dim1 := steps;
          dim2 := d2;
          at3 := fun b s c =>
            let idx := (b * steps + s) * d2 + c in
            at2 x (idx / cols x) (idx mod cols x) |}.

(** The variables [tf.contrib.layers.linear] creates. *)
Record LinearVariables : Type := mkLinearVariables {
  linear_weights : nat -> nat -> R;
  linear_biases : nat -> R
}.

(** [tf.contrib.layers.linear(x, num_outputs)]: [x W + b]. *)
Definition tf_linear (vars : LinearVariables) (x : Tensor2)
           (num_outputs : nat) : Tensor2 :=
  {| rows := rows x;
     cols := num_outputs;
     at2 := fun n c =>
       (rsum (cols x) (fun k => at2 x n k * linear_weights vars k c)
        + linear_biases vars c)%R |}.

(** [tf.nn.sparse_softmax_cross_entropy_with_logits]: per position,
    minus the log of the softmax probability of the label. *)
Definition sparse_softmax_cross_entropy_with_logits
           (labels : list Z) (logits : Tensor2) : result Vector :=
  if negb (List.length labels =? rows logits) then
    Raise (InvalidArgumentError "labels and logits differ in their first dimension")
  else if negb (forallb (fun l => (0 <=? l)%Z && (l <? Z.of_nat (cols logits))%Z)
                        labels) then
    Raise (InvalidArgumentError "label outside the valid range")
  else
    Ok {| vlen := rows logits;
          vat := fun n =>
            (ln (rsum (cols logits) (fun c => exp (at2 logits n c)))
             - at2 logits n (Z.to_nat (nth n labels 0%Z)))%R |}.

(** [tf.argmax(logits, axis=1)]: the first index holding the row maximum. *)
Definition argmax_row (f : nat -> R) (n : nat) : nat :=
  fold_left (fun best k => if Rlt_dec (f best) (f k) then k else best)
            (seq 1 (n - 1)) 0.

Definition tf_argmax (logits : Tensor2) : list Z :=
  map (fun n => Z.of_nat (argmax_row (at2 logits n) (cols logits)))
      (seq 0 (rows logits)).

(** [tf.to_float(tf.equal(a, b))] and [tf.to_float(tf.not_equal(a, b))] on
    integer vectors of one length. *)
Definition to_float_equal (a b : list Z) : Vector :=
  {| vlen := List.length a;
     vat := fun n => if (nth n a 0 =? nth n b 0)%Z then 1%R else 0%R |}.

Definition to_float_not_equal (a b : list Z) : Vector :=
  {| vlen := List.length a;
     vat := fun n => if (nth n a 0 =? nth n b 0)%Z then 0%R else 1%R |}.

(** A placeholder of shape [[d0, None, d2]] accepts exactly the fed values
    of that shape. *)
Definition tf_placeholder (d0 d2 : nat) (fed : Tensor3) : result Tensor3 :=
  if (dim0 fed =? d0) && (dim2 fed =? d2) then Ok fed
  else Raise (ValueError "cannot feed value: shape mismatch").

(** ** [build_graph] *)

(** The graph is denoted by the values its named outputs take on one batch
    (train, eval) or one feed (generate), everything evaluated in program
    order.  What the module takes from its collaborators (the recurrent
    cells and [tf.nn.dynamic_rnn], the batching and flattening utilities of
    [magenta.common], the created variables, the streaming metrics of
    [tf.metrics]) is a parameter of the section. *)

Section Graph.

Variable RNNCell : Type.
Variable RNNState : Type.
Variable StateTensor : Type.

(** [tf.contrib.rnn.BasicLSTMCell(num_units)] and
    [tf.contrib.rnn.MultiRNNCell(cells)]. *)
Variable base_cell : nat -> RNNCell.
Variable MultiRNNCell : list RNNCell -> result RNNCell.

(** [cell.zero_state(batch_size, tf.float32)]. *)
Variable zero_state : RNNCell -> nat -> RNNState.

(** [tf.nn.dynamic_rnn(cell, inputs, sequence_length, initial_state)] in
    the variable scope of the given layer. *)
Variable dynamic_rnn :
  nat -> RNNCell -> Tensor3 -> option (list nat) -> RNNState ->
  result (Tensor3 * RNNState).

(** [tf_nest.flatten] on a state. *)
Variable tf_nest_flatten : RNNState -> list StateTensor.

(** The convolution variables of the two [input_embeddings] calls of a
    layer, and the variables of the output projection. *)
Variable conv_variables : nat -> ConvVariables.
Variable conv_1_variables : nat -> ConvVariables.
Variable linear_variables : LinearVariables.

(** [magenta.common.get_padded_batch(paths, batch_size, input_size,
    shuffle)]: one batch [(inputs, labels, lengths)]. *)
Variable get_padded_batch :
  option (list string) -> nat -> nat -> bool ->
  result (Tensor3 * list (list Z) * list nat).

(** [magenta.common.flatten_maybe_padded_sequences] on float sequences and
    on label sequences. *)
Variable flatten_maybe_padded_sequences :
  Tensor3 -> option (list nat) -> Tensor2.
Variable flatten_maybe_padded_labels :
  list (list Z) -> list nat -> list Z.

(** The streaming metrics of the eval branch, as the value each one
    reports: [tf.metrics.mean(values, weights)], [tf.metrics.accuracy],
    [tf.metrics.mean_per_class_accuracy], [tf.metrics.recall]. *)
Variable tf_metrics_mean : Vector -> option R -> R.
Variable tf_metrics_accuracy : list Z -> list Z -> R.
Variable tf_metrics_mean_per_class_accuracy : list Z -> list Z -> nat -> R.
Variable tf_metrics_recall : Vector -> Vector -> R.

Definition make_rnn_cell (rnn_layer_sizes : list nat) : result RNNCell :=
  let cells := map (fun num_units => base_cell num_units) rnn_layer_sizes in
  MultiRNNCell cells.

(** What is fed to the placeholders of a generate graph. *)
Record Feeds : Type := mkFeeds {
  feed_inputs : Tensor3;
  feed_past_targets : list Tensor3;
  feed_temperature : R
}.

(** The named outputs of a graph, by mode: the scalars registered from
    [vars_to_summarize] and the self-similarity images (train), the
    aggregated metrics (eval), the collections of the generate graph.
    Logging, the optimizer step and the summary writers compute no value
    that the module reads back and are left out. *)
Inductive GraphOutputs : Type :=
| TrainOutputs (vars_to_summarize : list (string * R))
               (self_similarity_images : list Tensor3)
| EvalOutputs (vars_to_summarize : list (string * R))
| GenerateOutputs (softmax : Tensor3)
                  (targets past_targets : list Tensor3)
                  (initial_state final_state : list StateTensor).

(** The variables the layer loop updates. *)
Record LayerLoop : Type := mkLayerLoop {
  targets : list Tensor3;
  initial_state : list RNNState;
  final_state : list RNNState;
  self_similarity : list Tensor3;
  layer_inputs : Tensor3;
  outputs : option Tensor3
}.

Definition layer_loop_start (inputs : Tensor3) : LayerLoop :=
  {| targets := [];
     initial_state := [];
     final_state := [];
     self_similarity := [];
     layer_inputs := inputs;
     outputs := None |}.

(** One iteration of [for layer in range(num_layers)]. *)
Definition layer_body (hparams : HParams) (lengths : option (list nat))
           (past_targets : list Tensor3) (layer : nat) (st : LayerLoop)
  : result LayerLoop :=
  sizes <- py_index (rnn_layer_sizes hparams) layer ;;
  cell <- make_rnn_cell sizes ;;
  let layer_initial_state := zero_state cell (batch_size hparams) in
  '(rnn_outputs, layer_final_state) <-
    dynamic_rnn layer cell (layer_inputs st) lengths layer_initial_state ;;
  past <- py_index past_targets layer ;;
  size <- py_last sizes ;;
  embedding_size <- py_index (embedding_sizes hparams) layer ;;
  '(attention_outputs, layer_self_similarity) <-
    self_similarity_attention (conv_variables layer)
                              (conv_1_variables layer)
                              rnn_outputs past
                              (batch_size hparams) size embedding_size ;;
  outputs <- tf_concat_axis2 rnn_outputs attention_outputs ;;
  Ok {| targets := targets st ++ [rnn_outputs];
        initial_state := initial_state st ++ [layer_initial_state];
        final_state := final_state st ++ [layer_final_state];
        self_similarity := self_similarity st ++ [layer_self_similarity];
        layer_inputs := outputs;
        outputs := Some outputs |}.

(** The loop state after the first [n] iterations. *)
Fixpoint layers_loop (hparams : HParams) (lengths : option (list nat))
         (past_targets : list Tensor3) (inputs : Tensor3) (n : nat)
  : result LayerLoop :=
  match n with
  | O => Ok (layer_loop_start inputs)
  | S layer =>
      st <- layers_loop hparams lengths past_targets inputs layer ;;
      layer_body hparams lengths past_targets layer st
  end.

(** The local function handed to [tf.py_func]. *)
Definition batch_labels_to_num_steps (encoder_decoder : EncoderDecoder)
           (batch_labels : list (list Z)) (lengths : list nat) : R :=
  let num_steps :=
    fold_left
      (fun num_steps '(labels, length) =>
         (num_steps
          + labels_to_num_steps encoder_decoder (firstn length labels))%Z)
      (combine batch_labels lengths) 0%Z in
  IZR num_steps.

(** The train branch: the dictionary [vars_to_summarize].  Each quotient is
    the program's where its divisor is not zero. *)
Definition train_metrics
           (softmax_cross_entropy correct_predictions : Vector)
           (event_positions no_event_positions : Vector) (num_steps : R)
  : list (string * R) :=
  let loss := tf_reduce_mean softmax_cross_entropy in
  let perplexity := exp loss in
  let accuracy := tf_reduce_mean correct_predictions in
  let event_accuracy :=
    (tf_reduce_sum (tf_multiply correct_predictions event_positions)
     / tf_reduce_sum event_positions)%R in
  let no_event_accuracy :=
    (tf_reduce_sum (tf_multiply correct_predictions no_event_positions)
     / tf_reduce_sum no_event_positions)%R in
  let loss_per_step :=
    (tf_reduce_sum softmax_cross_entropy / num_steps)%R in
  let perplexity_per_step := exp loss_per_step in
  [ ("loss", loss);
    ("metrics/perplexity", perplexity);
    ("metrics/accuracy", accuracy);
    ("metrics/event_accuracy", event_accuracy);
    ("metrics/no_event_accuracy", no_event_accuracy);
    ("metrics/loss_per_step", loss_per_step);
    ("metrics/perplexity_per_step", perplexity_per_step) ]%string.

(** [vars_to_summarize[name]]. *)
Fixpoint lookup (name : string) (d : list (string * R)) : option R :=
  match d with
  | [] => None
  | (k, v) :: rest => if String.eqb k name then Some v else lookup name rest
  end.

(** The eval branch: the aggregated metric values, then the two
    perplexities derived from them. *)
Definition eval_metrics (num_classes : nat)
           (softmax_cross_entropy : Vector)
           (labels_flat predictions_flat : list Z)
           (correct_predictions event_positions no_event_positions : Vector)
           (num_steps : R) : list (string * R) :=
  let loss := tf_metrics_mean softmax_cross_entropy None in
  let loss_per_step :=
    tf_metrics_mean
      softmax_cross_entropy
      (Some (num_steps / INR (vlen softmax_cross_entropy))%R) in
  [ ("loss", loss);
    ("metrics/accuracy", tf_metrics_accuracy labels_flat predictions_flat);
    ("metrics/per_class_accuracy",
     tf_metrics_mean_per_class_accuracy labels_flat predictions_flat
                                        num_classes);
    ("metrics/event_accuracy",
     tf_metrics_recall event_positions correct_predictions);
    ("metrics/no_event_accuracy",
     tf_metrics_recall no_event_positions correct_predictions);
    ("metrics/loss_per_step", loss_per_step);
    ("metrics/perplexity", exp loss);
    ("metrics/perplexity_per_step", exp loss_per_step) ]%string.

(** The generate branch: the temperature-scaled softmax. *)
Definition generate_softmax (logits_flat : Tensor2) (temperature : R)
           (batch_size num_classes : nat) : result Tensor3 :=
  let softmax_flat :=
    tf_softmax (tf_div logits_flat (tf_fill num_classes temperature)) in
  tf_reshape_3d softmax_flat batch_size num_classes.

Definition valid_mode (mode : string) : bool :=
  existsb (String.eqb mode) ["train"; "eval"; "generate"]%string.

Definition mode_error_prefix : string :=
  "The mode parameter must be 'train', 'eval', or 'generate'. The mode parameter was: ".

(** The guard the function opens with. *)
Definition check_mode (mode : string) : result unit :=
  if negb (valid_mode mode) then
    Raise (ValueError (mode_error_prefix ++ mode))
  else
    Ok tt.

Definition build_graph (mode : string) (config : Config)
           (sequence_example_file_paths : option (list string))
           (feeds : Feeds) : result GraphOutputs :=
  _ <- check_mode mode ;;
  let hparams := hparams config in
  let encoder_decoder := encoder_decoder config in
  let input_size := input_size encoder_decoder in
  let num_classes := num_classes encoder_decoder in
  let no_event_label := default_event_label encoder_decoder in
  let num_layers := List.length (rnn_layer_sizes hparams) in
  let train_or_eval := (mode =? "train")%string || (mode =? "eval")%string in
  '(batch, past_targets) <-
    (if train_or_eval then
       batch <- get_padded_batch sequence_example_file_paths
                                 (batch_size hparams) input_size
                                 (mode =? "train")%string ;;
       past_targets <-
         map_result
           (fun layer =>
              sizes <- py_index (rnn_layer_sizes hparams) layer ;;
              size <- py_last sizes ;;
              Ok (tf_zeros (batch_size hparams) 0 size))
           (seq 0 num_layers) ;;
       let '(inputs, labels, lengths) := batch in
       Ok ((inputs, Some labels, Some lengths), past_targets)
     else
       inputs <- tf_placeholder (batch_size hparams) input_size
                                (feed_inputs feeds) ;;
       past_targets <-
         map_result
           (fun layer =>
              sizes <- py_index (rnn_layer_sizes hparams) layer ;;
              size <- py_last sizes ;;
              match nth_error (feed_past_targets feeds) layer with
              | Some fed => tf_placeholder (batch_size hparams) size fed
              | None =>
                  Raise (InvalidArgumentError
                           "You must feed a value for placeholder tensor")
              end)
           (seq 0 num_layers) ;;
       Ok ((inputs, None, None), past_targets)) ;;
  let '(inputs, labels, lengths) := batch in
  st <- layers_loop hparams lengths past_targets inputs num_layers ;;
  outputs <-
    match outputs st with
    | Some outputs => Ok outputs
    | None => Raise (NameError "name 'outputs' is not defined")
    end ;;
  let outputs_flat := flatten_maybe_padded_sequences outputs lengths in
  let logits_flat := tf_linear linear_variables outputs_flat num_classes in
  if train_or_eval then
    match labels, lengths with
    | Some labels, Some lengths =>
      let labels_flat := flatten_maybe_padded_labels labels lengths in
      softmax_cross_entropy <-
        sparse_softmax_cross_entropy_with_logits labels_flat logits_flat ;;
      let predictions_flat := tf_argmax logits_flat in
      let correct_predictions :=
        to_float_equal labels_flat predictions_flat in
      let no_event_labels := map (fun _ => no_event_label) labels_flat in
      let event_positions :=
        to_float_not_equal labels_flat no_event_labels in
      let no_event_positions :=
        to_float_equal labels_flat no_event_labels in
      let num_steps :=
        batch_labels_to_num_steps encoder_decoder labels lengths in
      if (mode =? "train")%string then
        Ok (TrainOutputs
              (train_metrics softmax_cross_entropy correct_predictions
                             event_positions no_event_positions num_steps)
              (self_similarity st))
      else
        Ok (EvalOutputs
              (eval_metrics num_classes softmax_cross_entropy labels_flat
                            predictions_flat correct_predictions
                            event_positions no_event_positions num_steps))
    | _, _ => Raise (TypeError "'NoneType' object is not iterable")
    end
  else
    let temperature := feed_temperature feeds in
    softmax <- generate_softmax logits_flat temperature
                                (batch_size hparams) num_classes ;;
    Ok (GenerateOutputs
          softmax (targets st) past_targets
          (flat_map tf_nest_flatten (initial_state st))
          (flat_map tf_nest_flatten (final_state st))).

End Graph.

(** ** Derived notions used in the statements *)

(** The number of leading columns row [i] of the attention matrix runs its
    softmax over: the row's [step], normalised as the slice bound it is
    used as. *)
Definition window (self_similarity : Tensor3) (i : nat) : nat :=
  norm_index (at1 (attention_steps self_similarity) i) (dim2 self_similarity).

(** The softmax of the first [w] entries of a row of scores. *)
Definition prefix_softmax (scores : nat -> R) (w j : nat) : R :=
  (exp (scores j) / rsum w (fun k => exp (scores k)))%R.

(** The embedding of step [t] of sequence [b]: entry [e] of what
    [input_embeddings] computes there. *)
Definition embedding_at (vars : ConvVariables) (inputs : Tensor3)
           (input_size : nat) (b t e : nat) : R :=
  relu (rsum input_size
             (fun k => (at3 inputs b t k * conv_weights vars k e)%R)
        + conv_biases vars e).

(** ** Sample inputs *)

Definition sample_similarity_2x3 : Tensor3 :=
  {| dim0 := 1; dim1 := 2; dim2 := 3;
     at3 := fun _ i j => INR (i + 2 * j) |}.

Definition sample_targets_3x2 : Tensor3 :=
  {| dim0 := 1; dim1 := 3; dim2 := 2;
     at3 := fun _ j d => INR (10 * j + d) |}.

(** Three input rows over two target columns: the shape the attention
    unit sees for a sequence of length 3 with no past. *)
Definition sample_similarity_3x2 : Tensor3 :=
  {| dim0 := 1; dim1 := 3; dim2 := 2;
     at3 := fun _ i j => INR (i + j) |}.

Definition sample_targets_2x2 : Tensor3 :=
  {| dim0 := 1; dim1 := 2; dim2 := 2;
     at3 := fun _ j d => INR (1 + j + d) |}.

(** Four input rows over two target columns: the first [step] is [-1]. *)
Definition sample_similarity_4x2 : Tensor3 :=
  {| dim0 := 1; dim1 := 4; dim2 := 2;
     at3 := fun _ i j => INR (i * j) |}.

(** A batch of 2 sequences of 3 recurrent outputs of size 4, with no
    past, and convolution variables for an embedding of size 2. *)
Definition sample_inputs_2x3x4 : Tensor3 :=
  {| dim0 := 2; dim1 := 3; dim2 := 4;
     at3 := fun b t d => INR (b + t + d) |}.

Definition sample_no_past_2x4 : Tensor3 := tf_zeros 2 0 4.

(** A batch of 2 sequences without a step. *)
Definition sample_no_steps_2x4 : Tensor3 := tf_zeros 2 0 4.

Definition sample_conv : ConvVariables :=
  {| conv_weights := fun k e => INR (k + e);
     conv_biases := fun _ => 0%R |}.

Definition sample_conv_1 : ConvVariables :=
  {| conv_weights := fun k e => INR (1 + k * e);
     conv_biases := fun e => INR e |}.

(** A stand-in for every collaborator of [build_graph]: a cell is the
    list of its unit sizes, a state carries nothing, the recurrent layer
    returns outputs of the size of its last sub-cell, and a batch is 2
    sequences of 3 steps. *)
Definition sample_base_cell (num_units : nat) : list nat := [num_units].

Definition sample_MultiRNNCell (cells : list (list nat))
  : result (list nat) :=
  match cells with
  | [] => Raise (ValueError "Must specify at least one cell for MultiRNNCell.")
  | _ => Ok (List.concat cells)
  end.

Definition sample_zero_state (cell : list nat) (batch_size : nat) : unit :=
  tt.

Definition sample_dynamic_rnn (layer : nat) (cell : list nat)
           (inputs : Tensor3) (lengths : option (list nat)) (state : unit)
  : result (Tensor3 * unit) :=
  Ok ({| dim0 := dim0 inputs;
         dim1 := dim1 inputs;
         dim2 := last cell 0;
         at3 := fun b t d => (at3 inputs b t 0 + INR (layer + d))%R |}, tt).

Definition sample_nest_flatten (state : unit) : list unit := [state].

Definition sample_linear : LinearVariables :=
  {| linear_weights := fun k c => INR (k + c);
     linear_biases := fun c => INR c |}.

Definition sample_get_padded_batch (paths : option (list string))
           (batch_size input_size : nat) (shuffle : bool)
  : result (Tensor3 * list (list Z) * list nat) :=
  Ok ({| dim0 := batch_size; dim1 := 3; dim2 := input_size;
         at3 := fun b t d => INR (b + t + d) |},
      repeat [0%Z; 1%Z; 0%Z] batch_size,
      repeat 3 batch_size).

Definition sample_flatten (x : Tensor3) (lengths : option (list nat))
  : Tensor2 :=
  {| rows := dim0 x * dim1 x;
     cols := dim2 x;
     at2 := fun n d => at3 x (n / dim1 x) (n mod dim1 x) d |}.

Definition sample_flatten_labels (labels : list (list Z))
           (lengths : list nat) : list Z :=
  List.concat
    (map (fun p => firstn (snd p) (fst p)) (combine labels lengths)).

Definition sample_metrics_mean (values : Vector) (weights : option R) : R :=
  tf_reduce_mean values.

Definition sample_metrics_accuracy (labels predictions : list Z) : R :=
  tf_reduce_mean (to_float_equal labels predictions).

Definition sample_metrics_per_class (labels predictions : list Z)
           (num_classes : nat) : R :=
  tf_reduce_mean (to_float_equal labels predictions).

Definition sample_metrics_recall (labels predictions : Vector) : R :=
  (tf_reduce_sum (tf_multiply labels predictions) / tf_reduce_sum labels)%R.

(** One layer of recurrent size 4 with an embedding of size 2, inputs of
    size 3, two classes, batches of 2; every label sequence counts one
    step per label. *)
Definition sample_config : Config :=
  {| hparams :=
       {| batch_size := 2;
          rnn_layer_sizes := [[4]];
          embedding_sizes := [2];
          learning_rate := 1;
          clip_norm := 1 |};
     encoder_decoder :=
       {| input_size := 3;
          num_classes := 2;
          default_event_label := 0;
          labels_to_num_steps := fun labels => Z.of_nat (List.length labels) |}
  |}.

Definition sample_feeds : Feeds :=
  {| feed_inputs :=
       {| dim0 := 2; dim1 := 3; dim2 := 3;
          at3 := fun b t d => INR (b * t + d) |};
     feed_past_targets := [tf_zeros 2 1 4];
     feed_temperature := 1 |}.

Definition sample_build_graph :=
  build_graph sample_base_cell sample_MultiRNNCell sample_zero_state
              sample_dynamic_rnn sample_nest_flatten
              (fun _ => sample_conv) (fun _ => sample_conv_1) sample_linear
              sample_get_padded_batch sample_flatten sample_flatten_labels
              sample_metrics_mean sample_metrics_accuracy
              sample_metrics_per_class sample_metrics_recall.

(** Variants of the 2x3 sample that differ from it only where row 0 does
    not look: in column 2 of the scores and in target 2. *)
Definition sample_similarity_2x3_future : Tensor3 :=
  {| dim0 := 1; dim1 := 2; dim2 := 3;
     at3 := fun _ i j => if j <? i + 2 then INR (i + 2 * j) else 100%R |}.

Definition sample_targets_3x2_future : Tensor3 :=
  {| dim0 := 1; dim1 := 3; dim2 := 2;
     at3 := fun _ j d => if j <? 2 then INR (10 * j + d) else 7%R |}.

(** The 2x3 sample with 5 added to every score. *)
Definition sample_similarity_2x3_shifted : Tensor3 :=
  {| dim0 := 1; dim1 := 2; dim2 := 3;
     at3 := fun _ i j => (INR (i + 2 * j) + 5)%R |}.

(** Inputs that agree with the 2x3x4 sample on steps 0 and 1 and differ on
    step 2, and a past of one step. *)
Definition sample_inputs_2x3x4_future : Tensor3 :=
  {| dim0 := 2; dim1 := 3; dim2 := 4;
     at3 := fun b t d => if t <? 2 then INR (b + t + d) else 9%R |}.

Definition sample_past_2x1x4 : Tensor3 :=
  {| dim0 := 2; dim1 := 1; dim2 := 4;
     at3 := fun b t d => INR (2 * b + d) |}.

(** The layer loop and its body on the stand-in collaborators. *)
Definition sample_layers_loop :=
  layers_loop sample_base_cell sample_MultiRNNCell sample_zero_state
              sample_dynamic_rnn (fun _ => sample_conv)
              (fun _ => sample_conv_1).

Definition sample_layer_body :=
  layer_body sample_base_cell sample_MultiRNNCell sample_zero_state
             sample_dynamic_rnn (fun _ => sample_conv)
             (fun _ => sample_conv_1).

(** Feeds whose inputs have batch size 3 where the configuration has 2. *)
Definition sample_feeds_wrong_batch : Feeds :=
  {| feed_inputs := tf_zeros 3 3 3;
     feed_past_targets := [tf_zeros 2 1 4];
     feed_temperature := 1 |}.

(** Equality of shapes, component by component. *)
Ltac shape_components :=
  repeat match goal with
         | |- (_, _) = (_, _) => apply f_equal2
         end;
  try reflexivity; try lia.

(** ** Sums *)

Lemma rsum_ext (n : nat) (f g : nat -> R) :
  (forall k, k < n -> f k = g k) -> rsum n f = rsum n g.
Proof.
  induction n as [|n IH]; intros H; simpl.
  - reflexivity.
  - rewrite IH by (intros k Hk; apply H; lia).
    rewrite (H n) by lia. reflexivity.
Qed.

Lemma rsum_scale_r (n : nat) (f : nat -> R) (c : R) :
  rsum n (fun k => (f k * c)%R) = (rsum n f * c)%R.
Proof.
  induction n as [|n IH]; simpl.
  - lra.
  - rewrite IH. lra.
Qed.

Lemma rsum_zero (n : nat) (f : nat -> R) :
  (forall k, k < n -> f k = 0%R) -> rsum n f = 0%R.
Proof.
  induction n as [|n IH]; intros H; simpl.
  - reflexivity.
  - rewrite IH by (intros k Hk; apply H; lia).
    rewrite (H n) by lia. lra.
Qed.

Lemma rsum_exp_pos (n : nat) (f : nat -> R) :
  0 < n -> (0 < rsum n (fun k => exp (f k)))%R.
Proof.
  induction n as [|n IH]; intros Hn.
  - lia.
  - simpl. destruct n as [|n].
    + simpl. pose proof (exp_pos (f 0)). lra.
    + assert (0 < S n) as Hpos by lia.
      specialize (IH Hpos). pose proof (exp_pos (f (S n))). lra.
Qed.

(** The softmax over a non-empty prefix is a probability distribution. *)
Lemma prefix_softmax_sums_to_one (scores : nat -> R) (w : nat) :
  0 < w -> rsum w (prefix_softmax scores w) = 1%R.
Proof.
  intros Hw. unfold prefix_softmax.
  pose proof (rsum_exp_pos scores Hw) as Hpos.
  unfold Rdiv. rewrite rsum_scale_r.
  apply Rinv_r. lra.
Qed.

Lemma prefix_softmax_pos (scores : nat -> R) (w j : nat) :
  0 < w -> (0 < prefix_softmax scores w j)%R.
Proof.
  intros Hw. unfold prefix_softmax.
  apply Rdiv_lt_0_compat.
  - apply exp_pos.
  - apply rsum_exp_pos; assumption.
Qed.

(** ** Slices and the mapped body *)

Lemma norm_index_le (k : Z) (n : nat) : norm_index k n <= n.
Proof.
  unfold norm_index. destruct (k <? 0)%Z eqn:E; lia.
Qed.

Lemma norm_index_pos (k : Z) (n : nat) :
  (0 <= k <= Z.of_nat n)%Z -> norm_index k n = Z.to_nat k.
Proof.
  intros H. unfold norm_index.
  destruct (k <? 0)%Z eqn:E; lia.
Qed.

(** The two operands of the body's [tf.concat] have one row count. *)
Lemma slices_same_rows (sim : Tensor2) (step : Z) :
  rows (tf_softmax (slice_cols_to sim step))
  = rows (tf_zeros_like (slice_cols_from sim step)).
Proof. reflexivity. Qed.

(** The body returns a matrix of the shape of its argument. *)
Lemma similarity_to_attention_shape (step : Z) (sim : Tensor2) :
  shape2 (similarity_to_attention (step, sim)) = shape2 sim.
Proof.
  unfold shape2. simpl. f_equal.
  pose proof (norm_index_le step (cols sim)). lia.
Qed.

(** [steps] has one entry per input row, as [tf.map_fn] requires. *)
Lemma attention_steps_length (ss : Tensor3) :
  len1 (attention_steps ss) = dim1 ss.
Proof.
  unfold attention_steps, tf_range. simpl. lia.
Qed.

Lemma attention_steps_at (ss : Tensor3) (i : nat) :
  at1 (attention_steps ss) i
  = (Z.of_nat (dim2 ss) - Z.of_nat (dim1 ss) + 1 + Z.of_nat i)%Z.
Proof. reflexivity. Qed.

Lemma masked_attention_shape (ss : Tensor3) :
  shape3 (masked_attention ss) = shape3 ss.
Proof.
  unfold shape3. simpl. repeat f_equal.
  match goal with
  | |- norm_index ?k ?n + _ = _ => pose proof (norm_index_le k n)
  end.
  lia.
Qed.

Lemma masked_attention_at (ss : Tensor3) (b i j : nat) :
  at3 (masked_attention ss) b i j
  = if j <? window ss i
    then prefix_softmax (at3 ss b i) (window ss i) j
    else 0%R.
Proof. reflexivity. Qed.

(** Under the caller contract every row's window is [offset + i + 1]. *)
Lemma window_contract (ss : Tensor3) (i : nat) :
  dim1 ss <= dim2 ss -> i < dim1 ss ->
  window ss i = dim2 ss - dim1 ss + i + 1.
Proof.
  intros Hle Hi. unfold window. rewrite attention_steps_at.
  rewrite norm_index_pos by lia. lia.
Qed.

(** The call fails in [tf.map_fn] when the similarity matrix has no row,
    and is otherwise the product of [masked_attention] with the targets. *)
Lemma similarity_weighted_attention_unfold (targets ss : Tensor3) :
  similarity_weighted_attention targets ss
  = if dim1 ss =? 0
    then Raise (UnimplementedError
                  "TensorArray has size zero, but element shape is not fully defined")
    else tf_matmul (masked_attention ss) targets.
Proof.
  unfold similarity_weighted_attention, tf_map_fn.
  cbn [dim0 tf_transpose_102].
  destruct (dim1 ss =? 0); reflexivity.
Qed.

Lemma similarity_weighted_attention_inv (targets ss out : Tensor3) :
  similarity_weighted_attention targets ss = Ok out ->
  0 < dim1 ss /\ tf_matmul (masked_attention ss) targets = Ok out.
Proof.
  rewrite similarity_weighted_attention_unfold.
  destruct (dim1 ss =? 0) eqn:E; [discriminate|].
  apply Nat.eqb_neq in E. intros H. split; [lia | exact H].
Qed.

Lemma similarity_weighted_attention_no_row (targets ss : Tensor3) :
  dim1 ss = 0 ->
  exists e, similarity_weighted_attention targets ss = Raise e.
Proof.
  intros H. rewrite similarity_weighted_attention_unfold, H.
  eexists. reflexivity.
Qed.

Lemma similarity_weighted_attention_ok (targets ss : Tensor3) :
  0 < dim1 ss ->
  dim0 targets = dim0 ss -> dim1 targets = dim2 ss ->
  similarity_weighted_attention targets ss
  = Ok {| dim0 := dim0 ss;
          dim1 := dim1 ss;
          dim2 := dim2 targets;
          at3 := fun n i d =>
            rsum (dim2 ss)
                 (fun j => (at3 (masked_attention ss) n i j
                            * at3 targets n j d)%R) |}.
Proof.
  intros Hrow H0 H1.
  assert (dim2 (masked_attention ss) = dim2 ss) as Hd2
      by (pose proof (masked_attention_shape ss) as Hs;
          unfold shape3 in Hs; congruence).
  rewrite similarity_weighted_attention_unfold.
  replace (dim1 ss =? 0) with false by (symmetry; apply Nat.eqb_neq; lia).
  unfold tf_matmul.
  rewrite Hd2.
  change (dim0 (masked_attention ss)) with (dim0 ss).
  change (dim1 (masked_attention ss)) with (dim1 ss).
  rewrite H0, H1, !Nat.eqb_refl. simpl. reflexivity.
Qed.

(** ** The attention unit *)

(** C1.  Under the caller contract [Tt >= Ti], with targets of shape
    [(B, Tt, D)], for each row [i] of each sequence [b] of the similarity
    matrix: the call returns an output of shape [(B, Ti, D)]; row [i] of
    the attention matrix is exactly 0 on every column [>= offset + i + 1],
    is the softmax of the scores of the columns [[0, offset + i + 1)]
    alone, sums to 1 over that window, and the output row is the
    attention-weighted sum of the target vectors. *)
Theorem similarity_weighted_attention_causal (targets ss : Tensor3) :
  dim1 ss <= dim2 ss ->
  dim0 targets = dim0 ss ->
  dim1 targets = dim2 ss ->
  forall b i, b < dim0 ss -> i < dim1 ss ->
  exists out,
    similarity_weighted_attention targets ss = Ok out /\
    shape3 out = (dim0 ss, dim1 ss, dim2 targets) /\
    let offset := dim2 ss - dim1 ss in
    let attention := at3 (masked_attention ss) b i in
    (forall j, offset + i + 1 <= j -> attention j = 0%R) /\
    (forall j, j < offset + i + 1 ->
       attention j
       = (exp (at3 ss b i j)
          / rsum (offset + i + 1) (fun k => exp (at3 ss b i k)))%R) /\
    rsum (offset + i + 1) attention = 1%R /\
    (forall d, d < dim2 targets ->
       at3 out b i d
       = rsum (dim2 ss) (fun j => (attention j * at3 targets b j d)%R)).
Proof.
  intros Hle H0 H1 b i Hb Hi.
  eexists.
  split; [apply similarity_weighted_attention_ok; [lia | assumption ..]|].
  split; [reflexivity|].
  intros offset attention.
  assert (window ss i = offset + i + 1) as Hw
      by (apply window_contract; assumption).
  assert (forall j, attention j
                    = if j <? offset + i + 1
                      then prefix_softmax (at3 ss b i) (offset + i + 1) j
                      else 0%R) as Hat.
  { intros j. unfold attention. rewrite masked_attention_at, Hw.
    reflexivity. }
  repeat split.
  - intros j Hj. rewrite Hat.
    destruct (j <? offset + i + 1) eqn:E; [|reflexivity].
    apply Nat.ltb_lt in E. lia.
  - intros j Hj. rewrite Hat.
    apply Nat.ltb_lt in Hj. rewrite Hj. reflexivity.
  - rewrite <- (prefix_softmax_sums_to_one (at3 ss b i) (w := offset + i + 1))
      by lia.
    apply rsum_ext. intros k Hk. rewrite Hat.
    apply Nat.ltb_lt in Hk. rewrite Hk. reflexivity.
Qed.

Lemma similarity_weighted_attention_causal_witness :
  dim1 sample_similarity_2x3 <= dim2 sample_similarity_2x3 /\
  exists out,
    similarity_weighted_attention sample_targets_3x2 sample_similarity_2x3
    = Ok out /\
    shape3 out = (1, 2, 2).
Proof.
  split; [simpl; lia|].
  destruct (@similarity_weighted_attention_causal
              sample_targets_3x2 sample_similarity_2x3)
    with (b := 0) (i := 0) as (out & Hout & Hshape & _).
  - simpl; lia.
  - reflexivity.
  - reflexivity.
  - simpl; lia.
  - simpl; lia.
  - exists out. split; [exact Hout | exact Hshape].
Defined.

(** A row whose normalised window is empty attends to nothing. *)
Lemma empty_window_row (ss : Tensor3) (b i j : nat) :
  window ss i = 0 -> at3 (masked_attention ss) b i j = 0%R.
Proof.
  intros Hw. rewrite masked_attention_at, Hw. reflexivity.
Qed.

(** C9.  The code departs from the claim, and from its own comment
    ("a masked softmax to prevent attending to the future"), on a row
    whose [offset + i + 1] is negative: the bound of [sim[:, :step]] is
    then counted from the end.  With 4 input rows over 2 target columns,
    row 0 has [step = -1]: the call returns, the softmax of the row runs
    over the first column, its weight there is 1 (the weights are not all
    0), and the output row is the first target vector, not the zero
    vector. *)
Lemma negative_step_row_attends :
  (Z.of_nat (dim2 sample_similarity_4x2)
   - Z.of_nat (dim1 sample_similarity_4x2) + 0 + 1 <= 0)%Z /\
  exists out,
    similarity_weighted_attention sample_targets_2x2 sample_similarity_4x2
    = Ok out /\
    at3 (masked_attention sample_similarity_4x2) 0 0 0 = 1%R /\
    ~ (forall j, at3 (masked_attention sample_similarity_4x2) 0 0 j = 0%R) /\
    at3 out 0 0 0 = 1%R /\
    at3 out 0 0 1 = 2%R.
Proof.
  assert (at3 (masked_attention sample_similarity_4x2) 0 0 0 = 1%R) as H.
  { rewrite masked_attention_at.
    change (window sample_similarity_4x2 0) with 1.
    simpl. unfold prefix_softmax. simpl.
    pose proof (exp_pos 0). field. lra. }
  assert (at3 (masked_attention sample_similarity_4x2) 0 0 1 = 0%R) as H'.
  { rewrite masked_attention_at. reflexivity. }
  split; [simpl; lia|].
  eexists.
  split; [apply similarity_weighted_attention_ok;
          [simpl; lia | reflexivity | reflexivity]|].
  split; [exact H|]. split.
  - intros Hall. rewrite Hall in H. lra.
  - cbn [at3 dim2 sample_similarity_4x2 rsum].
    rewrite H, H'. cbn [at3 sample_targets_2x2]. simpl. split; lra.
Qed.

(** The part of that claim the code does meet: when a row's
    [step = offset + i + 1] is 0 (the first input row when there are no
    past inputs) the call raises no error, the row's attention weights are
    all exactly 0 and the row of the output is the zero vector. *)
Lemma zero_step_row_is_zero (targets ss : Tensor3) (i : nat) :
  dim0 targets = dim0 ss ->
  dim1 targets = dim2 ss ->
  i < dim1 ss ->
  (Z.of_nat (dim2 ss) - Z.of_nat (dim1 ss) + Z.of_nat i + 1 = 0)%Z ->
  exists out,
    similarity_weighted_attention targets ss = Ok out /\
    forall b,
      (forall j, at3 (masked_attention ss) b i j = 0%R) /\
      rsum (dim2 ss) (at3 (masked_attention ss) b i) = 0%R /\
      (forall d, at3 out b i d = 0%R).
Proof.
  intros H0 H1 Hi Hstep.
  assert (window ss i = 0) as Hw.
  { unfold window. rewrite attention_steps_at. unfold norm_index.
    destruct (_ <? 0)%Z eqn:E; lia. }
  eexists.
  split; [apply similarity_weighted_attention_ok; [lia | assumption ..]|].
  intros b. split; [|split].
  - intros j. apply empty_window_row; assumption.
  - apply rsum_zero. intros k _. apply empty_window_row; assumption.
  - intros d. cbn [at3]. apply rsum_zero. intros k _.
    rewrite empty_window_row by assumption. lra.
Qed.

(** C3, as stated, fails: with 3 input rows over 2 target columns the call
    returns a tensor and raises nothing. *)
Lemma more_rows_than_columns_returns :
  dim2 sample_similarity_3x2 < dim1 sample_similarity_3x2 /\
  exists out,
    similarity_weighted_attention sample_targets_2x2 sample_similarity_3x2
    = Ok out.
Proof.
  split; [simpl; lia|].
  eexists.
  apply similarity_weighted_attention_ok; [simpl; lia | reflexivity ..].
Qed.

(** C3, amended.  With more input rows than target columns the attention
    unit raises nothing: given targets with the batch size and the [Tt]
    steps of the similarity matrix it returns an output of shape
    [(B, Ti, D)]. *)
Theorem more_rows_than_columns_is_accepted (targets ss : Tensor3) :
  dim2 ss < dim1 ss ->
  dim0 targets = dim0 ss ->
  dim1 targets = dim2 ss ->
  exists out,
    similarity_weighted_attention targets ss = Ok out /\
    shape3 out = (dim0 ss, dim1 ss, dim2 targets).
Proof.
  intros Hlt H0 H1.
  eexists.
  split; [apply similarity_weighted_attention_ok; [lia | assumption ..]|].
  reflexivity.
Qed.

Lemma more_rows_than_columns_is_accepted_witness :
  dim2 sample_similarity_4x2 < dim1 sample_similarity_4x2 /\
  exists out,
    similarity_weighted_attention sample_targets_2x2 sample_similarity_4x2
    = Ok out /\
    shape3 out = (1, 4, 2).
Proof.
  split; [simpl; lia|].
  apply (@more_rows_than_columns_is_accepted
           sample_targets_2x2 sample_similarity_4x2).
  - simpl; lia.
  - reflexivity.
  - reflexivity.
Defined.

(** ** The self-similarity layer *)

Lemma norm_index_minus_one (n : nat) : norm_index (-1) n = n - 1.
Proof. unfold norm_index. simpl. lia. Qed.

Lemma norm_index_one (n : nat) : norm_index 1 n = Nat.min 1 n.
Proof. reflexivity. Qed.

(** C4, as stated, fails on an inputs tensor without a step: the call
    raises (the convolution refuses an input without a step, and so does
    [tf.map_fn] a similarity matrix without a row) and returns no pair. *)
Lemma self_similarity_attention_rejects_no_step :
  shape3 sample_no_steps_2x4 = (2, 0, 4) /\
  shape3 sample_past_2x1x4 = (2, 1, 4) /\
  exists e,
    self_similarity_attention sample_conv sample_conv_1 sample_no_steps_2x4
                              sample_past_2x1x4 2 4 2
    = Raise e.
Proof.
  split; [reflexivity|]. split; [reflexivity|].
  eexists. reflexivity.
Qed.

(** C4, amended.  For inputs [(B, T, D)] with at least one step and past
    inputs [(B, Tp, D)] ([Tp] may be 0) that leave the targets a step
    once the last one is dropped ([Tp + T >= 2]), with [input_size = D],
    the call succeeds, and its result is obtained as follows:
    [targets_all] is past then current along time; the current embeddings
    come from [inputs], the target embeddings from [targets_all] without
    its last step; [self_similarity], of shape [(B, T, Tp+T-1)], is the
    batched product of the current embeddings with the transposed target
    embeddings; the attention unit is called on [targets_all] without its
    first step; the pair of its output and [self_similarity] is
    returned. *)
Theorem self_similarity_attention_structure
        (conv conv_1 : ConvVariables) (inputs past_inputs : Tensor3)
        (batch_size embedding_size : nat) :
  0 < dim1 inputs ->
  2 <= dim1 past_inputs + dim1 inputs ->
  dim0 past_inputs = dim0 inputs ->
  dim2 past_inputs = dim2 inputs ->
  let B := dim0 inputs in
  let T := dim1 inputs in
  let Tp := dim1 past_inputs in
  let D := dim2 inputs in
  exists targets_all embeddings target_embeddings self_similarity
         attention_output,
    tf_concat_axis1 past_inputs inputs = Ok targets_all /\
    shape3 targets_all = (B, Tp + T, D) /\
    (forall b t d,
       at3 targets_all b t d
       = if t <? Tp then at3 past_inputs b t d
         else at3 inputs b (t - Tp) d) /\
    input_embeddings conv inputs D embedding_size = Ok embeddings /\
    shape3 embeddings = (B, T, embedding_size) /\
    input_embeddings conv_1 (slice_axis1_to targets_all (-1)) D
                     embedding_size
    = Ok target_embeddings /\
    shape3 target_embeddings = (B, Tp + T - 1, embedding_size) /\
    (forall b j e,
       at3 target_embeddings b j e
       = relu (rsum D (fun k => at3 targets_all b j k
                                * conv_weights conv_1 k e)
               + conv_biases conv_1 e)%R) /\
    tf_matmul_transpose_b embeddings target_embeddings
    = Ok self_similarity /\
    shape3 self_similarity = (B, T, Tp + T - 1) /\
    (forall b i j,
       at3 self_similarity b i j
       = rsum embedding_size
              (fun e => at3 embeddings b i e
                        * at3 target_embeddings b j e)%R) /\
    shape3 (slice_axis1_from targets_all 1) = (B, Tp + T - 1, D) /\
    (forall b j d,
       j < Tp + T - 1 ->
       at3 (slice_axis1_from targets_all 1) b j d
       = at3 targets_all b (S j) d) /\
    similarity_weighted_attention (slice_axis1_from targets_all 1)
                                  self_similarity
    = Ok attention_output /\
    shape3 attention_output = (B, T, D) /\
    self_similarity_attention conv conv_1 inputs past_inputs batch_size D
                              embedding_size
    = Ok (attention_output, self_similarity).
Proof.
  intros HT HTt H0 H2 B T Tp D.
  assert ((dim1 inputs =? 0) = false) as Hstep
      by (apply Nat.eqb_neq; lia).
  assert ((norm_index (-1) (Tp + T) =? 0) = false) as Htstep
      by (rewrite norm_index_minus_one; apply Nat.eqb_neq;
          unfold Tp, T; lia).
  assert (tf_concat_axis1 past_inputs inputs
          = Ok {| dim0 := dim0 past_inputs;
                  dim1 := Tp + T;
                  dim2 := dim2 past_inputs;
                  at3 := fun n t d =>
                    if t <? Tp then at3 past_inputs n t d
                    else at3 inputs n (t - Tp) d |}) as Hcat.
  { unfold tf_concat_axis1. rewrite H0, H2, !Nat.eqb_refl. reflexivity. }
  set (targets_all := {| dim0 := dim0 past_inputs |}) in Hcat.
  assert (input_embeddings conv inputs D embedding_size
          = Ok {| dim0 := B; dim1 := T; dim2 := embedding_size;
                  at3 := fun b t e =>
                    relu (rsum D (fun k => at3 inputs b t k
                                           * conv_weights conv k e)
                          + conv_biases conv e)%R |}) as Hemb.
  { unfold input_embeddings. rewrite Hstep. fold D.
    rewrite Nat.eqb_refl. reflexivity. }
  set (embeddings := {| dim0 := B |}) in Hemb.
  assert (input_embeddings conv_1 (slice_axis1_to targets_all (-1)) D
                           embedding_size
          = Ok {| dim0 := dim0 past_inputs;
                  dim1 := norm_index (-1) (Tp + T);
                  dim2 := embedding_size;
                  at3 := fun b t e =>
                    relu (rsum D (fun k => at3 targets_all b t k
                                           * conv_weights conv_1 k e)
                          + conv_biases conv_1 e)%R |}) as Htemb.
  { unfold input_embeddings. cbn [dim1 dim2 slice_axis1_to targets_all].
    rewrite Htstep, H2. fold D. rewrite Nat.eqb_refl. reflexivity. }
  set (target_embeddings := {| dim0 := dim0 past_inputs |}) in Htemb.
  assert (tf_matmul_transpose_b embeddings target_embeddings
          = Ok {| dim0 := B; dim1 := T; dim2 := norm_index (-1) (Tp + T);
                  at3 := fun n i j =>
                    rsum embedding_size
                         (fun e => at3 embeddings n i e
                                   * at3 target_embeddings n j e)%R |})
    as Hsim.
  { unfold tf_matmul_transpose_b.
    cbn [dim0 dim1 dim2 embeddings target_embeddings].
    rewrite H0. fold B. rewrite !Nat.eqb_refl. reflexivity. }
  set (self_similarity := {| dim0 := B |}) in Hsim.
  assert (Tp + T - Nat.min 1 (Tp + T) = norm_index (-1) (Tp + T)) as Hdrop
      by (rewrite norm_index_minus_one; lia).
  destruct (similarity_weighted_attention
              (slice_axis1_from targets_all 1) self_similarity)
    as [attention_output|e] eqn:Hatt.
  2: { rewrite similarity_weighted_attention_ok in Hatt.
       - discriminate.
       - exact HT.
       - cbn. exact H0.
       - cbn. exact Hdrop. }
  assert (shape3 attention_output = (B, T, D)) as Hshape.
  { rewrite similarity_weighted_attention_ok in Hatt.
    - injection Hatt as <-. unfold shape3. cbn. fold D. rewrite H2.
      reflexivity.
    - exact HT.
    - cbn. exact H0.
    - cbn. exact Hdrop. }
  exists targets_all, embeddings, target_embeddings, self_similarity,
         attention_output.
  repeat match goal with |- _ /\ _ => split end;
    try assumption; try reflexivity.
  - unfold shape3. cbn. rewrite H0, H2. reflexivity.
  - unfold shape3. cbn. rewrite H0. shape_components.
  - unfold shape3. cbn. shape_components.
  - unfold shape3. cbn. change (Pos.to_nat 1) with 1.
    rewrite H0, H2. shape_components.
  - intros b j d Hj.
    cbn [at3 dim1 slice_axis1_from targets_all].
    rewrite norm_index_one.
    replace (Nat.min 1 (Tp + T)) with 1 by lia. reflexivity.
  - unfold self_similarity_attention.
    rewrite Hemb. cbn [bind]. rewrite Hcat. cbn [bind].
    rewrite Htemb. cbn [bind]. rewrite Hsim. cbn [bind].
    rewrite Hatt. reflexivity.
Qed.

Lemma self_similarity_attention_structure_witness :
  0 < dim1 sample_inputs_2x3x4 /\
  2 <= dim1 sample_no_past_2x4 + dim1 sample_inputs_2x3x4 /\
  dim0 sample_no_past_2x4 = dim0 sample_inputs_2x3x4 /\
  dim2 sample_no_past_2x4 = dim2 sample_inputs_2x3x4 /\
  exists attention_output self_similarity,
    self_similarity_attention sample_conv sample_conv_1 sample_inputs_2x3x4
                              sample_no_past_2x4 2 4 2
    = Ok (attention_output, self_similarity) /\
    shape3 self_similarity = (2, 3, 2).
Proof.
  assert (0 < dim1 sample_inputs_2x3x4) as HT by (simpl; lia).
  assert (2 <= dim1 sample_no_past_2x4 + dim1 sample_inputs_2x3x4) as HTt
      by (simpl; lia).
  split; [exact HT|]. split; [exact HTt|].
  split; [reflexivity|]. split; [reflexivity|].
  destruct (@self_similarity_attention_structure
              sample_conv sample_conv_1 sample_inputs_2x3x4
              sample_no_past_2x4 2 2 HT HTt eq_refl eq_refl)
    as (ta & emb & temb & ss & att & H).
  exists att, ss.
  split; [apply H | apply H].
Defined.

(** C10.  [batch_size] is never read: two calls that differ in it alone
    return the same result. *)
Theorem self_similarity_attention_ignores_batch_size
        (conv conv_1 : ConvVariables) (inputs past_inputs : Tensor3)
        (batch_size batch_size' input_size embedding_size : nat) :
  self_similarity_attention conv conv_1 inputs past_inputs batch_size
                            input_size embedding_size
  = self_similarity_attention conv conv_1 inputs past_inputs batch_size'
                              input_size embedding_size.
Proof. reflexivity. Qed.

(** ** The end-to-end example *)






(** ** Success of the fallible primitives *)

Lemma bind_ok {A B : Type} (m : result A) (k : A -> result B) (b : B) :
  bind m k = Ok b -> exists a, m = Ok a /\ k a = Ok b.
Proof.
  destruct m as [a|e]; cbn [bind]; intros H.
  - exists a. split; [reflexivity | exact H].
  - discriminate.
Qed.

Lemma input_embeddings_inv (vars : ConvVariables) (inputs : Tensor3)
      (input_size embedding_size : nat) (embeddings : Tensor3) :
  input_embeddings vars inputs input_size embedding_size = Ok embeddings ->
  dim2 inputs = input_size
  /\ shape3 embeddings = (dim0 inputs, dim1 inputs, embedding_size).
Proof.
  unfold input_embeddings.
  destruct (dim1 inputs =? 0); [discriminate|].
  destruct (dim2 inputs =? input_size) eqn:E; cbn [negb]; intros H.
  - apply Nat.eqb_eq in E. injection H as <-. split; [exact E | reflexivity].
  - discriminate.
Qed.

Lemma input_embeddings_steps (vars : ConvVariables) (inputs : Tensor3)
      (input_size embedding_size : nat) (embeddings : Tensor3) :
  input_embeddings vars inputs input_size embedding_size = Ok embeddings ->
  0 < dim1 inputs.
Proof.
  unfold input_embeddings.
  destruct (dim1 inputs =? 0) eqn:E; [discriminate|].
  apply Nat.eqb_neq in E. lia.
Qed.

Lemma input_embeddings_ok (vars : ConvVariables) (inputs : Tensor3)
      (embedding_size : nat) :
  0 < dim1 inputs ->
  input_embeddings vars inputs (dim2 inputs) embedding_size
  = Ok {| dim0 := dim0 inputs;
          dim1 := dim1 inputs;
          dim2 := embedding_size;
          at3 := fun b t e =>
            relu (rsum (dim2 inputs)
                       (fun k => (at3 inputs b t k * conv_weights vars k e)%R)
                  + conv_biases vars e) |}.
Proof.
  intros H. unfold input_embeddings.
  replace (dim1 inputs =? 0) with false by (symmetry; apply Nat.eqb_neq; lia).
  rewrite Nat.eqb_refl. reflexivity.
Qed.

Lemma tf_concat_axis1_inv (a b c : Tensor3) :
  tf_concat_axis1 a b = Ok c ->
  dim0 a = dim0 b /\ dim2 a = dim2 b
  /\ shape3 c = (dim0 a, dim1 a + dim1 b, dim2 a).
Proof.
  unfold tf_concat_axis1.
  destruct ((dim0 a =? dim0 b) && (dim2 a =? dim2 b)) eqn:E;
    cbn [negb]; intros H.
  - apply andb_true_iff in E as [E0 E2].
    apply Nat.eqb_eq in E0, E2. injection H as <-. auto.
  - discriminate.
Qed.

Lemma tf_concat_axis2_inv (a b c : Tensor3) :
  tf_concat_axis2 a b = Ok c ->
  dim0 a = dim0 b /\ dim1 a = dim1 b
  /\ shape3 c = (dim0 a, dim1 a, dim2 a + dim2 b)
  /\ forall n t d,
      at3 c n t d
      = if d <? dim2 a then at3 a n t d else at3 b n t (d - dim2 a).
Proof.
  unfold tf_concat_axis2.
  destruct (dim0 a =? dim0 b) eqn:E0; cbn [negb]; [|discriminate].
  destruct (dim1 a =? dim1 b) eqn:E1; cbn [negb]; [|discriminate].
  apply Nat.eqb_eq in E0, E1. intros H. injection H as <-. auto.
Qed.

Lemma tf_matmul_inv (a b c : Tensor3) :
  tf_matmul a b = Ok c ->
  dim0 a = dim0 b /\ dim2 a = dim1 b
  /\ shape3 c = (dim0 a, dim1 a, dim2 b)
  /\ forall n i d,
      at3 c n i d = rsum (dim2 a) (fun j => (at3 a n i j * at3 b n j d)%R).
Proof.
  unfold tf_matmul.
  destruct (dim0 a =? dim0 b) eqn:E0; cbn [negb]; [|discriminate].
  destruct (dim2 a =? dim1 b) eqn:E1; cbn [negb]; [|discriminate].
  apply Nat.eqb_eq in E0, E1. intros H. injection H as <-. auto.
Qed.

Lemma tf_matmul_transpose_b_inv (a b c : Tensor3) :
  tf_matmul_transpose_b a b = Ok c ->
  dim0 a = dim0 b /\ dim2 a = dim2 b
  /\ shape3 c = (dim0 a, dim1 a, dim1 b).
Proof.
  unfold tf_matmul_transpose_b.
  destruct (dim0 a =? dim0 b) eqn:E0; cbn [negb]; [|discriminate].
  destruct (dim2 a =? dim2 b) eqn:E1; cbn [negb]; [|discriminate].
  apply Nat.eqb_eq in E0, E1. intros H. injection H as <-. auto.
Qed.

(** A successful call of the layer fixes the shapes of its arguments and
    of its results. *)
Lemma self_similarity_attention_inv
      (conv conv_1 : ConvVariables) (inputs past_inputs : Tensor3)
      (batch_size input_size embedding_size : nat)
      (attention_outputs self_similarity : Tensor3) :
  self_similarity_attention conv conv_1 inputs past_inputs batch_size
                            input_size embedding_size
  = Ok (attention_outputs, self_similarity) ->
  dim2 inputs = input_size
  /\ dim0 past_inputs = dim0 inputs
  /\ dim2 past_inputs = dim2 inputs
  /\ shape3 attention_outputs = (dim0 inputs, dim1 inputs, dim2 inputs)
  /\ shape3 self_similarity
     = (dim0 inputs, dim1 inputs, dim1 past_inputs + dim1 inputs - 1).
Proof.
  unfold self_similarity_attention. intros H.
  apply bind_ok in H as (emb & Hemb & H).
  apply bind_ok in H as (tgt & Htgt & H).
  apply bind_ok in H as (temb & Htemb & H).
  apply bind_ok in H as (ss & Hss & H).
  apply bind_ok in H as (att & Hatt & H).
  injection H as <- <-.
  apply input_embeddings_inv in Hemb as [Hsize Hemb].
  apply tf_concat_axis1_inv in Htgt as (Hc0 & Hc2 & Htgt).
  apply input_embeddings_inv in Htemb as [_ Htemb].
  apply tf_matmul_transpose_b_inv in Hss as (_ & _ & Hss).
  apply similarity_weighted_attention_inv in Hatt as [_ Hatt].
  apply tf_matmul_inv in Hatt as (_ & _ & Hatt & _).
  unfold shape3 in *. cbn [dim0 dim1 dim2 slice_axis1_to slice_axis1_from]
    in *.
  injection Hemb as He0 He1 He2. injection Htgt as Ht0 Ht1 Ht2.
  injection Htemb as Hte0 Hte1 Hte2.
  rewrite norm_index_minus_one in Hte1.
  change (dim0 (masked_attention ss)) with (dim0 ss) in Hatt.
  change (dim1 (masked_attention ss)) with (dim1 ss) in Hatt.
  repeat split; congruence.
Qed.

(** The attention output of the layer is the attention unit's output on
    the targets without their first step. *)
Lemma self_similarity_attention_attention_call
      (conv conv_1 : ConvVariables) (inputs past_inputs : Tensor3)
      (batch_size input_size embedding_size : nat)
      (attention_outputs self_similarity : Tensor3) :
  self_similarity_attention conv conv_1 inputs past_inputs batch_size
                            input_size embedding_size
  = Ok (attention_outputs, self_similarity) ->
  exists targets_all,
    tf_concat_axis1 past_inputs inputs = Ok targets_all /\
    similarity_weighted_attention (slice_axis1_from targets_all 1)
                                  self_similarity
    = Ok attention_outputs.
Proof.
  unfold self_similarity_attention. intros H.
  apply bind_ok in H as (emb & _ & H).
  apply bind_ok in H as (tgt & Htgt & H).
  apply bind_ok in H as (temb & _ & H).
  apply bind_ok in H as (ss & _ & H).
  apply bind_ok in H as (att & Hatt & H).
  injection H as <- <-.
  exists tgt. split; assumption.
Qed.

(** Empty history: with no past inputs the first step has nothing to
    attend to, so its attention weights and its attention output are 0. *)
Lemma no_past_first_row_is_zero
      (conv conv_1 : ConvVariables) (inputs past_inputs : Tensor3)
      (batch_size input_size embedding_size : nat)
      (attention_outputs self_similarity : Tensor3) :
  dim1 past_inputs = 0 ->
  self_similarity_attention conv conv_1 inputs past_inputs batch_size
                            input_size embedding_size
  = Ok (attention_outputs, self_similarity) ->
  forall b,
    (forall j, at3 (masked_attention self_similarity) b 0 j = 0%R) /\
    (forall d, at3 attention_outputs b 0 d = 0%R).
Proof.
  intros Hpast Hrun b.
  pose proof (self_similarity_attention_inv _ _ _ _ _ _ _ Hrun)
    as (_ & _ & _ & _ & Hss).
  apply self_similarity_attention_attention_call in Hrun
    as (tgt & _ & Hatt).
  assert (window self_similarity 0 = 0) as Hw.
  { unfold shape3 in Hss. injection Hss as _ H1 H2.
    unfold window. rewrite attention_steps_at, H1, H2, Hpast.
    unfold norm_index.
    destruct (_ <? 0)%Z eqn:E; [apply Z.ltb_lt in E|]; lia. }
  split.
  - intros j. apply empty_window_row. exact Hw.
  - intros d.
    apply similarity_weighted_attention_inv in Hatt as [_ Hatt].
    apply tf_matmul_inv in Hatt as (_ & _ & _ & Hentries).
    rewrite Hentries. apply rsum_zero. intros k _.
    rewrite empty_window_row by exact Hw. lra.
Qed.

(** ** The graph assembler *)

(** The three modes run to completion on the sample collaborators. *)
Lemma sample_graphs_build :
  (exists vars images,
      sample_build_graph "train" sample_config None sample_feeds
      = Ok (TrainOutputs unit vars images)) /\
  (exists vars,
      sample_build_graph "eval" sample_config None sample_feeds
      = Ok (EvalOutputs unit vars)) /\
  (exists softmax targets past_targets initial_state final_state,
      sample_build_graph "generate" sample_config None sample_feeds
      = Ok (GenerateOutputs softmax targets past_targets initial_state
                            final_state)).
Proof.
  split; [|split].
  - eexists. eexists. reflexivity.
  - eexists. reflexivity.
  - do 5 eexists. reflexivity.
Qed.

(** End to end on the sample configuration (inputs of size 3, one layer of
    recurrent size 4, embedding size 2, batches of 2 sequences of 3 steps,
    no past): the train graph tracks one self-similarity matrix, of shape
    [(2, 3, 2)], whose rows have the windows 0, 1 and 2. *)
Lemma sample_train_graph_self_similarity :
  exists vars self_similarity,
    sample_build_graph "train" sample_config None sample_feeds
    = Ok (TrainOutputs unit vars [self_similarity]) /\
    shape3 self_similarity = (2, 3, 2) /\
    map (window self_similarity) [0; 1; 2] = [0; 1; 2].
Proof.
  eexists. eexists. split; [reflexivity|]. split; reflexivity.
Qed.

Section GraphProperties.

Variable RNNCell : Type.
Variable RNNState : Type.
Variable StateTensor : Type.
Variable base_cell : nat -> RNNCell.
Variable MultiRNNCell : list RNNCell -> result RNNCell.
Variable zero_state : RNNCell -> nat -> RNNState.
Variable dynamic_rnn :
  nat -> RNNCell -> Tensor3 -> option (list nat) -> RNNState ->
  result (Tensor3 * RNNState).
Variable tf_nest_flatten : RNNState -> list StateTensor.
Variable conv_variables : nat -> ConvVariables.
Variable conv_1_variables : nat -> ConvVariables.
Variable linear_variables : LinearVariables.
Variable get_padded_batch :
  option (list string) -> nat -> nat -> bool ->
  result (Tensor3 * list (list Z) * list nat).
Variable flatten_maybe_padded_sequences :
  Tensor3 -> option (list nat) -> Tensor2.
Variable flatten_maybe_padded_labels : list (list Z) -> list nat -> list Z.
Variable tf_metrics_mean : Vector -> option R -> R.
Variable tf_metrics_accuracy : list Z -> list Z -> R.
Variable tf_metrics_mean_per_class_accuracy : list Z -> list Z -> nat -> R.
Variable tf_metrics_recall : Vector -> Vector -> R.

Local Abbreviation graph :=
  (build_graph base_cell MultiRNNCell zero_state dynamic_rnn tf_nest_flatten
               conv_variables conv_1_variables linear_variables
               get_padded_batch flatten_maybe_padded_sequences
               flatten_maybe_padded_labels tf_metrics_mean
               tf_metrics_accuracy tf_metrics_mean_per_class_accuracy
               tf_metrics_recall).

Local Abbreviation body :=
  (layer_body base_cell MultiRNNCell zero_state dynamic_rnn conv_variables
              conv_1_variables).

Local Abbreviation loop :=
  (layers_loop base_cell MultiRNNCell zero_state dynamic_rnn conv_variables
               conv_1_variables).

Lemma valid_mode_true (mode : string) :
  valid_mode mode = true
  <-> mode = "train"%string \/ mode = "eval"%string
      \/ mode = "generate"%string.
Proof.
  unfold valid_mode. cbn [existsb].
  rewrite !orb_true_iff, !String.eqb_eq. intuition congruence.
Qed.

(** C5.  A mode outside train, eval and generate makes [build_graph] raise
    the [ValueError] whose message ends with the mode, whatever the
    configuration, the paths, the feeds and the collaborators are: nothing
    of them is evaluated and no graph is returned.  The three valid modes
    pass the guard. *)
Theorem build_graph_mode_check
        (mode : string) (config : Config)
        (sequence_example_file_paths : option (list string))
        (feeds : Feeds) :
  (mode <> "train"%string -> mode <> "eval"%string ->
   mode <> "generate"%string ->
   graph mode config sequence_example_file_paths feeds
   = Raise (ValueError (mode_error_prefix ++ mode)))
  /\ (mode = "train"%string \/ mode = "eval"%string
      \/ mode = "generate"%string ->
      check_mode mode = Ok tt).
Proof.
  split.
  - intros Ht He Hg. unfold build_graph, check_mode.
    destruct (valid_mode mode) eqn:E.
    + apply valid_mode_true in E. intuition congruence.
    + reflexivity.
  - intros H. apply valid_mode_true in H.
    unfold check_mode. rewrite H. reflexivity.
Qed.

(** What one iteration of the layer loop computes, step by step. *)
Lemma layer_body_inv
      (hparams : HParams) (lengths : option (list nat))
      (past_targets : list Tensor3) (layer : nat)
      (st st' : LayerLoop RNNState) :
  body hparams lengths past_targets layer st = Ok st' ->
  exists sizes cell rnn_outputs layer_final_state past size embedding_size
         attention_outputs layer_self_similarity concatenated,
    py_index (rnn_layer_sizes hparams) layer = Ok sizes /\
    make_rnn_cell base_cell MultiRNNCell sizes = Ok cell /\
    dynamic_rnn layer cell (layer_inputs st) lengths
                (zero_state cell (batch_size hparams))
    = Ok (rnn_outputs, layer_final_state) /\
    py_index past_targets layer = Ok past /\
    py_last sizes = Ok size /\
    py_index (embedding_sizes hparams) layer = Ok embedding_size /\
    self_similarity_attention (conv_variables layer)
                              (conv_1_variables layer) rnn_outputs past
                              (batch_size hparams) size embedding_size
    = Ok (attention_outputs, layer_self_similarity) /\
    tf_concat_axis2 rnn_outputs attention_outputs = Ok concatenated /\
    st' = {| targets := targets st ++ [rnn_outputs];
             initial_state :=
               initial_state st ++ [zero_state cell (batch_size hparams)];
             final_state := final_state st ++ [layer_final_state];
             self_similarity :=
               self_similarity st ++ [layer_self_similarity];
             layer_inputs := concatenated;
             outputs := Some concatenated |}.
Proof.
  unfold layer_body. intros H.
  apply bind_ok in H as (sizes & Hsizes & H).
  apply bind_ok in H as (cell & Hcell & H).
  apply bind_ok in H as ([rnn_outputs layer_final_state] & Hrnn & H).
  apply bind_ok in H as (past & Hpast & H).
  apply bind_ok in H as (size & Hsize & H).
  apply bind_ok in H as (embedding_size & Hemb & H).
  apply bind_ok in H as ([attention_outputs layer_ss] & Hatt & H).
  apply bind_ok in H as (concatenated & Hcat & H).
  injection H as <-.
  exists sizes, cell, rnn_outputs, layer_final_state, past, size,
         embedding_size, attention_outputs, layer_ss, concatenated.
  repeat split; assumption.
Qed.

(** The loop appends one entry to [targets] per layer. *)
Lemma layers_loop_targets_length
      (hparams : HParams) (lengths : option (list nat))
      (past_targets : list Tensor3) (inputs : Tensor3) (n : nat)
      (st : LayerLoop RNNState) :
  loop hparams lengths past_targets inputs n = Ok st ->
  List.length (targets st) = n.
Proof.
  revert st. induction n as [|n IH]; intros st H; cbn [layers_loop] in H.
  - injection H as <-. reflexivity.
  - apply bind_ok in H as (st0 & Hst0 & H).
    apply layer_body_inv in H
      as (? & ? & rnn & ? & ? & ? & ? & ? & ? & ? & H).
    decompose [and] H. subst st. cbn [targets].
    rewrite length_app, (IH st0 Hst0). cbn [List.length]. lia.
Qed.

(** Later iterations only append to [targets]. *)
Lemma layers_loop_targets_grow
      (hparams : HParams) (lengths : option (list nat))
      (past_targets : list Tensor3) (inputs : Tensor3) (m n : nat)
      (st_m st_n : LayerLoop RNNState) :
  m <= n ->
  loop hparams lengths past_targets inputs m = Ok st_m ->
  loop hparams lengths past_targets inputs n = Ok st_n ->
  exists later, targets st_n = targets st_m ++ later.
Proof.
  intros Hle Hm. revert st_n.
  induction n as [|n IH]; intros st_n Hn.
  - assert (m = 0) as -> by lia.
    rewrite Hm in Hn. injection Hn as <-. exists []. symmetry.
    apply app_nil_r.
  - destruct (Nat.eq_dec m (S n)) as [->|Hne].
    + rewrite Hm in Hn. injection Hn as <-. exists []. symmetry.
      apply app_nil_r.
    + cbn [layers_loop] in Hn.
      apply bind_ok in Hn as (st0 & Hst0 & Hn).
      destruct (IH ltac:(lia) st0 Hst0) as [later Hlater].
      apply layer_body_inv in Hn
        as (? & ? & rnn & ? & ? & ? & ? & ? & ? & ? & Hn).
      decompose [and] Hn. subst st_n. cbn [targets].
      exists (later ++ [rnn]). rewrite Hlater, app_assoc. reflexivity.
Qed.

(** C8.  Let [st] be the loop state when layer [layer] starts and [st'] the
    state it leaves.  The input of the next layer, [layer_inputs st'], is
    the concatenation along the feature axis of the layer's recurrent
    outputs and its attention outputs (the recurrent outputs in the first
    [D] features, the attention outputs in the next [D]); the entry the
    layer adds to [targets], which every later state keeps at index
    [layer], is the recurrent outputs themselves, a tensor different from
    the concatenation as soon as [D > 0]. *)
Theorem layer_output_is_concatenation_and_target_is_rnn_output
        (hparams : HParams) (lengths : option (list nat))
        (past_targets : list Tensor3) (inputs : Tensor3) (layer : nat)
        (st st' : LayerLoop RNNState) :
  loop hparams lengths past_targets inputs layer = Ok st ->
  body hparams lengths past_targets layer st = Ok st' ->
  exists cell rnn_outputs layer_final_state past size embedding_size
         attention_outputs layer_self_similarity,
    dynamic_rnn layer cell (layer_inputs st) lengths
                (zero_state cell (batch_size hparams))
    = Ok (rnn_outputs, layer_final_state) /\
    self_similarity_attention (conv_variables layer)
                              (conv_1_variables layer) rnn_outputs past
                              (batch_size hparams) size embedding_size
    = Ok (attention_outputs, layer_self_similarity) /\
    tf_concat_axis2 rnn_outputs attention_outputs = Ok (layer_inputs st') /\
    shape3 (layer_inputs st')
    = (dim0 rnn_outputs, dim1 rnn_outputs,
       dim2 rnn_outputs + dim2 rnn_outputs) /\
    (forall b t d,
        at3 (layer_inputs st') b t d
        = if d <? dim2 rnn_outputs
          then at3 rnn_outputs b t d
          else at3 attention_outputs b t (d - dim2 rnn_outputs)) /\
    nth_error (targets st') layer = Some rnn_outputs /\
    (0 < dim2 rnn_outputs -> rnn_outputs <> layer_inputs st') /\
    (forall n st_n,
        layer < n ->
        loop hparams lengths past_targets inputs n = Ok st_n ->
        nth_error (targets st_n) layer = Some rnn_outputs).
Proof.
  intros Hst Hbody.
  pose proof (layers_loop_targets_length _ _ _ _ _ Hst) as Hlen.
  assert (loop hparams lengths past_targets inputs (S layer) = Ok st')
    as Hnext by (cbn [layers_loop]; rewrite Hst; exact Hbody).
  apply layer_body_inv in Hbody
    as (sizes & cell & rnn & fin & past & size & emb & att & ss & cat & H).
  destruct H as (_ & _ & Hrnn & _ & _ & _ & Hatt & Hcat & ->).
  cbn [targets layer_inputs] in *.
  pose proof (self_similarity_attention_inv _ _ _ _ _ _ _ Hatt)
    as (_ & _ & _ & Hshape & _).
  pose proof (tf_concat_axis2_inv _ _ Hcat) as (_ & _ & Hcshape & Hcat_at).
  assert (dim2 att = dim2 rnn) as Hd2
      by (unfold shape3 in Hshape; congruence).
  assert (nth_error (targets st ++ [rnn]) layer = Some rnn) as Hnth.
  { rewrite nth_error_app2 by lia.
    rewrite Hlen, Nat.sub_diag. reflexivity. }
  exists cell, rnn, fin, past, size, emb, att, ss.
  repeat match goal with |- _ /\ _ => split end; try assumption.
  - rewrite Hcshape, Hd2. reflexivity.
  - intros Hpos Heq. unfold shape3 in Hcshape.
    assert (dim2 cat = dim2 rnn + dim2 att) as Hc2 by congruence.
    rewrite <- Heq in Hc2. lia.
  - intros n st_n Hn Hloop.
    destruct (layers_loop_targets_grow
                (m := S layer) (n := n) _ _ _ _ ltac:(lia) Hnext Hloop)
      as [later Hlater].
    cbn [targets] in Hlater. rewrite Hlater.
    rewrite nth_error_app1; [exact Hnth|].
    rewrite length_app. cbn [List.length]. lia.
Qed.

(** The train graph reports [train_metrics] of the cross-entropy of the
    batch, normalised per step by the step count of the batch labels. *)
Lemma build_graph_train_outputs
      (config : Config) (paths : option (list string)) (feeds : Feeds)
      (out : GraphOutputs StateTensor) :
  graph "train"%string config paths feeds = Ok out ->
  exists inputs labels lengths past_targets st outputs_last ce,
    get_padded_batch paths (batch_size (hparams config))
                     (input_size (encoder_decoder config)) true
    = Ok (inputs, labels, lengths) /\
    loop (hparams config) (Some lengths) past_targets inputs
         (List.length (rnn_layer_sizes (hparams config)))
    = Ok st /\
    outputs st = Some outputs_last /\
    let labels_flat := flatten_maybe_padded_labels labels lengths in
    let logits_flat :=
      tf_linear linear_variables
                (flatten_maybe_padded_sequences outputs_last (Some lengths))
                (num_classes (encoder_decoder config)) in
    let no_event_labels :=
      map (fun _ => default_event_label (encoder_decoder config))
          labels_flat in
    sparse_softmax_cross_entropy_with_logits labels_flat logits_flat
    = Ok ce /\
    out = TrainOutputs
            StateTensor
            (train_metrics
               ce
               (to_float_equal labels_flat (tf_argmax logits_flat))
               (to_float_not_equal labels_flat no_event_labels)
               (to_float_equal labels_flat no_event_labels)
               (batch_labels_to_num_steps (encoder_decoder config) labels
                                          lengths))
            (self_similarity st).
Proof.
  unfold build_graph. intros H.
  apply bind_ok in H as (_ & _ & H).
  change (("train" =? "train")%string) with true in H.
  cbn [orb] in H.
  apply bind_ok in H as ([[[inputs labels] lengths] past_targets] & Hin & H).
  apply bind_ok in Hin as ([[inputs' labels'] lengths'] & Hbatch & Hin).
  apply bind_ok in Hin as (past & Hpast & Hin).
  injection Hin as <- <- <- <-.
  apply bind_ok in H as (st & Hst & H).
  apply bind_ok in H as (outputs_last & Hout & H).
  destruct (outputs st) as [o|] eqn:Eo; [|discriminate].
  injection Hout as <-.
  apply bind_ok in H as (ce & Hce & H).
  injection H as <-.
  exists inputs', labels', lengths', past, st, o, ce.
  repeat split; assumption.
Qed.

(** The generate graph reports [generate_softmax] of the projected
    outputs at the fed temperature, and the tracked [targets]. *)
Lemma build_graph_generate_outputs
      (config : Config) (paths : option (list string)) (feeds : Feeds)
      (out : GraphOutputs StateTensor) :
  graph "generate"%string config paths feeds = Ok out ->
  exists inputs past_targets st outputs_last softmax,
    tf_placeholder (batch_size (hparams config))
                   (input_size (encoder_decoder config)) (feed_inputs feeds)
    = Ok inputs /\
    loop (hparams config) None past_targets inputs
         (List.length (rnn_layer_sizes (hparams config)))
    = Ok st /\
    outputs st = Some outputs_last /\
    generate_softmax
      (tf_linear linear_variables
                 (flatten_maybe_padded_sequences outputs_last None)
                 (num_classes (encoder_decoder config)))
      (feed_temperature feeds) (batch_size (hparams config))
      (num_classes (encoder_decoder config))
    = Ok softmax /\
    out = GenerateOutputs softmax (targets st) past_targets
                          (flat_map tf_nest_flatten (initial_state st))
                          (flat_map tf_nest_flatten (final_state st)).
Proof.
  unfold build_graph. intros H.
  apply bind_ok in H as (_ & _ & H).
  change (("generate" =? "train")%string) with false in H.
  change (("generate" =? "eval")%string) with false in H.
  cbn [orb] in H.
  apply bind_ok in H as ([[[inputs labels] lengths] past_targets] & Hin & H).
  apply bind_ok in Hin as (inputs' & Hfeed & Hin).
  apply bind_ok in Hin as (past & Hpast & Hin).
  injection Hin as <- <- <- <-.
  apply bind_ok in H as (st & Hst & H).
  apply bind_ok in H as (outputs_last & Hout & H).
  destruct (outputs st) as [o|] eqn:Eo; [|discriminate].
  injection Hout as <-.
  apply bind_ok in H as (softmax & Hsoft & H).
  injection H as <-.
  exists inputs', past, st, o, softmax.
  repeat split; assumption.
Qed.

End GraphProperties.

Lemma build_graph_mode_check_witness :
  sample_build_graph "sample" sample_config None sample_feeds
  = Raise (ValueError (mode_error_prefix ++ "sample"))
  /\ check_mode "eval" = Ok tt.
Proof.
  split.
  - apply (build_graph_mode_check
             sample_base_cell sample_MultiRNNCell sample_zero_state
             sample_dynamic_rnn sample_nest_flatten
             (fun _ => sample_conv) (fun _ => sample_conv_1) sample_linear
             sample_get_padded_batch sample_flatten sample_flatten_labels
             sample_metrics_mean sample_metrics_accuracy
             sample_metrics_per_class sample_metrics_recall
             "sample" sample_config None sample_feeds); discriminate.
  - apply (build_graph_mode_check
             sample_base_cell sample_MultiRNNCell sample_zero_state
             sample_dynamic_rnn sample_nest_flatten
             (fun _ => sample_conv) (fun _ => sample_conv_1) sample_linear
             sample_get_padded_batch sample_flatten sample_flatten_labels
             sample_metrics_mean sample_metrics_accuracy
             sample_metrics_per_class sample_metrics_recall
             "eval" sample_config None sample_feeds).
    right. left. reflexivity.
Defined.

Lemma layer_output_is_concatenation_and_target_is_rnn_output_witness :
  exists st' rnn_outputs,
    layer_body sample_base_cell sample_MultiRNNCell sample_zero_state
               sample_dynamic_rnn (fun _ => sample_conv)
               (fun _ => sample_conv_1) (hparams sample_config) None
               [tf_zeros 2 1 4] 0
               (layer_loop_start unit (feed_inputs sample_feeds))
    = Ok st' /\
    nth_error (targets st') 0 = Some rnn_outputs /\
    shape3 rnn_outputs = (2, 3, 4) /\
    shape3 (layer_inputs st') = (2, 3, 8).
Proof.
  eexists.
  destruct (@layer_output_is_concatenation_and_target_is_rnn_output
              (list nat) unit sample_base_cell sample_MultiRNNCell
              sample_zero_state sample_dynamic_rnn (fun _ => sample_conv)
              (fun _ => sample_conv_1) (hparams sample_config) None
              [tf_zeros 2 1 4] (feed_inputs sample_feeds) 0
              (layer_loop_start unit (feed_inputs sample_feeds))
              _ eq_refl eq_refl)
    as (cell & rnn & fin & past & size & emb & att & ss & H).
  destruct H as (_ & _ & _ & Hshape & _ & Hnth & _).
  exists rnn.
  split; [reflexivity|]. split; [exact Hnth|].
  cbn in Hnth. injection Hnth as <-.
  split; [reflexivity | exact Hshape].
Defined.

(** ** Train metrics *)

(** The step count of a batch is the sum, over its sequences, of what the
    encoder/decoder counts on the unpadded labels. *)
Lemma batch_labels_to_num_steps_sum
      (encoder_decoder : EncoderDecoder)
      (batch_labels : list (list Z)) (lengths : list nat) :
  batch_labels_to_num_steps encoder_decoder batch_labels lengths
  = IZR (fold_right
           Z.add 0%Z
           (map (fun p => labels_to_num_steps encoder_decoder
                                              (firstn (snd p) (fst p)))
                (combine batch_labels lengths))).
Proof.
  unfold batch_labels_to_num_steps. f_equal.
  enough (forall acc,
             fold_left
               (fun num_steps '(labels, length) =>
                  (num_steps
                   + labels_to_num_steps encoder_decoder
                                         (firstn length labels))%Z)
               (combine batch_labels lengths) acc
             = (acc
                + fold_right
                    Z.add 0%Z
                    (map (fun p => labels_to_num_steps
                                     encoder_decoder
                                     (firstn (snd p) (fst p)))
                         (combine batch_labels lengths)))%Z) as H
      by (rewrite H; lia).
  induction (combine batch_labels lengths) as [|[labels length] rest IH];
    intros acc; cbn [fold_left fold_right map fst snd].
  - lia.
  - rewrite IH. lia.
Qed.

(** ** Generate-mode sampling distribution *)

Lemma reshape_index (n c num_classes : nat) :
  c < num_classes ->
  (n * num_classes + c) / num_classes = n
  /\ (n * num_classes + c) mod num_classes = c.
Proof.
  intros Hc. split.
  - rewrite Nat.div_add_l by lia. rewrite Nat.div_small by lia. lia.
  - rewrite Nat.add_comm, Nat.Div0.mod_add. apply Nat.mod_small. lia.
Qed.

(** On logits of shape [(batch * steps, classes)] the sampling tail
    returns a tensor of shape [(batch, steps, classes)] whose entry
    [(b, s, c)] is the softmax over the classes of [logits / temperature]
    at position [b * steps + s]. *)
Lemma generate_softmax_reshaped
        (logits_flat : Tensor2) (temperature : R)
        (batch_size steps num_classes : nat) :
  0 < batch_size ->
  0 < num_classes ->
  rows logits_flat = batch_size * steps ->
  cols logits_flat = num_classes ->
  exists softmax,
    generate_softmax logits_flat temperature batch_size num_classes
    = Ok softmax /\
    shape3 softmax = (batch_size, steps, num_classes) /\
    (forall b s c,
        b < batch_size -> s < steps -> c < num_classes ->
        at3 softmax b s c
        = (exp (at2 logits_flat (b * steps + s) c / temperature)
           / rsum num_classes
                  (fun k => exp (at2 logits_flat (b * steps + s) k
                                 / temperature)))%R) /\
    (temperature = 1%R ->
     forall b s c,
       b < batch_size -> s < steps -> c < num_classes ->
       at3 softmax b s c = at2 (tf_softmax logits_flat) (b * steps + s) c).
Proof.
  intros Hb Hc Hrows Hcols.
  assert (forall b s c,
             c < num_classes ->
             at2 (tf_softmax (tf_div logits_flat
                                     (tf_fill num_classes temperature)))
                 (((b * steps + s) * num_classes + c) / num_classes)
                 (((b * steps + s) * num_classes + c) mod num_classes)
             = (exp (at2 logits_flat (b * steps + s) c / temperature)
                / rsum num_classes
                       (fun k => exp (at2 logits_flat (b * steps + s) k
                                      / temperature)))%R) as Hentry.
  { intros b s c Hlt.
    destruct (reshape_index (b * steps + s) Hlt) as [-> ->].
    cbn [at2 tf_softmax tf_div tf_fill vat cols]. rewrite Hcols.
    reflexivity. }
  assert (rows logits_flat * num_classes / (batch_size * num_classes) = steps)
    as Hsteps.
  { rewrite Hrows.
    replace (batch_size * steps * num_classes)
      with (steps * (batch_size * num_classes)) by lia.
    apply Nat.div_mul. nia. }
  assert (generate_softmax logits_flat temperature batch_size num_classes
          = Ok {| dim0 := batch_size;
                  dim1 := steps;
                  dim2 := num_classes;
                  at3 := fun b s c =>
                    let idx := (b * steps + s) * num_classes + c in
                    at2 (tf_softmax
                           (tf_div logits_flat
                                   (tf_fill num_classes temperature)))
                        (idx / num_classes) (idx mod num_classes) |})
    as Hrun.
  { unfold generate_softmax, tf_reshape_3d.
    cbn [rows cols tf_softmax tf_div]. rewrite Hcols, Hsteps.
    assert ((batch_size * num_classes =? 0) = false) as ->
        by (apply Nat.eqb_neq; nia).
    assert ((rows logits_flat * num_classes mod (batch_size * num_classes)
             =? 0) = true) as ->.
    { apply Nat.eqb_eq. rewrite Hrows.
      replace (batch_size * steps * num_classes)
        with (steps * (batch_size * num_classes)) by lia.
      apply Nat.Div0.mod_mul. }
    reflexivity. }
  eexists. split; [exact Hrun|]. split; [reflexivity|]. split.
  - intros b s c _ _ Hlt. cbn [at3]. cbv zeta. apply Hentry. exact Hlt.
  - intros -> b s c _ _ Hlt. cbn [at3]. cbv zeta.
    rewrite Hentry by exact Hlt.
    cbn [at2 tf_softmax]. rewrite Hcols.
    f_equal.
    + f_equal. lra.
    + apply rsum_ext. intros k _. f_equal. lra.
Qed.

(** The sampling tail only returns on logits whose rows split evenly over
    the batch. *)
Lemma generate_softmax_inv
      (logits_flat : Tensor2) (temperature : R)
      (batch_size num_classes : nat) (softmax : Tensor3) :
  cols logits_flat = num_classes ->
  generate_softmax logits_flat temperature batch_size num_classes
  = Ok softmax ->
  0 < batch_size /\ 0 < num_classes /\
  exists steps, rows logits_flat = batch_size * steps.
Proof.
  intros Hcols. unfold generate_softmax, tf_reshape_3d.
  cbn [rows cols tf_softmax tf_div]. rewrite Hcols.
  destruct (batch_size * num_classes =? 0) eqn:E0; cbn [orb];
    [discriminate|].
  destruct (rows logits_flat * num_classes mod (batch_size * num_classes)
            =? 0) eqn:E1; cbn [negb]; [|discriminate].
  intros _. apply Nat.eqb_neq in E0. apply Nat.eqb_eq in E1.
  split; [nia|]. split; [nia|].
  exists (rows logits_flat * num_classes / (batch_size * num_classes)).
  apply Nat.Div0.div_exact in E1.
  apply (Nat.mul_cancel_r _ _ num_classes); [nia|].
  rewrite E1 at 1. ring.
Qed.

(** ** What the graph reports *)

Section GraphReports.

Variable RNNCell : Type.
Variable RNNState : Type.
Variable StateTensor : Type.
Variable base_cell : nat -> RNNCell.
Variable MultiRNNCell : list RNNCell -> result RNNCell.
Variable zero_state : RNNCell -> nat -> RNNState.
Variable dynamic_rnn :
  nat -> RNNCell -> Tensor3 -> option (list nat) -> RNNState ->
  result (Tensor3 * RNNState).
Variable tf_nest_flatten : RNNState -> list StateTensor.
Variable conv_variables : nat -> ConvVariables.
Variable conv_1_variables : nat -> ConvVariables.
Variable linear_variables : LinearVariables.
Variable get_padded_batch :
  option (list string) -> nat -> nat -> bool ->
  result (Tensor3 * list (list Z) * list nat).
Variable flatten_maybe_padded_sequences :
  Tensor3 -> option (list nat) -> Tensor2.
Variable flatten_maybe_padded_labels : list (list Z) -> list nat -> list Z.
Variable tf_metrics_mean : Vector -> option R -> R.
Variable tf_metrics_accuracy : list Z -> list Z -> R.
Variable tf_metrics_mean_per_class_accuracy : list Z -> list Z -> nat -> R.
Variable tf_metrics_recall : Vector -> Vector -> R.

Local Abbreviation graph :=
  (build_graph base_cell MultiRNNCell zero_state dynamic_rnn tf_nest_flatten
               conv_variables conv_1_variables linear_variables
               get_padded_batch flatten_maybe_padded_sequences
               flatten_maybe_padded_labels tf_metrics_mean
               tf_metrics_accuracy tf_metrics_mean_per_class_accuracy
               tf_metrics_recall).

Local Abbreviation loop :=
  (layers_loop base_cell MultiRNNCell zero_state dynamic_rnn conv_variables
               conv_1_variables).

(** C7.  Whatever the batch and the collaborators, the dictionary a train
    graph reports is computed from the per-position cross-entropy [ce] of
    the batch (the labels of the batch against the projected output of the
    layer stack) and from the step count the encoder/decoder gives for the
    unpadded labels: over a batch with a position, [loss] is the mean of
    [ce] and [perplexity] is [exp loss]; for a step count other than 0,
    [loss_per_step] is the sum of [ce] divided by the step count (not by
    the number of positions) and [perplexity_per_step] is
    [exp loss_per_step]. *)
Theorem train_graph_loss_and_perplexity
        (config : Config) (paths : option (list string)) (feeds : Feeds)
        (vars : list (string * R)) (images : list Tensor3) :
  graph "train"%string config paths feeds
  = Ok (TrainOutputs StateTensor vars images) ->
  exists inputs labels lengths past_targets st outputs_last ce,
    get_padded_batch paths (batch_size (hparams config))
                     (input_size (encoder_decoder config)) true
    = Ok (inputs, labels, lengths) /\
    loop (hparams config) (Some lengths) past_targets inputs
         (List.length (rnn_layer_sizes (hparams config)))
    = Ok st /\
    outputs st = Some outputs_last /\
    sparse_softmax_cross_entropy_with_logits
      (flatten_maybe_padded_labels labels lengths)
      (tf_linear linear_variables
                 (flatten_maybe_padded_sequences outputs_last (Some lengths))
                 (num_classes (encoder_decoder config)))
    = Ok ce /\
    let total := rsum (vlen ce) (vat ce) in
    let num_steps :=
      IZR (fold_right
             Z.add 0%Z
             (map (fun p => labels_to_num_steps (encoder_decoder config)
                                                (firstn (snd p) (fst p)))
                  (combine labels lengths))) in
    let loss := (total / INR (vlen ce))%R in
    let loss_per_step := (total / num_steps)%R in
    (0 < vlen ce ->
     lookup "loss" vars = Some loss /\
     lookup "metrics/perplexity" vars = Some (exp loss)) /\
    (num_steps <> 0%R ->
     lookup "metrics/loss_per_step" vars = Some loss_per_step /\
     lookup "metrics/perplexity_per_step" vars = Some (exp loss_per_step)).
Proof.
  intros H.
  apply build_graph_train_outputs in H
    as (inputs & labels & lengths & past_targets & st & outputs_last & ce
        & Hbatch & Hloop & Hout & Hce & Heq).
  injection Heq as Hvars _.
  exists inputs, labels, lengths, past_targets, st, outputs_last, ce.
  split; [exact Hbatch|]. split; [exact Hloop|]. split; [exact Hout|].
  split; [exact Hce|].
  cbv zeta. rewrite <- batch_labels_to_num_steps_sum.
  rewrite Hvars.
  split; intros _; split; reflexivity.
Qed.

(** C6.  The distribution a generate graph reports, at a fed temperature
    other than 0: the logits are the projected output of the layer stack,
    of shape [(batch * steps, classes)]; the reported softmax has shape
    [(batch, steps, classes)] and its entry [(b, s, c)] is the softmax
    over the classes of [logits / temperature] at position
    [b * steps + s]; at temperature 1 it is the plain softmax of the
    logits. *)
Theorem generate_graph_softmax_temperature
        (config : Config) (paths : option (list string)) (feeds : Feeds)
        (softmax : Tensor3) (targets past_targets : list Tensor3)
        (initial_state final_state : list StateTensor) :
  graph "generate"%string config paths feeds
  = Ok (GenerateOutputs softmax targets past_targets initial_state
                        final_state) ->
  feed_temperature feeds <> 0%R ->
  let batch_size := batch_size (hparams config) in
  let num_classes := num_classes (encoder_decoder config) in
  let temperature := feed_temperature feeds in
  exists inputs st outputs_last steps,
    tf_placeholder batch_size (input_size (encoder_decoder config))
                   (feed_inputs feeds)
    = Ok inputs /\
    loop (hparams config) None past_targets inputs
         (List.length (rnn_layer_sizes (hparams config)))
    = Ok st /\
    outputs st = Some outputs_last /\
    let logits_flat :=
      tf_linear linear_variables
                (flatten_maybe_padded_sequences outputs_last None)
                num_classes in
    shape2 logits_flat = (batch_size * steps, num_classes) /\
    shape3 softmax = (batch_size, steps, num_classes) /\
    (forall b s c,
        b < batch_size -> s < steps -> c < num_classes ->
        at3 softmax b s c
        = (exp (at2 logits_flat (b * steps + s) c / temperature)
           / rsum num_classes
                  (fun k => exp (at2 logits_flat (b * steps + s) k
                                 / temperature)))%R) /\
    (temperature = 1%R ->
     forall b s c,
       b < batch_size -> s < steps -> c < num_classes ->
       at3 softmax b s c = at2 (tf_softmax logits_flat) (b * steps + s) c).
Proof.
  intros H _ B C temperature.
  apply build_graph_generate_outputs in H
    as (inputs & past & st & outputs_last & softmax' & Hfeed & Hloop & Hout
        & Hsoft & Heq).
  injection Heq as Hs _ Hp _ _. subst softmax' past.
  exists inputs, st, outputs_last.
  set (logits_flat :=
         tf_linear linear_variables
                   (flatten_maybe_padded_sequences outputs_last None) C)
    in *.
  destruct (@generate_softmax_inv logits_flat temperature B C softmax
              eq_refl Hsoft) as (HB & HC & steps & Hrows).
  destruct (@generate_softmax_reshaped logits_flat temperature B steps C
              HB HC Hrows eq_refl)
    as (softmax' & Hsoft' & Hshape & Hentries & Hone).
  assert (Ok softmax = Ok softmax') as Hsame
      by (rewrite <- Hsoft; exact Hsoft').
  injection Hsame as <-.
  exists steps.
  split; [exact Hfeed|]. split; [exact Hloop|]. split; [exact Hout|].
  split; [unfold shape2; rewrite Hrows; reflexivity|].
  split; [exact Hshape|]. split; [exact Hentries | exact Hone].
Qed.

End GraphReports.

Lemma train_graph_loss_and_perplexity_witness :
  exists vars images inputs labels lengths,
    sample_build_graph "train" sample_config None sample_feeds
    = Ok (TrainOutputs unit vars images) /\
    sample_get_padded_batch None 2 3 true = Ok (inputs, labels, lengths).
Proof.
  destruct sample_graphs_build as [(vars & images & Hrun) _].
  destruct (@train_graph_loss_and_perplexity
              (list nat) unit unit sample_base_cell sample_MultiRNNCell
              sample_zero_state sample_dynamic_rnn sample_nest_flatten
              (fun _ => sample_conv) (fun _ => sample_conv_1) sample_linear
              sample_get_padded_batch sample_flatten sample_flatten_labels
              sample_metrics_mean sample_metrics_accuracy
              sample_metrics_per_class sample_metrics_recall
              sample_config None sample_feeds vars images Hrun)
    as (inputs & labels & lengths & _ & _ & _ & _ & Hbatch & _).
  exists vars, images, inputs, labels, lengths.
  split; [exact Hrun | exact Hbatch].
Defined.

Lemma generate_graph_softmax_temperature_witness :
  feed_temperature sample_feeds <> 0%R /\
  exists softmax targets past_targets initial_state final_state steps,
    sample_build_graph "generate" sample_config None sample_feeds
    = Ok (GenerateOutputs softmax targets past_targets initial_state
                          final_state) /\
    shape3 softmax = (2, steps, 2).
Proof.
  assert (feed_temperature sample_feeds <> 0%R) as Htemp
      by (simpl; lra).
  split; [exact Htemp|].
  destruct sample_graphs_build
    as (_ & _ & softmax & targets & past & initial & final & Hrun).
  destruct (@generate_graph_softmax_temperature
              (list nat) unit unit sample_base_cell sample_MultiRNNCell
              sample_zero_state sample_dynamic_rnn sample_nest_flatten
              (fun _ => sample_conv) (fun _ => sample_conv_1) sample_linear
              sample_get_padded_batch sample_flatten sample_flatten_labels
              sample_metrics_mean sample_metrics_accuracy
              sample_metrics_per_class sample_metrics_recall
              sample_config None sample_feeds softmax targets past initial
              final Hrun Htemp)
    as (_ & _ & _ & steps & _ & _ & _ & _ & Hshape & _).
  exists softmax, targets, past, initial, final, steps.
  split; [exact Hrun | exact Hshape].
Defined.

(** * Further properties of the module *)

(** ** More on sums *)

Lemma rsum_nonneg (n : nat) (f : nat -> R) :
  (forall k, k < n -> (0 <= f k)%R) -> (0 <= rsum n f)%R.
Proof.
  induction n as [|n IH]; intros H; simpl.
  - lra.
  - assert (0 <= rsum n f)%R by (apply IH; intros k Hk; apply H; lia).
    assert (0 <= f n)%R by (apply H; lia). lra.
Qed.

Lemma rsum_le (n : nat) (f g : nat -> R) :
  (forall k, k < n -> (f k <= g k)%R) -> (rsum n f <= rsum n g)%R.
Proof.
  induction n as [|n IH]; intros H; simpl.
  - lra.
  - assert (rsum n f <= rsum n g)%R by (apply IH; intros k Hk; apply H; lia).
    assert (f n <= g n)%R by (apply H; lia). lra.
Qed.

Lemma rsum_term_le (n : nat) (f : nat -> R) (j : nat) :
  (forall k, k < n -> (0 <= f k)%R) -> j < n -> (f j <= rsum n f)%R.
Proof.
  induction n as [|n IH]; intros H Hj.
  - lia.
  - simpl.
    assert (0 <= rsum n f)%R
      by (apply rsum_nonneg; intros k Hk; apply H; lia).
    destruct (Nat.eq_dec j n) as [->|Hne].
    + lra.
    + assert (f j <= rsum n f)%R
        by (apply IH; [intros k Hk; apply H; lia | lia]).
      assert (0 <= f n)%R by (apply H; lia). lra.
Qed.

(** A sum whose terms vanish from index [w] on stops at [w]. *)
Lemma rsum_masked (n w : nat) (g : nat -> R) :
  w <= n ->
  rsum n (fun j => if j <? w then g j else 0%R) = rsum w g.
Proof.
  induction n as [|n IH]; intros Hw.
  - assert (w = 0) as -> by lia. reflexivity.
  - destruct (Nat.eq_dec w (S n)) as [->|Hne].
    + apply rsum_ext. intros k Hk.
      apply Nat.ltb_lt in Hk. rewrite Hk. reflexivity.
    + simpl. rewrite IH by lia.
      assert ((n <? w) = false) as -> by (apply Nat.ltb_ge; lia). lra.
Qed.

(** ** Attention rows as distributions *)

Lemma prefix_softmax_le_one (scores : nat -> R) (w j : nat) :
  j < w -> (prefix_softmax scores w j <= 1)%R.
Proof.
  intros Hj. unfold prefix_softmax.
  assert (0 < rsum w (fun k => exp (scores k)))%R as Hpos
      by (apply rsum_exp_pos; lia).
  assert (exp (scores j) <= rsum w (fun k => exp (scores k)))%R as Hle.
  { apply (rsum_term_le (fun k => exp (scores k))); [|exact Hj].
    intros k _. left. apply exp_pos. }
  replace 1%R with (rsum w (fun k => exp (scores k))
                    / rsum w (fun k => exp (scores k)))%R
    by (field; lra).
  unfold Rdiv. apply Rmult_le_compat_r; [|exact Hle].
  left. apply Rinv_0_lt_compat. exact Hpos.
Qed.

Lemma prefix_softmax_ext (scores scores' : nat -> R) (w j : nat) :
  (forall k, k < w -> scores k = scores' k) ->
  j < w ->
  prefix_softmax scores w j = prefix_softmax scores' w j.
Proof.
  intros H Hj. unfold prefix_softmax.
  rewrite (H j Hj). f_equal.
  apply rsum_ext. intros k Hk. rewrite (H k Hk). reflexivity.
Qed.

Lemma window_le (ss : Tensor3) (i : nat) : window ss i <= dim2 ss.
Proof. apply norm_index_le. Qed.

Lemma window_same_shape (ss ss' : Tensor3) (i : nat) :
  shape3 ss = shape3 ss' -> window ss i = window ss' i.
Proof.
  unfold shape3. intros H. injection H as _ H1 H2.
  unfold window. rewrite !attention_steps_at, H1, H2. reflexivity.
Qed.

(** The weighted sum of a row of attention only runs over its window. *)
Lemma attention_weighted_sum (ss : Tensor3) (b i : nat) (x : nat -> R) :
  rsum (dim2 ss) (fun j => (at3 (masked_attention ss) b i j * x j)%R)
  = rsum (window ss i)
         (fun j => (prefix_softmax (at3 ss b i) (window ss i) j * x j)%R).
Proof.
  rewrite <- (rsum_masked
                (fun j => (prefix_softmax (at3 ss b i) (window ss i) j
                           * x j)%R) (window_le ss i)).
  apply rsum_ext. intros j _. rewrite masked_attention_at.
  destruct (j <? window ss i); lra.
Qed.

(** The entries of a successful attention call. *)
Lemma similarity_weighted_attention_entries
      (targets ss out : Tensor3) (b i d : nat) :
  similarity_weighted_attention targets ss = Ok out ->
  at3 out b i d
  = rsum (window ss i)
         (fun j => (prefix_softmax (at3 ss b i) (window ss i) j
                    * at3 targets b j d)%R).
Proof.
  intros H. apply similarity_weighted_attention_inv in H as [_ H].
  apply tf_matmul_inv in H as (_ & _ & Hshape & Hentries).
  rewrite Hentries.
  assert (dim2 (masked_attention ss) = dim2 ss) as ->
      by (pose proof (masked_attention_shape ss) as Hs;
          unfold shape3 in Hs; congruence).
  apply attention_weighted_sum.
Qed.

(** X1.  Every attention weight lies between 0 and 1 and is 0 outside the
    row's window, and a row sums to 1 over all target columns, or to 0
    when its window is empty. *)
Theorem attention_rows_are_distributions (ss : Tensor3) (b i : nat) :
  (forall j, (0 <= at3 (masked_attention ss) b i j <= 1)%R) /\
  (forall j, window ss i <= j -> at3 (masked_attention ss) b i j = 0%R) /\
  rsum (dim2 ss) (at3 (masked_attention ss) b i)
  = (if window ss i =? 0 then 0 else 1)%R.
Proof.
  split; [|split].
  - intros j. rewrite masked_attention_at.
    destruct (j <? window ss i) eqn:E; [|lra].
    apply Nat.ltb_lt in E. split.
    + left. apply prefix_softmax_pos. lia.
    + apply prefix_softmax_le_one. exact E.
  - intros j Hj. rewrite masked_attention_at.
    assert ((j <? window ss i) = false) as -> by (apply Nat.ltb_ge; lia).
    reflexivity.
  - rewrite (@rsum_ext (dim2 ss) (at3 (masked_attention ss) b i)
                      (fun j => if j <? window ss i
                                then prefix_softmax (at3 ss b i)
                                                    (window ss i) j
                                else 0%R))
      by (intros k _; apply masked_attention_at).
    rewrite rsum_masked by apply window_le.
    destruct (window ss i =? 0) eqn:E.
    + apply Nat.eqb_eq in E. rewrite E. reflexivity.
    + apply Nat.eqb_neq in E. apply prefix_softmax_sums_to_one. lia.
Qed.

Lemma attention_rows_are_distributions_witness :
  at3 (masked_attention sample_similarity_2x3) 0 0 2 = 0%R /\
  rsum 3 (at3 (masked_attention sample_similarity_2x3) 0 1) = 1%R.
Proof.
  destruct (attention_rows_are_distributions sample_similarity_2x3 0 0)
    as (_ & Hzero & _).
  destruct (attention_rows_are_distributions sample_similarity_2x3 0 1)
    as (_ & _ & Hsum).
  split.
  - apply Hzero. vm_compute. lia.
  - exact Hsum.
Defined.

(** X2.  An entry of the attention output is a convex combination of the
    target entries inside the row's window: whenever those lie between
    [lo] and [hi], so does the output entry. *)
Theorem attention_output_within_target_bounds
        (targets ss out : Tensor3) (b i d : nat) (lo hi : R) :
  similarity_weighted_attention targets ss = Ok out ->
  0 < window ss i ->
  (forall j, j < window ss i -> (lo <= at3 targets b j d <= hi)%R) ->
  (lo <= at3 out b i d <= hi)%R.
Proof.
  intros Hrun Hw Hbounds.
  rewrite (similarity_weighted_attention_entries _ _ b i d Hrun).
  pose proof (prefix_softmax_sums_to_one (at3 ss b i) Hw) as Hone.
  set (p := prefix_softmax (at3 ss b i) (window ss i)) in *.
  assert (forall j, (0 <= p j)%R) as Hp
      by (intros j; left; apply prefix_softmax_pos; exact Hw).
  split.
  - replace lo with (rsum (window ss i) (fun j => p j * lo))%R
      by (rewrite rsum_scale_r, Hone; lra).
    apply rsum_le. intros j Hj.
    apply Rmult_le_compat_l; [apply Hp | apply Hbounds; exact Hj].
  - replace hi with (rsum (window ss i) (fun j => p j * hi))%R
      by (rewrite rsum_scale_r, Hone; lra).
    apply rsum_le. intros j Hj.
    apply Rmult_le_compat_l; [apply Hp | apply Hbounds; exact Hj].
Qed.

Lemma attention_output_within_target_bounds_witness :
  exists out,
    similarity_weighted_attention sample_targets_3x2 sample_similarity_2x3
    = Ok out /\
    (0 <= at3 out 0 1 0 <= 20)%R.
Proof.
  eexists. split; [reflexivity|].
  apply (@attention_output_within_target_bounds
           sample_targets_3x2 sample_similarity_2x3 _ 0 1 0 0%R 20%R
           eq_refl).
  - vm_compute. lia.
  - intros j Hj.
    assert (j < 3) as Hj3 by (vm_compute in Hj; lia).
    destruct j as [|[|[|j]]]; [| | |lia]; cbn [at3 sample_targets_3x2];
      simpl; lra.
Defined.

(** Rows of attention agree when the scores agree inside the window. *)
Lemma masked_attention_row_ext (ss ss' : Tensor3) (b i : nat) :
  shape3 ss = shape3 ss' ->
  (forall j, j < window ss i -> at3 ss b i j = at3 ss' b i j) ->
  forall j, at3 (masked_attention ss) b i j
            = at3 (masked_attention ss') b i j.
Proof.
  intros Hshape Hagree j.
  rewrite !masked_attention_at, <- (window_same_shape i Hshape).
  destruct (j <? window ss i) eqn:E; [|reflexivity].
  apply Nat.ltb_lt in E.
  apply prefix_softmax_ext; assumption.
Qed.

(** X3.  The mask prevents attending to the future: row [i] of the output
    is determined by the scores and the targets inside the row's window.
    Two calls on similarity matrices of one shape that agree, on row [i],
    in the scores and in the targets of the columns below the window bound
    return the same row [i], whatever the other columns hold. *)
Theorem attention_ignores_masked_columns
        (targets targets' ss ss' out out' : Tensor3) (b i : nat) :
  shape3 ss = shape3 ss' ->
  similarity_weighted_attention targets ss = Ok out ->
  similarity_weighted_attention targets' ss' = Ok out' ->
  (forall j, j < window ss i -> at3 ss b i j = at3 ss' b i j) ->
  (forall j d, j < window ss i -> at3 targets b j d = at3 targets' b j d) ->
  forall d, at3 out b i d = at3 out' b i d.
Proof.
  intros Hshape Hrun Hrun' Hscores Htargets d.
  rewrite (similarity_weighted_attention_entries _ _ b i d Hrun).
  rewrite (similarity_weighted_attention_entries _ _ b i d Hrun').
  rewrite <- (window_same_shape i Hshape).
  apply rsum_ext. intros j Hj.
  rewrite (prefix_softmax_ext (at3 ss b i) (at3 ss' b i) Hscores Hj).
  rewrite (Htargets j d Hj). reflexivity.
Qed.

Lemma attention_ignores_masked_columns_witness :
  exists out out',
    similarity_weighted_attention sample_targets_3x2 sample_similarity_2x3
    = Ok out /\
    similarity_weighted_attention sample_targets_3x2_future
                                  sample_similarity_2x3_future
    = Ok out' /\
    forall d, at3 out 0 0 d = at3 out' 0 0 d.
Proof.
  eexists. eexists. split; [reflexivity|]. split; [reflexivity|].
  apply (@attention_ignores_masked_columns
           sample_targets_3x2 sample_targets_3x2_future
           sample_similarity_2x3 sample_similarity_2x3_future _ _ 0 0
           eq_refl eq_refl eq_refl).
  - intros j Hj. assert (j < 2) as Hj2 by (vm_compute in Hj; lia).
    destruct j as [|[|j]]; [reflexivity | reflexivity | lia].
  - intros j d Hj. assert (j < 2) as Hj2 by (vm_compute in Hj; lia).
    destruct j as [|[|j]]; [reflexivity | reflexivity | lia].
Defined.

(** X4.  Adding a constant to all the scores of a row (a constant that may
    depend on the batch element and on the row) changes neither the
    attention weights nor the output. *)
Theorem attention_invariant_under_row_shift
        (targets ss ss' out out' : Tensor3) (shift : nat -> nat -> R) :
  shape3 ss = shape3 ss' ->
  (forall b i j, at3 ss' b i j = (at3 ss b i j + shift b i)%R) ->
  similarity_weighted_attention targets ss = Ok out ->
  similarity_weighted_attention targets ss' = Ok out' ->
  forall b i,
    (forall j, at3 (masked_attention ss') b i j
               = at3 (masked_attention ss) b i j) /\
    (forall d, at3 out' b i d = at3 out b i d).
Proof.
  intros Hshape Hshift Hrun Hrun' b i.
  assert (forall j, j < window ss i ->
                    prefix_softmax (at3 ss' b i) (window ss i) j
                    = prefix_softmax (at3 ss b i) (window ss i) j) as Hsoft.
  { intros j Hj. unfold prefix_softmax.
    assert (0 < rsum (window ss i) (fun k => exp (at3 ss b i k)))%R as Hpos
        by (apply rsum_exp_pos; lia).
    rewrite (@rsum_ext (window ss i)
                       (fun k => exp (at3 ss' b i k))
                       (fun k => (exp (at3 ss b i k) * exp (shift b i))%R))
      by (intros k _; rewrite Hshift; apply exp_plus).
    rewrite rsum_scale_r, Hshift, exp_plus.
    pose proof (exp_pos (shift b i)). field. split; lra. }
  split.
  - intros j. rewrite !masked_attention_at.
    rewrite <- (window_same_shape i Hshape).
    destruct (j <? window ss i) eqn:E; [|reflexivity].
    apply Nat.ltb_lt in E. apply Hsoft. exact E.
  - intros d.
    rewrite (similarity_weighted_attention_entries _ _ b i d Hrun).
    rewrite (similarity_weighted_attention_entries _ _ b i d Hrun').
    rewrite <- (window_same_shape i Hshape).
    apply rsum_ext. intros j Hj. rewrite (Hsoft j Hj). reflexivity.
Qed.

Lemma attention_invariant_under_row_shift_witness :
  exists out out',
    similarity_weighted_attention sample_targets_3x2 sample_similarity_2x3
    = Ok out /\
    similarity_weighted_attention sample_targets_3x2
                                  sample_similarity_2x3_shifted
    = Ok out' /\
    forall d, at3 out' 0 1 d = at3 out 0 1 d.
Proof.
  eexists. eexists. split; [reflexivity|]. split; [reflexivity|].
  apply (@attention_invariant_under_row_shift
           sample_targets_3x2 sample_similarity_2x3
           sample_similarity_2x3_shifted _ _ (fun _ _ => 5%R)
           eq_refl (fun _ _ _ => eq_refl) eq_refl eq_refl 0 1).
Defined.



(** X6.  The attention unit returns exactly when the similarity matrix
    has a row and [targets] has its batch size and its number of target
    steps: it then returns a tensor of shape [(B, Ti, D)]; on a similarity
    matrix without a row, and on any other [targets], it raises. *)
Theorem similarity_weighted_attention_fails_on_mismatch
        (targets ss : Tensor3) :
  (0 < dim1 ss /\ dim0 targets = dim0 ss /\ dim1 targets = dim2 ss ->
   exists out,
     similarity_weighted_attention targets ss = Ok out /\
     shape3 out = (dim0 ss, dim1 ss, dim2 targets)) /\
  (dim1 ss = 0 \/ dim0 targets <> dim0 ss \/ dim1 targets <> dim2 ss ->
   exists e, similarity_weighted_attention targets ss = Raise e).
Proof.
  assert (dim2 (masked_attention ss) = dim2 ss) as Hd2
      by (pose proof (masked_attention_shape ss) as Hs;
          unfold shape3 in Hs; congruence).
  split.
  - intros (Hrow & H0 & H1). eexists.
    split; [apply similarity_weighted_attention_ok; assumption|].
    reflexivity.
  - intros H. rewrite similarity_weighted_attention_unfold.
    destruct (dim1 ss =? 0) eqn:E; [eexists; reflexivity|].
    apply Nat.eqb_neq in E.
    unfold tf_matmul.
    rewrite Hd2. change (dim0 (masked_attention ss)) with (dim0 ss).
    destruct (dim0 ss =? dim0 targets) eqn:E0; cbn [negb].
    + destruct (dim2 ss =? dim1 targets) eqn:E1; cbn [negb].
      * apply Nat.eqb_eq in E0, E1. lia.
      * eexists. reflexivity.
    + eexists. reflexivity.
Qed.

Lemma similarity_weighted_attention_fails_on_mismatch_witness :
  (exists out,
      similarity_weighted_attention sample_targets_3x2 sample_similarity_2x3
      = Ok out /\
      shape3 out = (1, 2, 2)) /\
  (exists e,
      similarity_weighted_attention sample_targets_2x2 sample_similarity_2x3
      = Raise e).
Proof.
  split.
  - apply (similarity_weighted_attention_fails_on_mismatch
             sample_targets_3x2 sample_similarity_2x3).
    simpl. repeat split; lia.
  - apply (similarity_weighted_attention_fails_on_mismatch
             sample_targets_2x2 sample_similarity_2x3).
    right. right. simpl. lia.
Defined.

(** ** The embedding projector *)

Lemma relu_nonneg (x : R) : (0 <= relu x)%R.
Proof. unfold relu. apply Rmax_l. Qed.

Lemma input_embeddings_entries
      (vars : ConvVariables) (inputs : Tensor3)
      (input_size embedding_size : nat) (embeddings : Tensor3) :
  input_embeddings vars inputs input_size embedding_size = Ok embeddings ->
  forall b t e,
    at3 embeddings b t e = embedding_at vars inputs input_size b t e.
Proof.
  unfold input_embeddings.
  destruct (dim1 inputs =? 0); [discriminate|].
  destruct (negb (dim2 inputs =? input_size)); [discriminate|].
  intros H. injection H as <-. reflexivity.
Qed.

(** X7.  [input_embeddings] accepts the inputs of at least one step
    whose last dimension is [input_size]: it then keeps the batch and time
    dimensions, sets the last one to [embedding_size] and returns entries
    that are never negative; an input with another last dimension makes it
    raise. *)
Theorem input_embeddings_shape_contract
        (vars : ConvVariables) (inputs : Tensor3)
        (input_size embedding_size : nat) :
  (0 < dim1 inputs /\ dim2 inputs = input_size ->
   exists embeddings,
     input_embeddings vars inputs input_size embedding_size
     = Ok embeddings /\
     shape3 embeddings = (dim0 inputs, dim1 inputs, embedding_size) /\
     forall b t e, (0 <= at3 embeddings b t e)%R) /\
  (dim2 inputs <> input_size ->
   exists e,
     input_embeddings vars inputs input_size embedding_size = Raise e).
Proof.
  split; intros H; unfold input_embeddings.
  - destruct H as [Hstep H].
    replace (dim1 inputs =? 0) with false
      by (symmetry; apply Nat.eqb_neq; lia).
    rewrite H, Nat.eqb_refl. cbn [negb]. eexists.
    split; [reflexivity|]. split; [reflexivity|].
    intros b t e. cbn [at3]. apply relu_nonneg.
  - destruct (dim1 inputs =? 0); [eexists; reflexivity|].
    apply Nat.eqb_neq in H. rewrite H. cbn [negb]. eexists. reflexivity.
Qed.

Lemma input_embeddings_shape_contract_witness :
  (exists embeddings,
      input_embeddings sample_conv sample_inputs_2x3x4 4 2 = Ok embeddings /\
      shape3 embeddings = (2, 3, 2)) /\
  (exists e,
      input_embeddings sample_conv sample_inputs_2x3x4 3 2 = Raise e).
Proof.
  destruct (input_embeddings_shape_contract sample_conv sample_inputs_2x3x4
                                            4 2) as [Hok _].
  destruct (input_embeddings_shape_contract sample_conv sample_inputs_2x3x4
                                            3 2) as [_ Hfail].
  split.
  - destruct Hok as (e & Hrun & Hshape & _).
    + simpl. split; [lia | reflexivity].
    + exists e. split; [exact Hrun | exact Hshape].
  - apply Hfail. simpl. lia.
Defined.

(** X8.  The embedding of a step depends on that step alone, and the same
    transform is applied at every step of every sequence: two steps (of
    one batch or of two) holding the same input vector get the same
    embedding. *)
Theorem input_embeddings_are_per_step
        (vars : ConvVariables) (inputs inputs' : Tensor3)
        (input_size embedding_size : nat) (embeddings embeddings' : Tensor3)
        (b t b' t' : nat) :
  input_embeddings vars inputs input_size embedding_size = Ok embeddings ->
  input_embeddings vars inputs' input_size embedding_size
  = Ok embeddings' ->
  (forall k, k < input_size -> at3 inputs b t k = at3 inputs' b' t' k) ->
  forall e, at3 embeddings b t e = at3 embeddings' b' t' e.
Proof.
  intros Hrun Hrun' Hsame e.
  rewrite (input_embeddings_entries _ _ _ _ Hrun).
  rewrite (input_embeddings_entries _ _ _ _ Hrun').
  unfold embedding_at. do 2 f_equal.
  apply rsum_ext. intros k Hk. rewrite (Hsame k Hk). reflexivity.
Qed.

Lemma input_embeddings_are_per_step_witness :
  exists embeddings,
    input_embeddings sample_conv sample_inputs_2x3x4 4 2 = Ok embeddings /\
    forall e, at3 embeddings 0 1 e = at3 embeddings 1 0 e.
Proof.
  eexists. split; [reflexivity|].
  apply (@input_embeddings_are_per_step
           sample_conv sample_inputs_2x3x4 sample_inputs_2x3x4 4 2 _ _
           0 1 1 0 eq_refl eq_refl).
  intros k _. reflexivity.
Defined.

(** ** The self-similarity layer, continued *)

(** The similarity scores and the attention call of a successful run. *)
Lemma self_similarity_attention_entries
      (conv conv_1 : ConvVariables) (inputs past_inputs : Tensor3)
      (batch_size input_size embedding_size : nat)
      (attention_outputs self_similarity : Tensor3) :
  self_similarity_attention conv conv_1 inputs past_inputs batch_size
                            input_size embedding_size
  = Ok (attention_outputs, self_similarity) ->
  exists targets_all,
    tf_concat_axis1 past_inputs inputs = Ok targets_all /\
    (forall b i j,
        at3 self_similarity b i j
        = rsum embedding_size
               (fun e =>
                  (embedding_at conv inputs input_size b i e
                   * embedding_at conv_1 targets_all input_size b j e)%R)) /\
    similarity_weighted_attention (slice_axis1_from targets_all 1)
                                  self_similarity
    = Ok attention_outputs.
Proof.
  unfold self_similarity_attention. intros H.
  apply bind_ok in H as (emb & Hemb & H).
  apply bind_ok in H as (tgt & Htgt & H).
  apply bind_ok in H as (temb & Htemb & H).
  apply bind_ok in H as (ss & Hss & H).
  apply bind_ok in H as (att & Hatt & H).
  injection H as <- <-.
  exists tgt. split; [exact Htgt|]. split; [|exact Hatt].
  intros b i j.
  pose proof (input_embeddings_inv _ _ _ _ Hemb) as [_ Hshape].
  pose proof (input_embeddings_entries _ _ _ _ Hemb) as Hemb_at.
  pose proof (input_embeddings_entries _ _ _ _ Htemb) as Htemb_at.
  unfold tf_matmul_transpose_b in Hss.
  destruct (negb (dim0 emb =? dim0 temb)); [discriminate|].
  destruct (negb (dim2 emb =? dim2 temb)); [discriminate|].
  injection Hss as <-. cbn [at3].
  assert (dim2 emb = embedding_size) as ->
      by (unfold shape3 in Hshape; congruence).
  apply rsum_ext. intros e _. rewrite Hemb_at, Htemb_at. reflexivity.
Qed.

Lemma tf_concat_axis1_entries (a b c : Tensor3) :
  tf_concat_axis1 a b = Ok c ->
  forall n t d,
    at3 c n t d = if t <? dim1 a then at3 a n t d else at3 b n (t - dim1 a) d.
Proof.
  unfold tf_concat_axis1.
  destruct (negb ((dim0 a =? dim0 b) && (dim2 a =? dim2 b)));
    [discriminate|].
  intros H. injection H as <-. reflexivity.
Qed.

(** In a successful run row [i] looks at [Tp + i] targets. *)
Lemma self_similarity_attention_window
      (conv conv_1 : ConvVariables) (inputs past_inputs : Tensor3)
      (batch_size input_size embedding_size : nat)
      (attention_outputs self_similarity : Tensor3) (i : nat) :
  self_similarity_attention conv conv_1 inputs past_inputs batch_size
                            input_size embedding_size
  = Ok (attention_outputs, self_similarity) ->
  i < dim1 inputs ->
  window self_similarity i = dim1 past_inputs + i.
Proof.
  intros Hrun Hi.
  pose proof (self_similarity_attention_inv _ _ _ _ _ _ _ Hrun)
    as (_ & _ & _ & _ & Hss).
  unfold shape3 in Hss. injection Hss as _ H1 H2.
  unfold window. rewrite attention_steps_at, H1, H2.
  rewrite norm_index_pos by lia. lia.
Qed.

(** The layer runs on matching shapes, given a step to embed on each
    side. *)
Lemma self_similarity_attention_ok
      (conv conv_1 : ConvVariables) (inputs past_inputs : Tensor3)
      (batch_size embedding_size : nat) :
  0 < dim1 inputs ->
  2 <= dim1 past_inputs + dim1 inputs ->
  dim0 past_inputs = dim0 inputs ->
  dim2 past_inputs = dim2 inputs ->
  exists attention_outputs self_similarity,
    self_similarity_attention conv conv_1 inputs past_inputs batch_size
                              (dim2 inputs) embedding_size
    = Ok (attention_outputs, self_similarity).
Proof.
  intros HT HTt H0 H2. unfold self_similarity_attention.
  rewrite (input_embeddings_ok conv inputs embedding_size HT).
  cbn [bind].
  unfold tf_concat_axis1. rewrite H0, H2, !Nat.eqb_refl. cbn [andb negb bind].
  unfold input_embeddings. cbn [dim1 dim2 slice_axis1_to].
  rewrite norm_index_minus_one.
  replace (dim1 past_inputs + dim1 inputs - 1 =? 0) with false
    by (symmetry; apply Nat.eqb_neq; lia).
  rewrite Nat.eqb_refl. cbn [negb bind].
  unfold tf_matmul_transpose_b. cbn [dim0 dim1 dim2 slice_axis1_to].
  rewrite !Nat.eqb_refl. cbn [negb bind].
  rewrite similarity_weighted_attention_ok.
  - cbn [bind]. eexists. eexists. reflexivity.
  - cbn [dim1]. exact HT.
  - cbn [dim0 slice_axis1_from]. reflexivity.
  - cbn [dim1 dim2 slice_axis1_from].
    rewrite norm_index_one. lia.
Qed.

(** X9.  The layer returns on inputs of at least one step and of feature
    size [input_size], with past inputs of the same batch and feature
    sizes (of any number of steps, zero included, that leaves the targets
    a step once the last one is dropped): it returns an attention output
    of the shape of [inputs] and a similarity matrix of shape
    [(B, T, Tp + T - 1)].  It raises on inputs without a step, on another
    feature size, and on past inputs of another batch or feature size. *)
Theorem self_similarity_attention_fails_on_mismatch
        (conv conv_1 : ConvVariables) (inputs past_inputs : Tensor3)
        (batch_size input_size embedding_size : nat) :
  (0 < dim1 inputs /\ 2 <= dim1 past_inputs + dim1 inputs
   /\ dim2 inputs = input_size /\ dim0 past_inputs = dim0 inputs
   /\ dim2 past_inputs = dim2 inputs ->
   exists attention_outputs self_similarity,
     self_similarity_attention conv conv_1 inputs past_inputs batch_size
                               input_size embedding_size
     = Ok (attention_outputs, self_similarity) /\
     shape3 attention_outputs = shape3 inputs /\
     shape3 self_similarity
     = (dim0 inputs, dim1 inputs, dim1 past_inputs + dim1 inputs - 1)) /\
  (dim1 inputs = 0 \/ dim2 inputs <> input_size
   \/ dim0 past_inputs <> dim0 inputs \/ dim2 past_inputs <> dim2 inputs ->
   exists e,
     self_similarity_attention conv conv_1 inputs past_inputs batch_size
                               input_size embedding_size
     = Raise e).
Proof.
  split.
  - intros (HT & HTt & <- & H0 & H2).
    destruct (self_similarity_attention_ok conv conv_1 inputs past_inputs
                                           batch_size embedding_size
                                           HT HTt H0 H2)
      as (att & ss & Hrun).
    exists att, ss. split; [exact Hrun|].
    apply self_similarity_attention_inv in Hrun
      as (_ & _ & _ & Hatt & Hss).
    split; assumption.
  - intros H. unfold self_similarity_attention.
    unfold input_embeddings at 1.
    destruct (dim1 inputs =? 0) eqn:Es; cbn [bind];
      [eexists; reflexivity|].
    apply Nat.eqb_neq in Es.
    destruct (dim2 inputs =? input_size) eqn:E; cbn [negb bind].
    + apply Nat.eqb_eq in E. unfold tf_concat_axis1.
      destruct ((dim0 past_inputs =? dim0 inputs)
                && (dim2 past_inputs =? dim2 inputs)) eqn:E';
        cbn [negb bind].
      * apply andb_true_iff in E' as [E0 E2].
        apply Nat.eqb_eq in E0, E2. lia.
      * eexists. reflexivity.
    + eexists. reflexivity.
Qed.

Lemma self_similarity_attention_fails_on_mismatch_witness :
  (exists attention_outputs self_similarity,
      self_similarity_attention sample_conv sample_conv_1
                                sample_inputs_2x3x4 sample_past_2x1x4 2 4 2
      = Ok (attention_outputs, self_similarity) /\
      shape3 self_similarity = (2, 3, 3)) /\
  (exists e,
      self_similarity_attention sample_conv sample_conv_1
                                sample_inputs_2x3x4 sample_targets_2x2 2 4 2
      = Raise e).
Proof.
  split.
  - destruct (self_similarity_attention_fails_on_mismatch
                sample_conv sample_conv_1 sample_inputs_2x3x4
                sample_past_2x1x4 2 4 2) as [Hok _].
    destruct Hok as (att & ss & Hrun & _ & Hss).
    + simpl. repeat split; lia.
    + exists att, ss. split; [exact Hrun | exact Hss].
  - apply (self_similarity_attention_fails_on_mismatch
             sample_conv sample_conv_1 sample_inputs_2x3x4
             sample_targets_2x2 2 4 2).
    right. right. left. simpl. lia.
Defined.

(** X10.  In the layer, row [i] attends over the first [Tp + i] targets
    and no other: its weights lie between 0 and 1, are 0 from column
    [Tp + i] on, and sum to 1 over the first [Tp + i] columns as soon as
    there is a past step or [i > 0]. *)
Theorem self_similarity_attention_rows
        (conv conv_1 : ConvVariables) (inputs past_inputs : Tensor3)
        (batch_size input_size embedding_size : nat)
        (attention_outputs self_similarity : Tensor3) (b i : nat) :
  self_similarity_attention conv conv_1 inputs past_inputs batch_size
                            input_size embedding_size
  = Ok (attention_outputs, self_similarity) ->
  i < dim1 inputs ->
  let weights := at3 (masked_attention self_similarity) b i in
  (forall j, (0 <= weights j <= 1)%R) /\
  (forall j, dim1 past_inputs + i <= j -> weights j = 0%R) /\
  (0 < dim1 past_inputs + i ->
   rsum (dim1 past_inputs + i) weights = 1%R).
Proof.
  intros Hrun Hi weights.
  pose proof (self_similarity_attention_window _ _ _ _ _ _ _ Hrun Hi) as Hw.
  unfold weights.
  split; [|split].
  - intros j. rewrite masked_attention_at, Hw.
    destruct (j <? dim1 past_inputs + i) eqn:E; [|lra].
    apply Nat.ltb_lt in E. split.
    + left. apply prefix_softmax_pos. lia.
    + apply prefix_softmax_le_one. exact E.
  - intros j Hj. rewrite masked_attention_at, Hw.
    assert ((j <? dim1 past_inputs + i) = false) as ->
        by (apply Nat.ltb_ge; lia).
    reflexivity.
  - intros Hpos.
    rewrite <- (prefix_softmax_sums_to_one (at3 self_similarity b i) Hpos).
    apply rsum_ext. intros j Hj. rewrite masked_attention_at, Hw.
    apply Nat.ltb_lt in Hj. rewrite Hj. reflexivity.
Qed.

Lemma self_similarity_attention_rows_witness :
  exists attention_outputs self_similarity,
    self_similarity_attention sample_conv sample_conv_1 sample_inputs_2x3x4
                              sample_past_2x1x4 2 4 2
    = Ok (attention_outputs, self_similarity) /\
    rsum 1 (at3 (masked_attention self_similarity) 0 0) = 1%R.
Proof.
  eexists. eexists. split; [reflexivity|].
  refine (proj2 (proj2 (@self_similarity_attention_rows
                          sample_conv sample_conv_1 sample_inputs_2x3x4
                          sample_past_2x1x4 2 4 2 _ _ 0 0 eq_refl _)) _).
  - simpl. lia.
  - simpl. lia.
Defined.

(** X11.  The similarity scores of the layer are never negative: they are
    inner products of rectified embeddings. *)
Theorem self_similarity_is_nonnegative
        (conv conv_1 : ConvVariables) (inputs past_inputs : Tensor3)
        (batch_size input_size embedding_size : nat)
        (attention_outputs self_similarity : Tensor3) :
  self_similarity_attention conv conv_1 inputs past_inputs batch_size
                            input_size embedding_size
  = Ok (attention_outputs, self_similarity) ->
  forall b i j, (0 <= at3 self_similarity b i j)%R.
Proof.
  intros Hrun b i j.
  apply self_similarity_attention_entries in Hrun
    as (tgt & _ & Hentries & _).
  rewrite Hentries. apply rsum_nonneg. intros e _.
  apply Rmult_le_pos; apply relu_nonneg.
Qed.

Lemma self_similarity_is_nonnegative_witness :
  exists attention_outputs self_similarity,
    self_similarity_attention sample_conv sample_conv_1 sample_inputs_2x3x4
                              sample_no_past_2x4 2 4 2
    = Ok (attention_outputs, self_similarity) /\
    (0 <= at3 self_similarity 1 2 1)%R.
Proof.
  eexists. eexists. split; [reflexivity|].
  apply (@self_similarity_is_nonnegative
           sample_conv sample_conv_1 sample_inputs_2x3x4 sample_no_past_2x4
           2 4 2 _ _ eq_refl).
Defined.

(** The concatenated targets up to position [Tp + i] only hold past inputs
    and the inputs of the steps up to [i]. *)
Lemma targets_agree_up_to
      (inputs inputs' past_inputs targets_all targets_all' : Tensor3)
      (i : nat) :
  tf_concat_axis1 past_inputs inputs = Ok targets_all ->
  tf_concat_axis1 past_inputs inputs' = Ok targets_all' ->
  (forall b t d, t <= i -> d < dim2 inputs ->
                 at3 inputs b t d = at3 inputs' b t d) ->
  forall b t d, t <= dim1 past_inputs + i -> d < dim2 inputs ->
                at3 targets_all b t d = at3 targets_all' b t d.
Proof.
  intros Hcat Hcat' Hagree b t d Ht Hd.
  rewrite (tf_concat_axis1_entries _ _ Hcat).
  rewrite (tf_concat_axis1_entries _ _ Hcat').
  destruct (t <? dim1 past_inputs); [reflexivity|].
  apply Hagree; lia.
Qed.

(** X12.  The layer is causal in its inputs: row [i] of the attention
    weights and of the attention output depends on the past inputs and on
    the input steps [0..i] only.  Two runs whose inputs have one shape and
    agree on the steps up to [i] return the same row [i]. *)
Theorem self_similarity_attention_is_causal
        (conv conv_1 : ConvVariables) (inputs inputs' past_inputs : Tensor3)
        (batch_size input_size embedding_size : nat)
        (attention_outputs self_similarity : Tensor3)
        (attention_outputs' self_similarity' : Tensor3) (i : nat) :
  shape3 inputs = shape3 inputs' ->
  self_similarity_attention conv conv_1 inputs past_inputs batch_size
                            input_size embedding_size
  = Ok (attention_outputs, self_similarity) ->
  self_similarity_attention conv conv_1 inputs' past_inputs batch_size
                            input_size embedding_size
  = Ok (attention_outputs', self_similarity') ->
  i < dim1 inputs ->
  (forall b t d, t <= i -> d < dim2 inputs ->
                 at3 inputs b t d = at3 inputs' b t d) ->
  forall b,
    (forall j, at3 (masked_attention self_similarity) b i j
               = at3 (masked_attention self_similarity') b i j) /\
    (forall d, d < dim2 inputs ->
               at3 attention_outputs b i d = at3 attention_outputs' b i d).
Proof.
  intros Hshape Hrun Hrun' Hi Hagree b.
  pose proof (self_similarity_attention_window _ _ _ _ _ _ _ Hrun Hi) as Hw.
  pose proof (self_similarity_attention_inv _ _ _ _ _ _ _ Hrun)
    as (Hsize & _ & _ & _ & Hss).
  pose proof (self_similarity_attention_inv _ _ _ _ _ _ _ Hrun')
    as (_ & _ & _ & _ & Hss').
  assert (shape3 self_similarity = shape3 self_similarity') as Hsame.
  { rewrite Hss, Hss'. unfold shape3 in Hshape.
    injection Hshape as -> -> _. reflexivity. }
  apply self_similarity_attention_entries in Hrun
    as (tgt & Hcat & Hscores & Hatt).
  apply self_similarity_attention_entries in Hrun'
    as (tgt' & Hcat' & Hscores' & Hatt').
  pose proof (@targets_agree_up_to _ _ _ _ _ i Hcat Hcat' Hagree) as Htargets.
  assert (forall j, j < window self_similarity i ->
                    at3 self_similarity b i j = at3 self_similarity' b i j)
    as Hrow.
  { intros j Hj. rewrite Hscores, Hscores'.
    apply rsum_ext. intros e _. unfold embedding_at. f_equal.
    - do 2 f_equal. apply rsum_ext. intros k Hk.
      rewrite (Hagree b i k) by lia. reflexivity.
    - do 2 f_equal. apply rsum_ext. intros k Hk.
      rewrite (Htargets b j k) by lia. reflexivity. }
  split.
  - apply masked_attention_row_ext; assumption.
  - intros d Hd.
    rewrite (similarity_weighted_attention_entries _ _ b i d Hatt).
    rewrite (similarity_weighted_attention_entries _ _ b i d Hatt').
    rewrite <- (window_same_shape i Hsame).
    apply rsum_ext. intros j Hj.
    rewrite (prefix_softmax_ext (at3 self_similarity b i)
                                (at3 self_similarity' b i) Hrow Hj).
    f_equal. cbn [at3 slice_axis1_from].
    apply tf_concat_axis1_inv in Hcat as (_ & _ & Hc).
    apply tf_concat_axis1_inv in Hcat' as (_ & _ & Hc').
    assert (dim1 tgt = dim1 tgt') as <-.
    { unfold shape3 in Hc, Hc', Hshape.
      injection Hshape as _ H1 _. congruence. }
    assert (norm_index 1 (dim1 tgt) = 1) as ->.
    { rewrite norm_index_one. unfold shape3 in Hc.
      injection Hc as _ H1 _. lia. }
    apply Htargets; lia.
Qed.

Lemma self_similarity_attention_is_causal_witness :
  exists attention_outputs self_similarity attention_outputs'
         self_similarity',
    self_similarity_attention sample_conv sample_conv_1 sample_inputs_2x3x4
                              sample_past_2x1x4 2 4 2
    = Ok (attention_outputs, self_similarity) /\
    self_similarity_attention sample_conv sample_conv_1
                              sample_inputs_2x3x4_future
                              sample_past_2x1x4 2 4 2
    = Ok (attention_outputs', self_similarity') /\
    forall d, d < 4 -> at3 attention_outputs 0 1 d
                       = at3 attention_outputs' 0 1 d.
Proof.
  do 4 eexists. split; [reflexivity|]. split; [reflexivity|].
  refine (proj2 (@self_similarity_attention_is_causal
                   sample_conv sample_conv_1 sample_inputs_2x3x4
                   sample_inputs_2x3x4_future sample_past_2x1x4 2 4 2
                   _ _ _ _ 1 eq_refl eq_refl eq_refl _ _ 0)).
  - simpl. lia.
  - intros b t d Ht _. cbn [at3 sample_inputs_2x3x4
                              sample_inputs_2x3x4_future].
    assert ((t <? 2) = true) as -> by (apply Nat.ltb_lt; lia).
    reflexivity.
Defined.

(** ** Python list access *)

Lemma py_index_ok {A : Type} (l : list A) (i : nat) (x : A) :
  py_index l i = Ok x <-> nth_error l i = Some x.
Proof.
  unfold py_index. destruct (nth_error l i); split; intros H;
    try discriminate; congruence.
Qed.

Lemma py_last_ok {A : Type} (l : list A) (x : A) :
  py_last l = Ok x -> l <> [] /\ forall d, last l d = x.
Proof.
  unfold py_last. destruct (rev l) as [|y r] eqn:E; [discriminate|].
  intros H. injection H as ->.
  assert (l = rev r ++ [x]) as ->
      by (rewrite <- (rev_involutive l), E; reflexivity).
  split.
  - intros Hnil. apply app_eq_nil in Hnil as [_ Hnil]. discriminate.
  - intros d. apply last_last.
Qed.

Lemma map_result_length {A B : Type} (f : A -> result B) (l : list A)
      (ys : list B) :
  map_result f l = Ok ys -> List.length ys = List.length l.
Proof.
  revert ys. induction l as [|x l IH]; intros ys H; cbn [map_result] in H.
  - injection H as <-. reflexivity.
  - apply bind_ok in H as (y & _ & H).
    apply bind_ok in H as (ys' & Hys' & H).
    injection H as <-. cbn [List.length]. rewrite (IH ys' Hys').
    reflexivity.
Qed.

Lemma map_result_nth {A B : Type} (f : A -> result B) (l : list A)
      (ys : list B) (n : nat) (x : A) :
  map_result f l = Ok ys ->
  nth_error l n = Some x ->
  exists y, f x = Ok y /\ nth_error ys n = Some y.
Proof.
  revert ys n. induction l as [|a l IH]; intros ys n H Hn;
    cbn [map_result] in H.
  - destruct n; discriminate.
  - apply bind_ok in H as (y & Hy & H).
    apply bind_ok in H as (ys' & Hys' & H).
    injection H as <-.
    destruct n as [|n]; cbn [nth_error] in *.
    + injection Hn as <-. exists y. split; [exact Hy | reflexivity].
    + apply (IH ys' n Hys' Hn).
Qed.

(** ** The layer loop and the assembled graph, continued *)

Section GraphExtras.

Variable RNNCell : Type.
Variable RNNState : Type.
Variable StateTensor : Type.
Variable base_cell : nat -> RNNCell.
Variable MultiRNNCell : list RNNCell -> result RNNCell.
Variable zero_state : RNNCell -> nat -> RNNState.
Variable dynamic_rnn :
  nat -> RNNCell -> Tensor3 -> option (list nat) -> RNNState ->
  result (Tensor3 * RNNState).
Variable tf_nest_flatten : RNNState -> list StateTensor.
Variable conv_variables : nat -> ConvVariables.
Variable conv_1_variables : nat -> ConvVariables.
Variable linear_variables : LinearVariables.
Variable get_padded_batch :
  option (list string) -> nat -> nat -> bool ->
  result (Tensor3 * list (list Z) * list nat).
Variable flatten_maybe_padded_sequences :
  Tensor3 -> option (list nat) -> Tensor2.
Variable flatten_maybe_padded_labels : list (list Z) -> list nat -> list Z.
Variable tf_metrics_mean : Vector -> option R -> R.
Variable tf_metrics_accuracy : list Z -> list Z -> R.
Variable tf_metrics_mean_per_class_accuracy : list Z -> list Z -> nat -> R.
Variable tf_metrics_recall : Vector -> Vector -> R.

Local Abbreviation graph :=
  (build_graph base_cell MultiRNNCell zero_state dynamic_rnn tf_nest_flatten
               conv_variables conv_1_variables linear_variables
               get_padded_batch flatten_maybe_padded_sequences
               flatten_maybe_padded_labels tf_metrics_mean
               tf_metrics_accuracy tf_metrics_mean_per_class_accuracy
               tf_metrics_recall).

Local Abbreviation body :=
  (layer_body base_cell MultiRNNCell zero_state dynamic_rnn conv_variables
              conv_1_variables).

Local Abbreviation loop :=
  (layers_loop base_cell MultiRNNCell zero_state dynamic_rnn conv_variables
               conv_1_variables).

(** What a successful iteration needs and what it leaves. *)
Lemma layer_body_shapes
      (hparams : HParams) (lengths : option (list nat))
      (past_targets : list Tensor3) (layer : nat)
      (st st' : LayerLoop RNNState) :
  body hparams lengths past_targets layer st = Ok st' ->
  exists sizes size embedding_size past rnn_outputs attention_outputs,
    nth_error (rnn_layer_sizes hparams) layer = Some sizes /\
    sizes <> [] /\ last sizes 0 = size /\
    nth_error (embedding_sizes hparams) layer = Some embedding_size /\
    nth_error past_targets layer = Some past /\
    targets st' = targets st ++ [rnn_outputs] /\
    dim2 rnn_outputs = size /\
    dim0 past = dim0 rnn_outputs /\ dim2 past = size /\
    shape3 attention_outputs = shape3 rnn_outputs /\
    tf_concat_axis2 rnn_outputs attention_outputs = Ok (layer_inputs st') /\
    outputs st' = Some (layer_inputs st') /\
    (dim1 past = 0 -> forall b d, at3 attention_outputs b 0 d = 0%R).
Proof.
  intros H.
  apply layer_body_inv in H
    as (sizes & cell & rnn & fin & past & size & emb & att & ss & cat & H).
  destruct H as (Hsizes & _ & _ & Hpast & Hsize & Hemb & Hatt & Hcat & ->).
  apply py_index_ok in Hsizes, Hpast, Hemb.
  apply py_last_ok in Hsize as [Hne Hlast].
  pose proof (self_similarity_attention_inv _ _ _ _ _ _ _ Hatt)
    as (Hd2 & Hp0 & Hp2 & Hshape & _).
  exists sizes, size, emb, past, rnn, att.
  cbn [targets layer_inputs outputs].
  repeat match goal with |- _ /\ _ => split end;
    try assumption; try reflexivity; try congruence.
  intros Hempty b d.
  apply (no_past_first_row_is_zero _ _ _ _ _ _ _ Hempty Hatt b).
Qed.

Lemma layers_loop_step
      (hparams : HParams) (lengths : option (list nat))
      (past_targets : list Tensor3) (inputs : Tensor3) (n : nat)
      (st : LayerLoop RNNState) :
  loop hparams lengths past_targets inputs (S n) = Ok st ->
  exists st0,
    loop hparams lengths past_targets inputs n = Ok st0 /\
    body hparams lengths past_targets n st0 = Ok st.
Proof.
  cbn [layers_loop]. intros H. apply bind_ok in H. exact H.
Qed.

(** A loop that completes [n] iterations has completed each of them. *)
Lemma layers_loop_every_layer
      (hparams : HParams) (lengths : option (list nat))
      (past_targets : list Tensor3) (inputs : Tensor3) (n : nat)
      (st : LayerLoop RNNState) :
  loop hparams lengths past_targets inputs n = Ok st ->
  forall layer,
    layer < n ->
    exists st0 st1,
      loop hparams lengths past_targets inputs layer = Ok st0 /\
      body hparams lengths past_targets layer st0 = Ok st1.
Proof.
  revert st. induction n as [|n IH]; intros st H layer Hlayer; [lia|].
  apply layers_loop_step in H as (st0 & Hst0 & Hbody).
  destruct (Nat.eq_dec layer n) as [->|Hne].
  - exists st0, st. split; assumption.
  - apply (IH st0 Hst0). lia.
Qed.

(** X13.  A layer of the stack only succeeds when the configuration names
    a non-empty list of unit sizes and an embedding size for it, a past
    target exists for it, the recurrent outputs have the size of the last
    sub-cell, and the past targets have the batch size of the recurrent
    outputs and that same feature size.  The input it hands to the next
    layer is then twice as wide as the recurrent outputs. *)
Theorem layer_requirements
        (hparams : HParams) (lengths : option (list nat))
        (past_targets : list Tensor3) (layer : nat)
        (st st' : LayerLoop RNNState) :
  body hparams lengths past_targets layer st = Ok st' ->
  exists sizes embedding_size past rnn_outputs,
    nth_error (rnn_layer_sizes hparams) layer = Some sizes /\
    sizes <> [] /\
    nth_error (embedding_sizes hparams) layer = Some embedding_size /\
    nth_error past_targets layer = Some past /\
    targets st' = targets st ++ [rnn_outputs] /\
    dim2 rnn_outputs = last sizes 0 /\
    dim0 past = dim0 rnn_outputs /\
    dim2 past = last sizes 0 /\
    shape3 (layer_inputs st')
    = (dim0 rnn_outputs, dim1 rnn_outputs, 2 * last sizes 0).
Proof.
  intros H.
  apply layer_body_shapes in H
    as (sizes & size & emb & past & rnn & att & H).
  destruct H as (Hsizes & Hne & Hlast & Hemb & Hpast & Htargets & Hd2
                 & Hp0 & Hp2 & Hshape & Hcat & _).
  exists sizes, emb, past, rnn. subst size.
  repeat match goal with |- _ /\ _ => split end; try assumption.
  apply tf_concat_axis2_inv in Hcat as (_ & _ & Hcshape & _).
  rewrite Hcshape. unfold shape3 in Hshape.
  injection Hshape as _ _ Ha2. rewrite Ha2, Hd2.
  shape_components.
Qed.

(** The last value of [outputs]: unset before the first layer, the input
    of the next layer afterwards. *)
Lemma layers_loop_outputs
      (hparams : HParams) (lengths : option (list nat))
      (past_targets : list Tensor3) (inputs : Tensor3) (n : nat)
      (st : LayerLoop RNNState) :
  loop hparams lengths past_targets inputs n = Ok st ->
  outputs st = if n =? 0 then None else Some (layer_inputs st).
Proof.
  destruct n as [|n]; intros H.
  - injection H as <-. reflexivity.
  - apply layers_loop_step in H as (st0 & _ & Hbody).
    apply layer_body_shapes in Hbody
      as (? & ? & ? & ? & ? & ? & Hbody).
    decompose [and] Hbody. assumption.
Qed.

(** X14.  After [n] iterations of the layer loop the four tracked lists
    ([targets], [initial_state], [final_state], [self_similarity]) have
    one entry per layer, in layer order; [outputs] is unset when there is
    no layer and is the input of the next layer otherwise; with no layer
    the input passes through unchanged. *)
Theorem layers_loop_bookkeeping
        (hparams : HParams) (lengths : option (list nat))
        (past_targets : list Tensor3) (inputs : Tensor3) (n : nat)
        (st : LayerLoop RNNState) :
  loop hparams lengths past_targets inputs n = Ok st ->
  List.length (targets st) = n /\
  List.length (initial_state st) = n /\
  List.length (final_state st) = n /\
  List.length (self_similarity st) = n /\
  outputs st = (if n =? 0 then None else Some (layer_inputs st)) /\
  (n = 0 -> layer_inputs st = inputs).
Proof.
  intros H.
  assert (List.length (targets st) = n /\
          List.length (initial_state st) = n /\
          List.length (final_state st) = n /\
          List.length (self_similarity st) = n) as Hlen.
  { revert st H. induction n as [|n IH]; intros st H.
    - injection H as <-. repeat split.
    - apply layers_loop_step in H as (st0 & Hst0 & Hbody).
      destruct (IH st0 Hst0) as (Ht & Hi & Hf & Hs).
      apply layer_body_inv in Hbody
        as (? & ? & ? & ? & ? & ? & ? & ? & ? & ? & Hbody).
      decompose [and] Hbody. subst st.
      cbn [targets initial_state final_state self_similarity].
      rewrite !length_app, Ht, Hi, Hf, Hs. cbn [List.length].
      repeat split; lia. }
  destruct Hlen as (Ht & Hi & Hf & Hs).
  repeat match goal with |- _ /\ _ => split end; try assumption.
  - apply (layers_loop_outputs _ _ _ _ _ H).
  - intros ->. injection H as <-. reflexivity.
Qed.

(** X15.  With no past targets for any layer (what train and eval graphs
    build), the first step of the stack's output carries no attention: in
    the output of every non-empty stack the attention half of the features
    (the upper half) is 0 at step 0. *)
Theorem no_past_first_step_has_no_attention
        (hparams : HParams) (lengths : option (list nat))
        (past_targets : list Tensor3) (inputs : Tensor3) (n : nat)
        (st : LayerLoop RNNState) :
  Forall (fun past => dim1 past = 0) past_targets ->
  loop hparams lengths past_targets inputs n = Ok st ->
  0 < n ->
  forall b d,
    dim2 (layer_inputs st) <= 2 * d ->
    at3 (layer_inputs st) b 0 d = 0%R.
Proof.
  intros Hpast H Hn b d Hd.
  destruct n as [|n]; [lia|].
  apply layers_loop_step in H as (st0 & _ & Hbody).
  apply layer_body_shapes in Hbody
    as (sizes & size & emb & past & rnn & att & H).
  destruct H as (_ & _ & _ & _ & Hnth & _ & _ & _ & _ & Hshape & Hcat & _
                 & Hzero).
  apply nth_error_In in Hnth.
  rewrite Forall_forall in Hpast. specialize (Hzero (Hpast past Hnth)).
  apply tf_concat_axis2_inv in Hcat as (_ & _ & Hcshape & Hentries).
  rewrite Hentries.
  unfold shape3 in Hshape, Hcshape.
  injection Hshape as _ _ Ha2. injection Hcshape as _ _ Hc2.
  assert ((d <? dim2 rnn) = false) as -> by (apply Nat.ltb_ge; lia).
  apply Hzero.
Qed.

(** The past targets a train or eval graph starts from have no step. *)
Lemma zero_length_past_targets
      (hparams : HParams) (n : nat) (past_targets : list Tensor3) :
  map_result
    (fun layer =>
       sizes <- py_index (rnn_layer_sizes hparams) layer ;;
       size <- py_last sizes ;;
       Ok (tf_zeros (batch_size hparams) 0 size))
    (seq 0 n)
  = Ok past_targets ->
  Forall (fun past => dim1 past = 0) past_targets.
Proof.
  generalize (seq 0 n) as layers. intros layers. revert past_targets.
  induction layers as [|layer layers IH]; intros past_targets H;
    cbn [map_result] in H.
  - injection H as <-. constructor.
  - apply bind_ok in H as (past & Hpast & H).
    apply bind_ok in H as (rest & Hrest & H).
    injection H as <-. constructor; [|apply IH; exact Hrest].
    apply bind_ok in Hpast as (sizes & _ & Hpast).
    apply bind_ok in Hpast as (size & _ & Hpast).
    injection Hpast as <-. reflexivity.
Qed.

(** The layer loop behind every graph that is returned. *)
Lemma build_graph_runs_the_stack
      (mode : string) (config : Config) (paths : option (list string))
      (feeds : Feeds) (out : GraphOutputs StateTensor) :
  graph mode config paths feeds = Ok out ->
  exists lengths past_targets inputs st last_outputs,
    loop (hparams config) lengths past_targets inputs
         (List.length (rnn_layer_sizes (hparams config)))
    = Ok st /\
    outputs st = Some last_outputs /\
    (((mode =? "train") || (mode =? "eval"))%string = true ->
     Forall (fun past => dim1 past = 0) past_targets).
Proof.
  unfold build_graph. intros H.
  apply bind_ok in H as (_ & _ & H).
  apply bind_ok in H as ([[[inputs labels] lengths] past_targets] & Hin & H).
  apply bind_ok in H as (st & Hst & H).
  apply bind_ok in H as (o & Hout & _).
  exists lengths, past_targets, inputs, st, o.
  split; [exact Hst|]. split.
  - destruct (outputs st); [congruence | discriminate].
  - intros Hmode. rewrite Hmode in Hin.
    apply bind_ok in Hin as ([[inputs' labels'] lengths'] & _ & Hin).
    apply bind_ok in Hin as (past & Hpast & Hin).
    injection Hin as _ _ _ <-.
    apply (zero_length_past_targets _ _ Hpast).
Qed.

(** X16.  [build_graph] returns a graph only for a configuration with at
    least one layer, an embedding size for every layer and no empty list
    of unit sizes; with any other configuration every mode fails. *)
Theorem build_graph_needs_a_complete_configuration
        (mode : string) (config : Config) (paths : option (list string))
        (feeds : Feeds) (out : GraphOutputs StateTensor) :
  graph mode config paths feeds = Ok out ->
  1 <= List.length (rnn_layer_sizes (hparams config)) /\
  List.length (rnn_layer_sizes (hparams config))
  <= List.length (embedding_sizes (hparams config)) /\
  Forall (fun sizes => sizes <> []) (rnn_layer_sizes (hparams config)).
Proof.
  intros H.
  apply build_graph_runs_the_stack in H
    as (lengths & past_targets & inputs & st & o & Hloop & Hout & _).
  set (n := List.length (rnn_layer_sizes (hparams config))) in *.
  pose proof (layers_loop_outputs _ _ _ _ _ Hloop) as Houtputs.
  assert (0 < n) as Hn.
  { destruct n; [|lia]. cbn in Houtputs. congruence. }
  assert (forall layer,
             layer < n ->
             exists sizes,
               nth_error (rnn_layer_sizes (hparams config)) layer
               = Some sizes /\
               sizes <> [] /\
               layer < List.length (embedding_sizes (hparams config)))
    as Hlayers.
  { intros layer Hlayer.
    destruct (@layers_loop_every_layer _ _ _ _ _ _ Hloop _ Hlayer)
      as (st0 & st1 & _ & Hbody).
    apply layer_body_shapes in Hbody
      as (sizes & size & emb & past & rnn & att & Hbody).
    destruct Hbody as (Hsizes & Hne & _ & Hemb & _).
    exists sizes. split; [exact Hsizes|]. split; [exact Hne|].
    apply nth_error_Some. congruence. }
  split; [lia|]. split.
  - destruct (Hlayers (n - 1) ltac:(lia)) as (_ & _ & _ & Hlt). lia.
  - apply Forall_forall. intros sizes Hin.
    apply In_nth_error in Hin as [layer Hnth].
    assert (layer < n) as Hlayer
        by (apply nth_error_Some; congruence).
    destruct (Hlayers layer Hlayer) as (sizes' & Hnth' & Hne & _).
    congruence.
Qed.

(** The placeholders of the per-layer past targets hold what was fed. *)
Lemma fed_past_targets
      (hparams : HParams) (fed : list Tensor3) (n : nat)
      (past_targets : list Tensor3) :
  map_result
    (fun layer =>
       sizes <- py_index (rnn_layer_sizes hparams) layer ;;
       size <- py_last sizes ;;
       match nth_error fed layer with
       | Some value => tf_placeholder (batch_size hparams) size value
       | None =>
           Raise (InvalidArgumentError
                    "You must feed a value for placeholder tensor")
       end)
    (seq 0 n)
  = Ok past_targets ->
  n <= List.length fed /\
  past_targets = firstn n fed /\
  Forall (fun past => dim0 past = batch_size hparams) past_targets.
Proof.
  intros H.
  pose proof (@map_result_length _ _ _ _ _ H) as Hlen.
  rewrite length_seq in Hlen.
  assert (forall layer,
             layer < n ->
             exists past,
               nth_error fed layer = Some past /\
               nth_error past_targets layer = Some past /\
               dim0 past = batch_size hparams) as Hnth.
  { intros layer Hlayer.
    assert (nth_error (seq 0 n) layer = Some layer) as Hseq.
    { rewrite nth_error_nth' with (d := 0) by (rewrite length_seq; lia).
      rewrite seq_nth by lia. reflexivity. }
    destruct (@map_result_nth _ _ _ _ _ _ _ H Hseq)
      as (past & Hrun & Hpast).
    apply bind_ok in Hrun as (sizes & _ & Hrun).
    apply bind_ok in Hrun as (size & _ & Hrun).
    destruct (nth_error fed layer) as [value|]; [|discriminate].
    unfold tf_placeholder in Hrun.
    destruct ((dim0 value =? batch_size hparams) && (dim2 value =? size))
             eqn:E; [|discriminate].
    injection Hrun as <-.
    apply andb_true_iff in E as [E0 _]. apply Nat.eqb_eq in E0.
    exists value. repeat split; assumption. }
  assert (n <= List.length fed) as Hle.
  { destruct n as [|n]; [lia|].
    destruct (Hnth n ltac:(lia)) as (past & Hfed & _).
    assert (n < List.length fed) by (apply nth_error_Some; congruence).
    lia. }
  split; [exact Hle|]. split.
  - apply nth_error_ext. intros k.
    destruct (Nat.lt_ge_cases k n) as [Hk|Hk].
    + destruct (Hnth k Hk) as (past & Hfed & Hpast & _).
      rewrite nth_error_firstn.
      assert ((k <? n) = true) as -> by (apply Nat.ltb_lt; exact Hk).
      congruence.
    + rewrite nth_error_firstn.
      assert ((k <? n) = false) as -> by (apply Nat.ltb_ge; exact Hk).
      apply nth_error_None. lia.
  - apply Forall_forall. intros past Hin.
    apply In_nth_error in Hin as [k Hk].
    assert (k < n) as Hlt
        by (rewrite <- Hlen; apply nth_error_Some; congruence).
    destruct (Hnth k Hlt) as (past' & _ & Hpast' & Hdim). congruence.
Qed.

(** X17.  A generate graph that is returned has read a value for the
    inputs and for each layer's past targets: the [inputs] fed have the
    configured batch and input sizes, at least one past-target tensor per
    layer was fed, each with the configured batch size, and the graph
    exposes exactly the first [num_layers] of them as [past_targets],
    together with one [targets] tensor per layer. *)
Theorem generate_graph_collections
        (config : Config) (paths : option (list string)) (feeds : Feeds)
        (out : GraphOutputs StateTensor) :
  graph "generate"%string config paths feeds = Ok out ->
  let num_layers := List.length (rnn_layer_sizes (hparams config)) in
  exists softmax targets initial_state final_state,
    out = GenerateOutputs softmax targets
                          (firstn num_layers (feed_past_targets feeds))
                          initial_state final_state /\
    List.length targets = num_layers /\
    num_layers <= List.length (feed_past_targets feeds) /\
    dim0 (feed_inputs feeds) = batch_size (hparams config) /\
    dim2 (feed_inputs feeds) = input_size (encoder_decoder config) /\
    Forall (fun past => dim0 past = batch_size (hparams config))
           (firstn num_layers (feed_past_targets feeds)).
Proof.
  intros H num_layers. subst num_layers. unfold build_graph in H.
  apply bind_ok in H as (_ & _ & H).
  change (("generate" =? "train")%string) with false in H.
  change (("generate" =? "eval")%string) with false in H.
  cbn [orb] in H.
  apply bind_ok in H as ([[[inputs labels] lengths] past_targets] & Hin & H).
  apply bind_ok in Hin as (inputs' & Hfeed & Hin).
  apply bind_ok in Hin as (past & Hpast & Hin).
  injection Hin as <- <- <- <-.
  apply bind_ok in H as (st & Hst & H).
  apply bind_ok in H as (o & _ & H).
  apply bind_ok in H as (softmax & _ & H).
  injection H as <-.
  apply fed_past_targets in Hpast as (Hle & -> & Hbatch).
  unfold tf_placeholder in Hfeed.
  destruct ((dim0 (feed_inputs feeds) =? batch_size (hparams config))
            && (dim2 (feed_inputs feeds)
                =? input_size (encoder_decoder config))) eqn:E;
    [|discriminate].
  apply andb_true_iff in E as [E0 E2]. apply Nat.eqb_eq in E0, E2.
  do 4 eexists. split; [reflexivity|].
  split; [apply (layers_loop_targets_length _ _ _ _ _ _ _ _ _ _ _ Hst)|].
  repeat split; assumption.
Qed.

(** Train and eval graphs never read the feeds, and a generate graph
    never reads the file paths: changing them leaves the result as it
    is. *)
Theorem modes_read_their_own_inputs
        (config : Config) (paths paths' : option (list string))
        (feeds feeds' : Feeds) :
  graph "train"%string config paths feeds
  = graph "train"%string config paths feeds' /\
  graph "eval"%string config paths feeds
  = graph "eval"%string config paths feeds' /\
  graph "generate"%string config paths feeds
  = graph "generate"%string config paths' feeds.
Proof.
  split; [|split]; reflexivity.
Qed.

(** X18.  A generate graph fed inputs whose batch size or feature size is
    not the configured one returns nothing: the run fails. *)
Theorem generate_graph_rejects_misshapen_inputs
        (config : Config) (paths : option (list string)) (feeds : Feeds) :
  dim0 (feed_inputs feeds) <> batch_size (hparams config)
  \/ dim2 (feed_inputs feeds) <> input_size (encoder_decoder config) ->
  exists e, graph "generate"%string config paths feeds = Raise e.
Proof.
  intros H. unfold build_graph.
  change (check_mode "generate") with (@Ok unit tt). cbn [bind].
  change (("generate" =? "train")%string) with false.
  change (("generate" =? "eval")%string) with false.
  cbn [orb]. unfold tf_placeholder at 1.
  destruct ((dim0 (feed_inputs feeds) =? batch_size (hparams config))
            && (dim2 (feed_inputs feeds)
                =? input_size (encoder_decoder config))) eqn:E.
  - apply andb_true_iff in E as [E0 E2]. apply Nat.eqb_eq in E0, E2. lia.
  - cbn [bind]. eexists. reflexivity.
Qed.

End GraphExtras.

Lemma layer_requirements_witness :
  exists st' sizes,
    sample_layer_body (hparams sample_config) None [tf_zeros 2 0 4]
                      0 (layer_loop_start unit (feed_inputs sample_feeds))
    = Ok st' /\
    nth_error (rnn_layer_sizes (hparams sample_config)) 0 = Some sizes /\
    sizes <> [].
Proof.
  eexists.
  destruct (@layer_requirements
              (list nat) unit sample_base_cell sample_MultiRNNCell
              sample_zero_state sample_dynamic_rnn (fun _ => sample_conv)
              (fun _ => sample_conv_1) (hparams sample_config) None
              [tf_zeros 2 0 4] 0
              (layer_loop_start unit (feed_inputs sample_feeds)) _ eq_refl)
    as (sizes & emb & past & rnn & Hsizes & Hne & _).
  exists sizes. split; [reflexivity|]. split; [exact Hsizes | exact Hne].
Defined.

Lemma layers_loop_bookkeeping_witness :
  exists st,
    sample_layers_loop (hparams sample_config) None
                       [tf_zeros 2 0 4]
                       (feed_inputs sample_feeds) 1
    = Ok st /\
    List.length (targets st) = 1 /\
    List.length (self_similarity st) = 1.
Proof.
  eexists.
  destruct (@layers_loop_bookkeeping
              (list nat) unit sample_base_cell sample_MultiRNNCell
              sample_zero_state sample_dynamic_rnn (fun _ => sample_conv)
              (fun _ => sample_conv_1) (hparams sample_config) None
              [tf_zeros 2 0 4] (feed_inputs sample_feeds)
              1 _ eq_refl)
    as (Ht & _ & _ & Hs & _).
  split; [reflexivity|]. split; [exact Ht | exact Hs].
Defined.

Lemma no_past_first_step_has_no_attention_witness :
  exists st,
    sample_layers_loop (hparams sample_config) None
                       [tf_zeros 2 0 4]
                       (feed_inputs sample_feeds) 1
    = Ok st /\
    shape3 (layer_inputs st) = (2, 3, 8) /\
    at3 (layer_inputs st) 1 0 5 = 0%R.
Proof.
  eexists. split; [reflexivity|]. split; [reflexivity|].
  apply (@no_past_first_step_has_no_attention
           (list nat) unit sample_base_cell sample_MultiRNNCell
           sample_zero_state sample_dynamic_rnn (fun _ => sample_conv)
           (fun _ => sample_conv_1) (hparams sample_config) None
           [tf_zeros 2 0 4] (feed_inputs sample_feeds)
           1 _).
  - repeat constructor.
  - reflexivity.
  - lia.
  - simpl. lia.
Defined.

Lemma build_graph_needs_a_complete_configuration_witness :
  1 <= List.length (rnn_layer_sizes (hparams sample_config))
  /\ List.length (rnn_layer_sizes (hparams sample_config))
     <= List.length (embedding_sizes (hparams sample_config)).
Proof.
  destruct (@build_graph_needs_a_complete_configuration
              (list nat) unit unit sample_base_cell sample_MultiRNNCell
              sample_zero_state sample_dynamic_rnn sample_nest_flatten
              (fun _ => sample_conv) (fun _ => sample_conv_1) sample_linear
              sample_get_padded_batch sample_flatten sample_flatten_labels
              sample_metrics_mean sample_metrics_accuracy
              sample_metrics_per_class sample_metrics_recall
              "train" sample_config None sample_feeds _ eq_refl)
    as (H1 & H2 & _).
  split; [exact H1 | exact H2].
Defined.

Lemma generate_graph_collections_witness :
  exists softmax targets initial_state final_state,
    sample_build_graph "generate" sample_config None sample_feeds
    = Ok (GenerateOutputs softmax targets [tf_zeros 2 1 4]
                          initial_state final_state) /\
    List.length targets = 1.
Proof.
  destruct sample_graphs_build as (_ & _ & Hbuilt).
  destruct Hbuilt as (softmax0 & targets0 & past0 & initial0 & final0 & Hrun).
  destruct (@generate_graph_collections
              (list nat) unit unit sample_base_cell sample_MultiRNNCell
              sample_zero_state sample_dynamic_rnn sample_nest_flatten
              (fun _ => sample_conv) (fun _ => sample_conv_1) sample_linear
              sample_get_padded_batch sample_flatten sample_flatten_labels
              sample_metrics_mean sample_metrics_accuracy
              sample_metrics_per_class sample_metrics_recall
              sample_config None sample_feeds _ Hrun)
    as (softmax & targets & initial & final & Hout & Hlen & _).
  exists softmax, targets, initial, final.
  split; [|exact Hlen].
  rewrite Hrun, Hout. reflexivity.
Defined.

Lemma generate_graph_rejects_misshapen_inputs_witness :
  exists e,
    sample_build_graph "generate" sample_config None
                       sample_feeds_wrong_batch
    = Raise e.
Proof.
  apply (@generate_graph_rejects_misshapen_inputs
           (list nat) unit unit sample_base_cell sample_MultiRNNCell
           sample_zero_state sample_dynamic_rnn sample_nest_flatten
           (fun _ => sample_conv) (fun _ => sample_conv_1) sample_linear
           sample_get_padded_batch sample_flatten sample_flatten_labels
           sample_metrics_mean sample_metrics_accuracy
           sample_metrics_per_class sample_metrics_recall
           sample_config None sample_feeds_wrong_batch).
  left. simpl. lia.
Defined.

(** ** Step counts, loss and metrics, continued *)

(** X19.  Padding never reaches the step count: for sequences padded in
    any way and listed with their true lengths, the count of the batch is
    the sum of what the encoder/decoder counts on the unpadded
    sequences. *)
Theorem batch_labels_to_num_steps_ignores_padding
        (encoder_decoder : EncoderDecoder)
        (batch : list (list Z * list Z)) :
  batch_labels_to_num_steps
    encoder_decoder
    (map (fun p => fst p ++ snd p) batch)
    (map (fun p => List.length (fst p)) batch)
  = IZR (fold_right
           Z.add 0%Z
           (map (fun p => labels_to_num_steps encoder_decoder (fst p))
                batch)).
Proof.
  rewrite batch_labels_to_num_steps_sum. do 2 f_equal.
  induction batch as [|[labels padding] batch IH];
    cbn [map combine fst snd].
  - reflexivity.
  - rewrite IH. do 2 f_equal.
    rewrite firstn_app, Nat.sub_diag, firstn_O, app_nil_r.
    apply firstn_all.
Qed.

Lemma rsum_plus (n : nat) (f g : nat -> R) :
  rsum n (fun k => (f k + g k)%R) = (rsum n f + rsum n g)%R.
Proof.
  induction n as [|n IH]; simpl.
  - lra.
  - rewrite IH. lra.
Qed.

Lemma rsum_ones (n : nat) : rsum n (fun _ => 1%R) = INR n.
Proof.
  induction n as [|n IH].
  - reflexivity.
  - cbn [rsum]. rewrite IH, S_INR. reflexivity.
Qed.

Lemma ln_le_of_le (x y : R) : (0 < x)%R -> (x <= y)%R -> (ln x <= ln y)%R.
Proof.
  intros Hx [Hlt|Heq].
  - left. apply ln_increasing; assumption.
  - right. rewrite Heq. reflexivity.
Qed.

(** X20.  Every per-position cross-entropy is non-negative, so on a
    non-empty batch the train loss is non-negative and the perplexity is at
    least 1. *)
Theorem cross_entropy_is_nonnegative
        (labels : list Z) (logits : Tensor2) (softmax_cross_entropy : Vector)
        (correct_predictions event_positions no_event_positions : Vector)
        (num_steps : R) :
  sparse_softmax_cross_entropy_with_logits labels logits
  = Ok softmax_cross_entropy ->
  (forall n, n < vlen softmax_cross_entropy ->
             (0 <= vat softmax_cross_entropy n)%R) /\
  (0 < vlen softmax_cross_entropy ->
   exists loss perplexity,
     lookup "loss"
            (train_metrics softmax_cross_entropy correct_predictions
                           event_positions no_event_positions num_steps)
     = Some loss /\
     lookup "metrics/perplexity"
            (train_metrics softmax_cross_entropy correct_predictions
                           event_positions no_event_positions num_steps)
     = Some perplexity /\
     (0 <= loss)%R /\ (1 <= perplexity)%R).
Proof.
  intros H.
  assert (forall n, n < vlen softmax_cross_entropy ->
                    (0 <= vat softmax_cross_entropy n)%R) as Hnonneg.
  { unfold sparse_softmax_cross_entropy_with_logits in H.
    destruct (List.length labels =? rows logits) eqn:Elen;
      cbn [negb] in H; [|discriminate].
    destruct (forallb _ labels) eqn:Erange; cbn [negb] in H; [|discriminate].
    injection H as <-. cbn [vlen vat]. intros n Hn.
    apply Nat.eqb_eq in Elen.
    rewrite forallb_forall in Erange.
    assert (In (nth n labels 0%Z) labels) as Hin
        by (apply nth_In; lia).
    specialize (Erange _ Hin).
    apply andb_true_iff in Erange as [Hlo Hhi].
    apply Z.leb_le in Hlo. apply Z.ltb_lt in Hhi.
    set (c := Z.to_nat (nth n labels 0%Z)) in *.
    assert (c < cols logits) as Hc by lia.
    assert (exp (at2 logits n c)
            <= rsum (cols logits) (fun k => exp (at2 logits n k)))%R as Hle.
    { apply (rsum_term_le (fun k => exp (at2 logits n k))); [|exact Hc].
      intros k _. left. apply exp_pos. }
    pose proof (ln_le_of_le (exp_pos (at2 logits n c)) Hle) as Hln.
    rewrite ln_exp in Hln. lra. }
  split; [exact Hnonneg|].
  intros Hpos. eexists. eexists.
  split; [reflexivity|]. split; [reflexivity|].
  assert (0 <= tf_reduce_mean softmax_cross_entropy)%R as Hloss.
  { unfold tf_reduce_mean, Rdiv. apply Rmult_le_pos.
    - apply rsum_nonneg. exact Hnonneg.
    - left. apply Rinv_0_lt_compat. apply lt_0_INR. exact Hpos. }
  split; [exact Hloss|].
  pose proof (exp_ineq1_le (tf_reduce_mean softmax_cross_entropy)). lra.
Qed.

Lemma cross_entropy_is_nonnegative_witness :
  exists softmax_cross_entropy,
    sparse_softmax_cross_entropy_with_logits
      [0; 1; 0; 0; 1; 0]%Z
      (tf_linear sample_linear (sample_flatten sample_inputs_2x3x4 None) 2)
    = Ok softmax_cross_entropy /\
    (0 <= vat softmax_cross_entropy 4)%R.
Proof.
  eexists. split; [reflexivity|].
  refine (proj1 (@cross_entropy_is_nonnegative
                   [0; 1; 0; 0; 1; 0]%Z
                   (tf_linear sample_linear
                              (sample_flatten sample_inputs_2x3x4 None) 2)
                   _ (tf_fill 6 1) (tf_fill 6 1) (tf_fill 6 0) 6%R eq_refl)
                4 _).
  simpl. lia.
Defined.

(** X21.  The event and no-event positions split the batch, so the train
    accuracy is the average of the event accuracy and the no-event accuracy
    weighted by the two counts (when both kinds of position occur). *)
Theorem accuracy_splits_by_event
        (softmax_cross_entropy correct_predictions : Vector)
        (labels_flat : list Z) (no_event_label : Z) (num_steps : R) :
  let no_event_labels := map (fun _ => no_event_label) labels_flat in
  let event_positions := to_float_not_equal labels_flat no_event_labels in
  let no_event_positions := to_float_equal labels_flat no_event_labels in
  let vars :=
    train_metrics softmax_cross_entropy correct_predictions event_positions
                  no_event_positions num_steps in
  vlen correct_predictions = List.length labels_flat ->
  tf_reduce_sum event_positions <> 0%R ->
  tf_reduce_sum no_event_positions <> 0%R ->
  exists accuracy event_accuracy no_event_accuracy,
    lookup "metrics/accuracy" vars = Some accuracy /\
    lookup "metrics/event_accuracy" vars = Some event_accuracy /\
    lookup "metrics/no_event_accuracy" vars = Some no_event_accuracy /\
    (tf_reduce_sum event_positions + tf_reduce_sum no_event_positions
     = INR (List.length labels_flat))%R /\
    (accuracy * INR (List.length labels_flat)
     = event_accuracy * tf_reduce_sum event_positions
       + no_event_accuracy * tf_reduce_sum no_event_positions)%R.
Proof.
  intros nl ev nev vars Hlen Hev Hnev.
  set (n := List.length labels_flat) in *.
  assert (tf_reduce_sum ev + tf_reduce_sum nev = INR n)%R as Hcount.
  { unfold tf_reduce_sum, ev, nev. cbn [vlen vat]. fold n.
    rewrite <- rsum_plus, <- rsum_ones.
    apply rsum_ext. intros k _.
    cbn [vat to_float_equal to_float_not_equal].
    destruct (nth k labels_flat 0 =? nth k nl 0)%Z; lra. }
  assert (tf_reduce_sum (tf_multiply correct_predictions ev)
          + tf_reduce_sum (tf_multiply correct_predictions nev)
          = tf_reduce_sum correct_predictions)%R as Hsplit.
  { unfold tf_reduce_sum, tf_multiply, ev, nev. cbn [vlen vat].
    rewrite <- rsum_plus. apply rsum_ext. intros k _.
    cbn [vat to_float_equal to_float_not_equal].
    destruct (nth k labels_flat 0 =? nth k nl 0)%Z; lra. }
  assert (INR n <> 0%R) as Hn.
  { intros Hzero. assert (n = 0) as Hn0 by (apply INR_eq; exact Hzero).
    apply Hev. unfold tf_reduce_sum, ev.
    cbn [vlen to_float_not_equal]. fold n. rewrite Hn0. reflexivity. }
  do 3 eexists.
  split; [reflexivity|]. split; [reflexivity|]. split; [reflexivity|].
  split; [exact Hcount|].
  assert (tf_reduce_mean correct_predictions * INR n
          = tf_reduce_sum correct_predictions)%R as Hmean.
  { unfold tf_reduce_mean, tf_reduce_sum. rewrite Hlen. field. exact Hn. }
  rewrite Hmean, <- Hsplit. fold ev nev. field. split; assumption.
Qed.

Lemma accuracy_splits_by_event_witness :
  exists accuracy event_accuracy no_event_accuracy,
    lookup "metrics/accuracy"
           (train_metrics (tf_fill 3 2) (tf_fill 3 1)
                          (to_float_not_equal [0; 1; 0]%Z [0; 0; 0]%Z)
                          (to_float_equal [0; 1; 0]%Z [0; 0; 0]%Z) 3)
    = Some accuracy /\
    (accuracy * 3
     = event_accuracy
       * tf_reduce_sum (to_float_not_equal [0; 1; 0]%Z [0; 0; 0]%Z)
       + no_event_accuracy
         * tf_reduce_sum (to_float_equal [0; 1; 0]%Z [0; 0; 0]%Z))%R.
Proof.
  destruct (@accuracy_splits_by_event
              (tf_fill 3 2) (tf_fill 3 1) [0; 1; 0]%Z 0%Z 3%R)
    as (acc & eacc & nacc & Hacc & _ & _ & _ & Hsplit).
  - reflexivity.
  - unfold tf_reduce_sum. simpl. lra.
  - unfold tf_reduce_sum. simpl. lra.
  - exists acc, eacc, nacc. split; [exact Hacc|].
    simpl in Hsplit.
    replace 3%R with (1 + 1 + 1)%R by lra. exact Hsplit.
Defined.

(** Every step of what the sampling tail returns sums to 1 over the
    classes, with entries between 0 and 1. *)
Lemma generate_softmax_distribution
        (logits_flat : Tensor2) (temperature : R)
        (batch_size num_classes : nat) (softmax : Tensor3) :
  generate_softmax logits_flat temperature batch_size num_classes
  = Ok softmax ->
  cols logits_flat = num_classes ->
  forall b s,
    rsum num_classes (at3 softmax b s) = 1%R /\
    forall c, c < num_classes -> (0 <= at3 softmax b s c <= 1)%R.
Proof.
  unfold generate_softmax, tf_reshape_3d.
  cbn [rows cols tf_softmax tf_div].
  destruct (batch_size * num_classes =? 0) eqn:E; cbn [orb negb];
    [discriminate|].
  destruct (rows logits_flat * cols logits_flat
            mod (batch_size * num_classes) =? 0); cbn [negb];
    [|discriminate].
  intros H Hcols. injection H as <-. intros b s.
  apply Nat.eqb_neq in E.
  assert (0 < num_classes) as Hpos by nia.
  cbn [at3]. cbv zeta. rewrite Hcols.
  set (n := b * (rows logits_flat * num_classes
                 / (batch_size * num_classes)) + s).
  set (scores := fun k => (at2 logits_flat n k / temperature)%R).
  split.
  - rewrite <- (prefix_softmax_sums_to_one scores Hpos).
    apply rsum_ext. intros c Hc.
    destruct (reshape_index n Hc) as [Hdiv Hmod].
    rewrite Hdiv, Hmod. reflexivity.
  - intros c Hc.
    destruct (reshape_index n Hc) as [Hdiv Hmod].
    rewrite Hdiv, Hmod.
    change (0 <= prefix_softmax scores num_classes c <= 1)%R. split.
    + left. apply prefix_softmax_pos. exact Hpos.
    + apply prefix_softmax_le_one. exact Hc.
Qed.

Section GraphDistribution.

Variable RNNCell : Type.
Variable RNNState : Type.
Variable StateTensor : Type.
Variable base_cell : nat -> RNNCell.
Variable MultiRNNCell : list RNNCell -> result RNNCell.
Variable zero_state : RNNCell -> nat -> RNNState.
Variable dynamic_rnn :
  nat -> RNNCell -> Tensor3 -> option (list nat) -> RNNState ->
  result (Tensor3 * RNNState).
Variable tf_nest_flatten : RNNState -> list StateTensor.
Variable conv_variables : nat -> ConvVariables.
Variable conv_1_variables : nat -> ConvVariables.
Variable linear_variables : LinearVariables.
Variable get_padded_batch :
  option (list string) -> nat -> nat -> bool ->
  result (Tensor3 * list (list Z) * list nat).
Variable flatten_maybe_padded_sequences :
  Tensor3 -> option (list nat) -> Tensor2.
Variable flatten_maybe_padded_labels : list (list Z) -> list nat -> list Z.
Variable tf_metrics_mean : Vector -> option R -> R.
Variable tf_metrics_accuracy : list Z -> list Z -> R.
Variable tf_metrics_mean_per_class_accuracy : list Z -> list Z -> nat -> R.
Variable tf_metrics_recall : Vector -> Vector -> R.

Local Abbreviation graph :=
  (build_graph base_cell MultiRNNCell zero_state dynamic_rnn tf_nest_flatten
               conv_variables conv_1_variables linear_variables
               get_padded_batch flatten_maybe_padded_sequences
               flatten_maybe_padded_labels tf_metrics_mean
               tf_metrics_accuracy tf_metrics_mean_per_class_accuracy
               tf_metrics_recall).

(** X22.  At a fed temperature other than 0, every step of the [softmax]
    a generate graph reports is a probability distribution over the
    classes: its entries lie between 0 and 1 and sum to 1. *)
Theorem generate_softmax_is_a_distribution
        (config : Config) (paths : option (list string)) (feeds : Feeds)
        (softmax : Tensor3) (targets past_targets : list Tensor3)
        (initial_state final_state : list StateTensor) :
  graph "generate"%string config paths feeds
  = Ok (GenerateOutputs softmax targets past_targets initial_state
                        final_state) ->
  feed_temperature feeds <> 0%R ->
  let num_classes := num_classes (encoder_decoder config) in
  dim2 softmax = num_classes /\
  forall b s,
    b < dim0 softmax -> s < dim1 softmax ->
    rsum num_classes (at3 softmax b s) = 1%R /\
    forall c, c < num_classes -> (0 <= at3 softmax b s c <= 1)%R.
Proof.
  intros H _ C.
  apply build_graph_generate_outputs in H
    as (inputs & past & st & outputs_last & softmax' & _ & _ & _
        & Hsoft & Heq).
  injection Heq as Hs _ _ _ _. subst softmax'.
  split.
  - unfold generate_softmax, tf_reshape_3d in Hsoft.
    destruct (_ || _) in Hsoft; [discriminate|].
    injection Hsoft as <-. reflexivity.
  - intros b s _ _.
    apply (@generate_softmax_distribution _ _ _ _ _ Hsoft eq_refl b s).
Qed.

End GraphDistribution.

Lemma generate_softmax_is_a_distribution_witness :
  feed_temperature sample_feeds <> 0%R /\
  exists softmax targets past_targets initial_state final_state,
    sample_build_graph "generate" sample_config None sample_feeds
    = Ok (GenerateOutputs softmax targets past_targets initial_state
                          final_state) /\
    dim2 softmax = 2.
Proof.
  assert (feed_temperature sample_feeds <> 0%R) as Htemp
      by (simpl; lra).
  split; [exact Htemp|].
  destruct sample_graphs_build
    as (_ & _ & softmax & targets & past & initial & final & Hrun).
  exists softmax, targets, past, initial, final.
  split; [exact Hrun|].
  exact (proj1 (@generate_softmax_is_a_distribution
                  (list nat) unit unit sample_base_cell sample_MultiRNNCell
                  sample_zero_state sample_dynamic_rnn sample_nest_flatten
                  (fun _ => sample_conv) (fun _ => sample_conv_1)
                  sample_linear sample_get_padded_batch sample_flatten
                  sample_flatten_labels sample_metrics_mean
                  sample_metrics_accuracy sample_metrics_per_class
                  sample_metrics_recall sample_config None sample_feeds
                  softmax targets past initial final Hrun Htemp)).
Defined.
